(** * Weeklypedia: the weekly-update assistant's analysis pipeline

    A shallow embedding of the TypeScript sources under
    [weekly-update-assistant/src]: the rate limiter
    ([ai-agent/utils/rateLimiter.ts]), the categorizer
    ([ai-agent/categorizer.ts]), the summarizer ([ai-agent/summarizer.ts]),
    the content processor ([ai-agent/notionProcessor.ts]), the agent
    [WeeklyUpdateAIAgent], [lib/ai.ts] and the [/api/analyze] route.

    Conventions of the embedding.
    - A JavaScript string is a [string]: a sequence of code units.  Case
      mapping and white space follow ECMAScript on the ASCII range; code
      units from 128 up are carried along unchanged (they have no case and
      are not white space here).
    - [async] functions run one after another inside one request, so an
      awaited call is a call.  Effects are explicit: a computation is a
      function of a [World] (wall clock, issued model calls, the shared
      rate limiter) that either returns or throws.  The wall clock never
      runs backwards, and any amount of time may pass between two
      readings of it.
    - The generative model, [JSON.parse], the GitHub client and the
      locale's date rendering are not code of the repository; they are
      parameters, and every theorem holds whatever they do.
    - [console] output and the [serverLogManager] buffer are write-only
      for the pipeline (no branch reads them, and appending to them cannot
      throw); they are left out. *)

From Stdlib Require Import ZArith NArith List String Ascii Bool Lia.
From Stdlib Require Import Permutation Sorted DecimalString.
Import ListNotations.

Local Open Scope string_scope.
Local Open Scope Z_scope.

(** ** JavaScript string built-ins used by the pipeline *)

Module JS.

Definition nat_of_code (c : ascii) : nat := nat_of_ascii c.

(** [\s] and the characters removed by [String.prototype.trim]:
    TAB, LF, VT, FF, CR and SPACE. *)
Definition isWhiteSpace (c : ascii) : bool :=
  let n := nat_of_code c in
  ((9 <=? n)%nat && (n <=? 13)%nat) || (n =? 32)%nat.

(** [\d] *)
Definition isDigit (c : ascii) : bool :=
  let n := nat_of_code c in (48 <=? n)%nat && (n <=? 57)%nat.

Definition isUpper (c : ascii) : bool :=
  let n := nat_of_code c in (65 <=? n)%nat && (n <=? 90)%nat.

Definition isLower (c : ascii) : bool :=
  let n := nat_of_code c in (97 <=? n)%nat && (n <=? 122)%nat.

Definition lowerChar (c : ascii) : ascii :=
  if isUpper c then ascii_of_nat (nat_of_code c + 32) else c.

Definition upperChar (c : ascii) : ascii :=
  if isLower c then ascii_of_nat (nat_of_code c - 32) else c.

Fixpoint toLowerCase (s : string) : string :=
  match s with
  | EmptyString => EmptyString
  | String c r => String (lowerChar c) (toLowerCase r)
  end.

Fixpoint toUpperCase (s : string) : string :=
  match s with
  | EmptyString => EmptyString
  | String c r => String (upperChar c) (toUpperCase r)
  end.

Fixpoint trimStart (s : string) : string :=
  match s with
  | EmptyString => EmptyString
  | String c r => if isWhiteSpace c then trimStart r else s
  end.

Fixpoint trimEnd (s : string) : string :=
  match s with
  | EmptyString => EmptyString
  | String c r =>
      match trimEnd r with
      | EmptyString => if isWhiteSpace c then EmptyString
                       else String c EmptyString
      | r' => String c r'
      end
  end.

Definition trim (s : string) : string := trimEnd (trimStart s).

(** [s.startsWith(p)] *)
Definition startsWith (s p : string) : bool := String.prefix p s.

(** [s.includes(sub)] *)
Fixpoint includes (s sub : string) : bool :=
  String.prefix sub s ||
  match s with
  | EmptyString => false
  | String _ r => includes r sub
  end.

(** [s.endsWith(p)]: some suffix of [s] is [p]. *)
Fixpoint endsWith (s p : string) : bool :=
  String.eqb s p ||
  match s with
  | EmptyString => false
  | String _ r => endsWith r p
  end.

(** [s.charAt(0).toUpperCase() + s.slice(1)] *)
Definition capitalizeFirst (s : string) : string :=
  match s with
  | EmptyString => EmptyString
  | String c r => String (upperChar c) r
  end.

(** The remainder of [s] after the literal [p], when [s] starts with it. *)
Fixpoint afterPrefix (p s : string) : option string :=
  match p, s with
  | EmptyString, _ => Some s
  | String a p', String b s' =>
      if Ascii.eqb a b then afterPrefix p' s' else None
  | String _ _, EmptyString => None
  end.

(** The same under the [i] flag, for a pattern written in lower case. *)
Fixpoint afterPrefixIgnoreCase (p s : string) : option string :=
  match p, s with
  | EmptyString, _ => Some s
  | String a p', String b s' =>
      if Ascii.eqb a (lowerChar b) then afterPrefixIgnoreCase p' s'
      else None
  | String _ _, EmptyString => None
  end.

(** [s.replace(/^(w1|w2|...):\s*/i, "")]: the alternatives are tried in
    order; the colon must follow the word; [\s*] is greedy. *)
Fixpoint stripLabel (words : list string) (s : string) : string :=
  match words with
  | [] => s
  | w :: ws =>
      match afterPrefixIgnoreCase (w ++ ":") s with
      | Some r => trimStart r
      | None => stripLabel ws s
      end
  end.

Fixpoint dropDigits (s : string) : string :=
  match s with
  | EmptyString => EmptyString
  | String c r => if isDigit c then dropDigits r else s
  end.

(** [s.replace(/^PR #\d+:\s*/, "")] *)
Definition stripPullRequestNumber (s : string) : string :=
  match afterPrefix "PR #" s with
  | Some (String d r) =>
      if isDigit d then
        match dropDigits r with
        | String ":" r' => trimStart r'
        | _ => s
        end
      else s
  | _ => s
  end.

(** The decimal rendering of an integer, as in a template literal. *)
Definition numberToString (z : Z) : string :=
  NilZero.string_of_int (Z.to_int z).

(** [arr.join(sep)] *)
Definition join (sep : string) (l : list string) : string :=
  String.concat sep l.

(** [arr.filter((x, i, a) => a.indexOf(x) === i)]: the first occurrence
    of every value, in order. *)
Fixpoint uniqueFirst (seen l : list string) : list string :=
  match l with
  | [] => []
  | x :: r =>
      if existsb (String.eqb x) seen then uniqueFirst seen r
      else x :: uniqueFirst (x :: seen) r
  end.

End JS.


(** ** Effects: a world, and computations that return or throw *)

Inductive exn : Type :=
| ApiKeyNotConfigured            (* "Google AI API key is not configured" *)
| ModelFailure                   (* the model call rejected *)
| SyntaxError                    (* JSON.parse *)
| TypeError                      (* a property of undefined, not a function *)
| FetchFailure                   (* the GitHub client rejected *)
| AnalysisFailed (cause : exn).  (* "AI Agent analysis failed: ..." *)

Inductive Result (A : Type) : Type :=
| Returned (a : A)
| Threw (e : exn).
Arguments Returned {A} a.
Arguments Threw {A} e.

(** [class RateLimiter]: its three fields. *)
Record RateLimiter : Type := {
  requests : list Z;
  maxRequests : Z;
  timeWindow : Z
}.

(** The state the pipeline runs in.  [clock] is what [Date.now()] returned
    last; [ticks] holds the milliseconds that will have passed at each later
    reading of the clock, so that any amount of time may pass between two
    readings; [modelCalls] counts the [generateContent] calls issued so far;
    [limiter] is the rate limiter the module exports. *)
Record World : Type := {
  clock : Z;
  ticks : list N;
  modelCalls : nat;
  limiter : RateLimiter
}.

Definition M (A : Type) : Type := World -> Result A * World.

Definition ret {A} (a : A) : M A := fun w => (Returned a, w).

Definition throw {A} (e : exn) : M A := fun w => (Threw e, w).

Definition bind {A B} (m : M A) (k : A -> M B) : M B :=
  fun w =>
    match m w with
    | (Returned a, w') => k a w'
    | (Threw e, w') => (Threw e, w')
    end.

(** [try { body } catch (error) { handler }] *)
Definition tryCatch {A} (body : M A) (handler : exn -> M A) : M A :=
  fun w =>
    match body w with
    | (Returned a, w') => (Returned a, w')
    | (Threw e, w') => handler e w'
    end.

(** A synchronous function that may throw, used inside a computation. *)
Definition lift {A} (r : Result A) : M A := fun w => (r, w).

Declare Scope js_scope.
Delimit Scope js_scope with js.
Notation "x <- m ;; k" := (bind m (fun x => k))
  (at level 61, m at next level, right associativity) : js_scope.
Notation "m ;; k" := (bind m (fun _ => k))
  (at level 61, right associativity) : js_scope.
Local Open Scope js_scope.

(** [for (const x of xs) { out.push(await f(x)) }] *)
Fixpoint forEachM {A B} (f : A -> M B) (xs : list A) : M (list B) :=
  match xs with
  | [] => ret []
  | x :: r => y <- f x ;; ys <- forEachM f r ;; ret (y :: ys)
  end.

(** [Date.now()] *)
Definition Date_now : M Z :=
  fun w =>
    match ticks w with
    | [] => (Returned (clock w), w)
    | d :: r =>
        let t := clock w + Z.of_N d in
        (Returned t,
         {| clock := t; ticks := r;
            modelCalls := modelCalls w; limiter := limiter w |})
    end.

(** Time spent inside an awaited operation. *)
Definition elapse (ms : Z) : M unit :=
  fun w =>
    (Returned tt,
     {| clock := clock w + ms; ticks := ticks w;
        modelCalls := modelCalls w; limiter := limiter w |}).

(** The delay a Node.js timer really uses: a delay below 1 or above
    2147483647 (and so [Infinity], here [None]) is replaced by 1. *)
Definition timerDelay (ms : option Z) : Z :=
  match ms with
  | Some d => if (d <? 1) || (2147483647 <? d) then 1 else d
  | None => 1
  end.

(** [await new Promise((resolve) => setTimeout(resolve, ms))] *)
Definition sleep (ms : option Z) : M unit := elapse (timerDelay ms).

(** ** [ai-agent/utils/rateLimiter.ts] *)

(** [constructor(maxRequests = 10, timeWindowMinutes = 1)] *)
Definition newRateLimiter (maxRequests timeWindowMinutes : Z) : RateLimiter :=
  {| requests := [];
     maxRequests := maxRequests;
     timeWindow := timeWindowMinutes * 60 * 1000 |}.

(** [export const geminiRateLimiter = new RateLimiter(10, 1)] *)
Definition geminiRateLimiter : RateLimiter := newRateLimiter 10 1.

(** [(timestamp) => now - timestamp < this.timeWindow] *)
Definition inWindow (now window timestamp : Z) : bool :=
  now - timestamp <? window.

Definition getLimiter : M RateLimiter := fun w => (Returned (limiter w), w).

Definition setRequests (l : list Z) : M unit :=
  fun w =>
    (Returned tt,
     {| clock := clock w; ticks := ticks w; modelCalls := modelCalls w;
        limiter := {| requests := l;
                      maxRequests := maxRequests (limiter w);
                      timeWindow := timeWindow (limiter w) |} |}).

(** [this.requests = this.requests.filter(...)] *)
Definition pruneRequests (now : Z) : M unit :=
  rl <- getLimiter ;;
  setRequests (filter (inWindow now (timeWindow rl)) (requests rl)).

(** [Math.min(...xs)]; [None] stands for [Infinity], its value on no
    arguments. *)
Fixpoint Math_min (xs : list Z) : option Z :=
  match xs with
  | [] => None
  | x :: r =>
      match Math_min r with
      | None => Some x
      | Some m => Some (Z.min x m)
      end
  end.

Definition canMakeRequest : M bool :=
  now <- Date_now ;;
  pruneRequests now ;;
  rl <- getLimiter ;;
  ret (Z.of_nat (List.length (requests rl)) <? maxRequests rl).

(** [this.timeWindow - (now - oldestRequest) + 1000] *)
Definition waitTime (rl : RateLimiter) (now : Z) : option Z :=
  match Math_min (requests rl) with
  | Some oldestRequest => Some (timeWindow rl - (now - oldestRequest) + 1000)
  | None => None
  end.

Definition waitForAvailability : M unit :=
  now <- Date_now ;;
  pruneRequests now ;;
  rl <- getLimiter ;;
  (if maxRequests rl <=? Z.of_nat (List.length (requests rl))
   then sleep (waitTime rl now)
   else ret tt) ;;
  t <- Date_now ;;
  rl' <- getLimiter ;;
  setRequests (requests rl' ++ [t])%list.

Definition execute {T} (fn : M T) : M T :=
  waitForAvailability ;; fn.

Record UsageStats : Type := {
  current : Z;
  max : Z;
  remaining : Z
}.

Definition getUsageStats : M UsageStats :=
  now <- Date_now ;;
  pruneRequests now ;;
  rl <- getLimiter ;;
  ret {| current := Z.of_nat (List.length (requests rl));
         max := maxRequests rl;
         remaining := maxRequests rl - Z.of_nat (List.length (requests rl)) |}.

(** [reset()] *)
Definition reset : M unit := setRequests [].

(** A caller's use of the limiter, one call after another.  The function
    given to [execute] takes [busy] milliseconds and then returns or
    throws. *)
Inductive Call : Type :=
| CallCanMakeRequest
| CallWaitForAvailability
| CallExecute (busy : N) (fails : bool)
| CallGetUsageStats.

Definition workload (busy : N) (fails : bool) : M unit :=
  elapse (Z.of_N busy) ;;
  if fails then throw ModelFailure else ret tt.

Definition perform (c : Call) : M unit :=
  match c with
  | CallCanMakeRequest => _ <- canMakeRequest ;; ret tt
  | CallWaitForAvailability => waitForAvailability
  | CallExecute busy fails =>
      tryCatch (execute (workload busy fails)) (fun _ => ret tt)
  | CallGetUsageStats => _ <- getUsageStats ;; ret tt
  end.

Fixpoint performAll (cs : list Call) : M unit :=
  match cs with
  | [] => ret tt
  | c :: r => perform c ;; performAll r
  end.

(** A world whose limiter has just been constructed. *)
Definition freshWorld (now : Z) (ts : list N) (maxR minutes : Z) : World :=
  {| clock := now; ticks := ts; modelCalls := 0;
     limiter := newRateLimiter maxR minutes |}.

(** ** Values that come back from [JSON.parse] *)

(** Only the zero test of a number is ever used, so a number carries an
    integer. *)
#[local] Unset Elimination Schemes.
Inductive JSValue : Type :=
| JNull
| JBool (b : bool)
| JNumber (n : Z)
| JString (s : string)
| JArray (items : list JSValue)
| JObject (fields : list (string * JSValue)).
#[local] Set Elimination Schemes.

(** What [(x) => x && x.trim().length > 0] and [(x) => x && x.trim()] do
    with an element: a falsy one is dropped, a string is kept when it is
    not blank, and on anything else [x.trim] is not a function. *)
Definition keepsElement (v : JSValue) : Result (option string) :=
  match v with
  | JNull => Returned None
  | JBool false => Returned None
  | JNumber 0 => Returned None
  | JString s =>
      if String.eqb (JS.trim s) "" then Returned None else Returned (Some s)
  | _ => Threw TypeError
  end.

Fixpoint filterNonBlank (items : list JSValue) : Result (list string) :=
  match items with
  | [] => Returned []
  | v :: r =>
      match keepsElement v with
      | Threw e => Threw e
      | Returned o =>
          match filterNonBlank r with
          | Threw e => Threw e
          | Returned l =>
              Returned (match o with Some s => s :: l | None => l end)
          end
      end
  end.

(** [(JSON.parse(text) as string[]).filter(...)]: only an array has
    [filter]. *)
Definition filterParsed (v : JSValue) : Result (list string) :=
  match v with
  | JArray items => filterNonBlank items
  | _ => Threw TypeError
  end.

Fixpoint lookupField (name : string) (fields : list (string * JSValue))
  : option JSValue :=
  match fields with
  | [] => None
  | (k, v) :: r => if String.eqb k name then Some v else lookupField name r
  end.

(** [summary.Name]: reading a property of [null] throws; a primitive or an
    array has no such property. *)
Definition getField (v : JSValue) (name : string) : Result (option JSValue) :=
  match v with
  | JNull => Threw TypeError
  | JObject fields => Returned (lookupField name fields)
  | _ => Returned None
  end.

(** ** [ai-agent/types.ts] *)

Inductive Impact : Type := low | medium | high.

Inductive Source : Type := commit | pr | notion | manual.

(** [ActivityCategory] is a union of string literals, erased at run time:
    a category is the string itself, and the type is the predicate
    [isActivityCategory]. *)
Definition ActivityCategory : Type := string.

Record CategorizedActivity : Type := {
  category : ActivityCategory;
  description : string;
  impact : Impact;
  source : Source;
  originalText : string
}.

Record WeeklySummary : Type := {
  Features : list string;
  Fixes : list string;
  Refactors : list string;
  Highlights : option (list string);
  Notes : option (list string)
}.

Record GitHubCommit : Type := {
  sha : string;
  message : string
}.

Record GitHubPR : Type := {
  number : Z;
  title : string;
  body : option string;
  state : string
}.

Record GitHubData : Type := {
  commits : list GitHubCommit;
  pullRequests : list GitHubPR
}.

Record DateRange : Type := {
  startDate : string;
  endDate : string
}.

Record AIAgentInput : Type := {
  githubData : GitHubData;
  notionContent : option string;
  additionalContext : option string;
  dateRange : DateRange
}.

Record Metadata : Type := {
  totalActivities : nat;
  analysisTimestamp : Z;
  confidenceScore : Z
}.

Record AIAgentOutput : Type := {
  weeklySummary : WeeklySummary;
  categorizedActivities : list CategorizedActivity;
  metadata : Metadata
}.

(** [Achievement] of [lib/ai.ts].  [text] is whatever the parsed reply
    held: [JSON.parse(...) as string[]] checks nothing. *)
Record Achievement : Type := {
  id : string;
  text : JSValue;
  selected : bool;
  achievementSource : string
}.

Record File : Type := {
  name : string;
  size : Z
}.

(** ** [ai-agent/promptTemplates.ts]

    A prompt is kept as the template that built it together with the
    values spliced into it. *)
Inductive Prompt : Type :=
| ClassificationPrompt (activity : string)
| SummarizationPrompt (activities : list string) (category : string)
| HighlightsPrompt (allActivities : list string)
| NotionProcessingPrompt (content : string)
| AnalysisPrompt (commitLines pullRequestLines : list string)
                 (dateRangeText : string)
| InsightPrompt (content : string)
| LearningPrompt (content : string)
| ComprehensivePrompt (commitLines pullRequestLines : list string)
                      (context : option string) (pdfNames : list string)
| BasicPrompt (commitLines pullRequestLines : list string)
              (context : option string).

(** What one [generateContent] call (with [response.text()]) does. *)
Inductive ModelReply : Type :=
| ModelRejects
| ModelText (reply : string).

(** [!x] for [x : string | undefined]. *)
Definition isFalsy (x : option string) : bool :=
  match x with
  | None => true
  | Some s => String.eqb s ""
  end.

Definition LF : string := String (ascii_of_nat 10) EmptyString.

(** ** The pipeline *)

Section Pipeline.

(** The reply of the generative model to its [n]-th call. *)
Variable generate : nat -> Prompt -> ModelReply.

(** [JSON.parse]; [None] is a [SyntaxError]. *)
Variable JSON_parse : string -> option JSValue.

(** [new Date(s).toLocaleDateString()] *)
Variable toLocaleDateString : string -> string.

(** [(await this.model.generateContent(prompt)).response.text()] *)
Definition generateContent (prompt : Prompt) : M string :=
  fun w =>
    let w' := {| clock := clock w; ticks := ticks w;
                 modelCalls := S (modelCalls w); limiter := limiter w |} in
    match generate (modelCalls w) prompt with
    | ModelRejects => (Threw ModelFailure, w')
    | ModelText reply => (Returned reply, w')
    end.

Definition parseJSON (s : string) : M JSValue :=
  match JSON_parse s with
  | Some v => ret v
  | None => throw SyntaxError
  end.

(** *** [ai-agent/categorizer.ts] *)

Definition validCategories : list ActivityCategory :=
  ["feature"; "fix"; "refactor"; "docs"; "test"; "chore"; "performance";
   "security"].

Definition isActivityCategory (c : string) : bool :=
  existsb (String.eqb c) validCategories.

(** [constructor()]: the key is [process.env.GOOGLE_AI_API_KEY]. *)
Definition newCategorizer (apiKey : option string) : Result unit :=
  if isFalsy apiKey then Threw ApiKeyNotConfigured else Returned tt.

Definition fallbackClassification (activity : string) : ActivityCategory :=
  let text := JS.toLowerCase activity in
  if JS.includes text "add" || JS.includes text "implement" ||
     JS.includes text "create" || JS.includes text "new" ||
     JS.includes text "feature" || JS.includes text "enhance"
  then "feature"
  else if JS.includes text "fix" || JS.includes text "bug" ||
          JS.includes text "error" || JS.includes text "issue" ||
          JS.includes text "resolve" || JS.includes text "correct"
  then "fix"
  else if JS.includes text "refactor" || JS.includes text "clean" ||
          JS.includes text "improve" || JS.includes text "optimize" ||
          JS.includes text "restructure" || JS.includes text "update"
  then "refactor"
  else if JS.includes text "doc" || JS.includes text "readme" ||
          JS.includes text "comment" || JS.includes text "documentation"
  then "docs"
  else if JS.includes text "test" || JS.includes text "spec" ||
          JS.includes text "unit" || JS.includes text "integration"
  then "test"
  else if JS.includes text "performance" || JS.includes text "speed" ||
          JS.includes text "cache" || JS.includes text "memory"
  then "performance"
  else if JS.includes text "security" || JS.includes text "auth" ||
          JS.includes text "permission" || JS.includes text "vulnerability"
  then "security"
  else "chore".

Definition classifyActivity (activity : string) : M ActivityCategory :=
  tryCatch
    (let prompt := ClassificationPrompt activity in
     reply <- generateContent prompt ;;
     let classification := JS.toLowerCase (JS.trim reply) in
     if existsb (String.eqb classification) validCategories
     then ret classification
     else ret (fallbackClassification activity))
    (fun _ => ret (fallbackClassification activity)).

Definition assessImpact (activity : string) (category : ActivityCategory)
  : Impact :=
  let text := JS.toLowerCase activity in
  if JS.includes text "major" || JS.includes text "significant" ||
     JS.includes text "breaking" || JS.includes text "critical" ||
     JS.includes text "important" || JS.includes text "milestone" ||
     String.eqb category "security" || String.eqb category "performance"
  then high
  else if JS.includes text "improve" || JS.includes text "enhance" ||
          JS.includes text "optimize" || JS.includes text "feature" ||
          String.eqb category "feature" || String.eqb category "fix"
  then medium
  else low.

Definition conventionalPrefixes : list string :=
  ["feat"; "fix"; "refactor"; "docs"; "test"; "chore"; "style"; "perf";
   "security"].

Definition verbPrefixes : list string :=
  ["add"; "implement"; "create"; "update"; "fix"; "remove"; "delete"].

(** [if (!d.endsWith(".") && !d.endsWith("!") && !d.endsWith("?")) d += "."] *)
Definition ensurePunctuation (d : string) : string :=
  if negb (JS.endsWith d ".") && negb (JS.endsWith d "!") &&
     negb (JS.endsWith d "?")
  then d ++ "."
  else d.

Definition createBusinessDescription (activity : string)
  (category : ActivityCategory) : string :=
  let description :=
    JS.trim (JS.stripLabel verbPrefixes
               (JS.stripLabel conventionalPrefixes activity)) in
  let description := JS.capitalizeFirst description in
  ensurePunctuation description.

Definition classifyActivities (activities : list string) (src : Source)
  : M (list CategorizedActivity) :=
  forEachM
    (fun activity =>
       tryCatch
         (category <- classifyActivity activity ;;
          let impact := assessImpact activity category in
          let description := createBusinessDescription activity category in
          ret {| category := category; description := description;
                 impact := impact; source := src;
                 originalText := activity |})
         (fun _ =>
            ret {| category := fallbackClassification activity;
                   description := createBusinessDescription activity "chore";
                   impact := low; source := src;
                   originalText := activity |}))
    activities.

(** [Record<ActivityCategory, CategorizedActivity[]>], the keys in the
    order of the object literals that build it. *)
Record Grouped : Type := {
  gFeature : list CategorizedActivity;
  gFix : list CategorizedActivity;
  gRefactor : list CategorizedActivity;
  gDocs : list CategorizedActivity;
  gTest : list CategorizedActivity;
  gChore : list CategorizedActivity;
  gPerformance : list CategorizedActivity;
  gSecurity : list CategorizedActivity
}.

Definition emptyGrouped : Grouped :=
  {| gFeature := []; gFix := []; gRefactor := []; gDocs := [];
     gTest := []; gChore := []; gPerformance := []; gSecurity := [] |}.

(** [Object.entries(grouped)] *)
Definition entries (g : Grouped)
  : list (ActivityCategory * list CategorizedActivity) :=
  [("feature", gFeature g); ("fix", gFix g); ("refactor", gRefactor g);
   ("docs", gDocs g); ("test", gTest g); ("chore", gChore g);
   ("performance", gPerformance g); ("security", gSecurity g)].

(** [grouped[key]]; [None] is [undefined]. *)
Definition bucket (key : string) (g : Grouped)
  : option (list CategorizedActivity) :=
  match find (fun e => String.eqb (fst e) key) (entries g) with
  | Some e => Some (snd e)
  | None => None
  end.

(** [grouped[activity.category].push(activity)]; [push] on [undefined]
    throws. *)
Definition pushActivity (g : Grouped) (a : CategorizedActivity)
  : Result Grouped :=
  let k := category a in
  if String.eqb k "feature" then
    Returned {| gFeature := gFeature g ++ [a]; gFix := gFix g;
                gRefactor := gRefactor g; gDocs := gDocs g;
                gTest := gTest g; gChore := gChore g;
                gPerformance := gPerformance g; gSecurity := gSecurity g |}
  else if String.eqb k "fix" then
    Returned {| gFeature := gFeature g; gFix := gFix g ++ [a];
                gRefactor := gRefactor g; gDocs := gDocs g;
                gTest := gTest g; gChore := gChore g;
                gPerformance := gPerformance g; gSecurity := gSecurity g |}
  else if String.eqb k "refactor" then
    Returned {| gFeature := gFeature g; gFix := gFix g;
                gRefactor := gRefactor g ++ [a]; gDocs := gDocs g;
                gTest := gTest g; gChore := gChore g;
                gPerformance := gPerformance g; gSecurity := gSecurity g |}
  else if String.eqb k "docs" then
    Returned {| gFeature := gFeature g; gFix := gFix g;
                gRefactor := gRefactor g; gDocs := gDocs g ++ [a];
                gTest := gTest g; gChore := gChore g;
                gPerformance := gPerformance g; gSecurity := gSecurity g |}
  else if String.eqb k "test" then
    Returned {| gFeature := gFeature g; gFix := gFix g;
                gRefactor := gRefactor g; gDocs := gDocs g;
                gTest := gTest g ++ [a]; gChore := gChore g;
                gPerformance := gPerformance g; gSecurity := gSecurity g |}
  else if String.eqb k "chore" then
    Returned {| gFeature := gFeature g; gFix := gFix g;
                gRefactor := gRefactor g; gDocs := gDocs g;
                gTest := gTest g; gChore := gChore g ++ [a];
                gPerformance := gPerformance g; gSecurity := gSecurity g |}
  else if String.eqb k "performance" then
    Returned {| gFeature := gFeature g; gFix := gFix g;
                gRefactor := gRefactor g; gDocs := gDocs g;
                gTest := gTest g; gChore := gChore g;
                gPerformance := gPerformance g ++ [a];
                gSecurity := gSecurity g |}
  else if String.eqb k "security" then
    Returned {| gFeature := gFeature g; gFix := gFix g;
                gRefactor := gRefactor g; gDocs := gDocs g;
                gTest := gTest g; gChore := gChore g;
                gPerformance := gPerformance g;
                gSecurity := gSecurity g ++ [a] |}
  else Threw TypeError.

(** [activities.forEach((activity) => ...)] from [g] on. *)
Fixpoint groupInto (g : Grouped) (activities : list CategorizedActivity)
  : Result Grouped :=
  match activities with
  | [] => Returned g
  | a :: r =>
      match pushActivity g a with
      | Returned g' => groupInto g' r
      | Threw e => Threw e
      end
  end.

Definition groupByCategory (activities : list CategorizedActivity)
  : Result Grouped :=
  groupInto emptyGrouped activities.

(** The values of the grouping, one bucket after another. *)
Definition flatten (g : Grouped) : list CategorizedActivity :=
  List.concat (map snd (entries g)).

Record SummaryCategories : Type := {
  bFeatures : list string;
  bFixes : list string;
  bRefactors : list string
}.

Definition mapToWeeklySummaryCategories (grouped : Grouped)
  : SummaryCategories :=
  {| bFeatures := map description (gFeature grouped) ++
                  map description (gPerformance grouped) ++
                  map description (gSecurity grouped);
     bFixes := map description (gFix grouped);
     bRefactors := map description (gRefactor grouped) ++
                   map description (gDocs grouped) ++
                   map description (gTest grouped) ++
                   map description (gChore grouped) |}.

(** *** [ai-agent/summarizer.ts] *)

Definition newSummarizer (apiKey : option string) : Result unit :=
  if isFalsy apiKey then Threw ApiKeyNotConfigured
  else newCategorizer apiKey.

Definition cleanActivityDescription (activity : string) : string :=
  let cleaned :=
    JS.trim (JS.stripPullRequestNumber
               (JS.stripLabel conventionalPrefixes activity)) in
  let cleaned := JS.capitalizeFirst cleaned in
  ensurePunctuation cleaned.

Definition summarizeActivityGroup (activities : list string)
  (category : string) : M (option string) :=
  match activities with
  | [] => ret None
  | [only] => ret (Some (cleanActivityDescription only))
  | first :: _ =>
      tryCatch
        (let prompt := SummarizationPrompt activities category in
         reply <- generateContent prompt ;;
         ret (Some (JS.trim reply)))
        (fun _ => ret (Some (cleanActivityDescription first)))
  end.

Definition highImpactKeywords : list string :=
  ["major"; "significant"; "critical"; "important"; "milestone"; "launch";
   "release"; "performance"; "security"; "breaking"].

(** The loop of [fallbackHighlightExtraction], [highlights] being what
    was pushed so far; it breaks at three. *)
Fixpoint scanHighlights (activities highlights : list string)
  : list string :=
  match activities with
  | [] => highlights
  | activity :: r =>
      let text := JS.toLowerCase activity in
      if existsb (fun keyword => JS.includes text keyword) highImpactKeywords
      then
        let highlights' :=
          (highlights ++ [cleanActivityDescription activity])%list in
        if (3 <=? List.length highlights')%nat then highlights'
        else scanHighlights r highlights'
      else scanHighlights r highlights
  end.

Definition fallbackHighlightExtraction (activities : list string)
  : list string :=
  scanHighlights activities [].

Definition extractHighlights (allActivities : list string)
  : M (list string) :=
  match allActivities with
  | [] => ret []
  | _ =>
      tryCatch
        (let prompt := HighlightsPrompt allActivities in
         reply <- generateContent prompt ;;
         let text := JS.trim reply in
         highlights <- parseJSON text ;;
         lift (filterParsed highlights))
        (fun _ => ret (fallbackHighlightExtraction allActivities))
  end.

(** [s.replace(/^<fence>\s*/, "")] for a string that starts with the
    fence. *)
Definition dropOpeningFence (fence s : string) : string :=
  match JS.afterPrefix fence s with
  | Some r => JS.trimStart r
  | None => s
  end.

(** [s.replace(/\s*```$/, "")] *)
Definition dropClosingFence (s : string) : string :=
  if JS.endsWith s "```"
  then JS.trimEnd (String.substring 0 (String.length s - 3) s)
  else s.

(** The clean-up every reply gets before [JSON.parse]. *)
Definition stripCodeFence (cleanedText : string) : string :=
  if JS.startsWith cleanedText "```json"
  then dropClosingFence (dropOpeningFence "```json" cleanedText)
  else if JS.startsWith cleanedText "```"
  then dropClosingFence (dropOpeningFence "```" cleanedText)
  else cleanedText.

(** [Array.isArray(summary.Name) ? summary.Name.filter(...) : []] *)
Definition cleanField (summary : JSValue) (name : string)
  : Result (list string) :=
  match getField summary name with
  | Threw e => Threw e
  | Returned (Some (JArray items)) => filterNonBlank items
  | Returned _ => Returned []
  end.

Definition validateAndCleanSummary (summary : JSValue)
  : Result WeeklySummary :=
  match cleanField summary "Features" with
  | Threw e => Threw e
  | Returned features =>
  match cleanField summary "Fixes" with
  | Threw e => Threw e
  | Returned fixes =>
  match cleanField summary "Refactors" with
  | Threw e => Threw e
  | Returned refactors =>
  match cleanField summary "Highlights" with
  | Threw e => Threw e
  | Returned highlights =>
  match cleanField summary "Notes" with
  | Threw e => Threw e
  | Returned notes =>
      Returned {| Features := features; Fixes := fixes;
                  Refactors := refactors; Highlights := Some highlights;
                  Notes := Some notes |}
  end end end end end.

Definition fallbackStructuredSummary (activities : list string)
  : M WeeklySummary :=
  categorizedActivities <- classifyActivities activities commit ;;
  grouped <- lift (groupByCategory categorizedActivities) ;;
  let mapped := mapToWeeklySummaryCategories grouped in
  highlights <- extractHighlights activities ;;
  ret {| Features := bFeatures mapped; Fixes := bFixes mapped;
         Refactors := bRefactors mapped; Highlights := Some highlights;
         Notes := Some [] |}.

Definition generateStructuredSummary (activities : list string)
  (dateRangeText : string) : M WeeklySummary :=
  match activities with
  | [] =>
      ret {| Features := []; Fixes := []; Refactors := [];
             Highlights := Some []; Notes := Some [] |}
  | _ =>
      tryCatch
        (let prompt :=
           AnalysisPrompt
             (filter (fun a => negb (JS.startsWith a "PR #")) activities)
             (filter (fun a => JS.startsWith a "PR #") activities)
             dateRangeText in
         reply <- generateContent prompt ;;
         let text := JS.trim reply in
         let cleanedText := stripCodeFence text in
         summary <- parseJSON cleanedText ;;
         lift (validateAndCleanSummary summary))
        (fun _ => fallbackStructuredSummary activities)
  end.

(** [content.split(/\n+|\. |\! |\? |;/)]; [piece] is the chunk being
    read and [inBreak] tells that the previous character was a line
    feed. *)
Fixpoint splitChunks (s piece : string) (inBreak : bool) : list string :=
  match s with
  | EmptyString => [piece]
  | String c r =>
      if Ascii.eqb c (ascii_of_nat 10) then
        if inBreak then splitChunks r piece true
        else piece :: splitChunks r "" true
      else if Ascii.eqb c ";" then piece :: splitChunks r "" false
      else if Ascii.eqb c "." || Ascii.eqb c "!" || Ascii.eqb c "?" then
        match r with
        | String " " r' => piece :: splitChunks r' "" false
        | _ => splitChunks r (piece ++ String c "") false
        end
      else splitChunks r (piece ++ String c "") false
  end.

Definition fallbackContentExtraction (content : string) : list string :=
  let chunks :=
    firstn 5
      (filter (fun chunk => (20 <? String.length chunk)%nat)
         (map JS.trim (splitChunks content "" false))) in
  map cleanActivityDescription chunks.

(** [!content || content.trim().length === 0] *)
Definition isBlank (content : string) : bool :=
  String.eqb content "" || (String.length (JS.trim content) =? 0)%nat.

Definition extractActivitiesFromContent (content : string)
  : M (list string) :=
  if isBlank content then ret []
  else
    tryCatch
      (let prompt := NotionProcessingPrompt content in
       reply <- generateContent prompt ;;
       let text := JS.trim reply in
       activities <- parseJSON text ;;
       lift (filterParsed activities))
      (fun _ => ret (fallbackContentExtraction content)).

(** [a || b] on optional strings. *)
Definition orElse (a b : option string) : option string :=
  if isFalsy a then b else a.

(** [x || ""] *)
Definition orEmpty (x : option string) : string :=
  match x with
  | Some s => s
  | None => ""
  end.

(** [`PR #${pr.number}: ${title}${body ? ` - ${body}` : ""}`] *)
Definition describePullRequest (p : GitHubPR) : string :=
  "PR #" ++ JS.numberToString (number p) ++ ": " ++ title p ++
  (if isFalsy (body p) then "" else " - " ++ orEmpty (body p)).

Definition createWeeklySummary (data : GitHubData)
  (notionContent additionalContext dateRangeText : option string)
  : M WeeklySummary :=
  let commitMessages := map message (commits data) in
  let prDescriptions := map describePullRequest (pullRequests data) in
  let allActivities := (commitMessages ++ prDescriptions)%list in
  allActivities <-
    (if negb (isFalsy (orElse notionContent additionalContext)) then
       additionalActivities <-
         extractActivitiesFromContent
           (orEmpty (orElse notionContent additionalContext)) ;;
       ret (allActivities ++ additionalActivities)%list
     else ret allActivities) ;;
  generateStructuredSummary allActivities
    (if isFalsy dateRangeText then "this week" else orEmpty dateRangeText).

(** *** [ai-agent/notionProcessor.ts] *)

Inductive ContentType : Type :=
| notionContentType | markdownContentType | textContentType | pdfContentType.

Record ProcessedMetadata : Type := {
  wordCount : nat;
  processingTimestamp : Z;
  contentType : ContentType
}.

Record ProcessedContent : Type := {
  achievements : list string;
  insights : list string;
  learnings : list string;
  processedMetadata : ProcessedMetadata
}.

Definition newNotionProcessor (apiKey : option string) : Result unit :=
  if isFalsy apiKey then Threw ApiKeyNotConfigured else Returned tt.

(** [s.split(re)] for a [re] that matches the longest runs of the
    characters [sep]; [piece] is the part being read and [inRun] tells
    that the previous character was a separator. *)
Fixpoint splitRuns (sep : ascii -> bool) (s piece : string) (inRun : bool)
  : list string :=
  match s with
  | EmptyString => [piece]
  | String c r =>
      if sep c then
        if inRun then splitRuns sep r piece true
        else piece :: splitRuns sep r "" true
      else splitRuns sep r (piece ++ String c "") false
  end.

Definition isSentenceEnd (c : ascii) : bool :=
  Ascii.eqb c "." || Ascii.eqb c "!" || Ascii.eqb c "?".

(** [s.replace(/\s+/g, " ")] *)
Fixpoint collapseWhiteSpace (s : string) (inRun : bool) : string :=
  match s with
  | EmptyString => EmptyString
  | String c r =>
      if JS.isWhiteSpace c then
        if inRun then collapseWhiteSpace r true
        else String " " (collapseWhiteSpace r true)
      else String c (collapseWhiteSpace r false)
  end.

(** After the first replacement no line feed is left, so the second,
    [/\n{3,}/g], finds nothing. *)
Definition cleanTextContent (content : string) : string :=
  JS.trim (collapseWhiteSpace content false).

(** [content.split(/\s+/).length] *)
Definition countWords (content : string) : nat :=
  List.length (splitRuns JS.isWhiteSpace content "" false).

Definition createEmptyResult (kind : ContentType) : M ProcessedContent :=
  now <- Date_now ;;
  ret {| achievements := []; insights := []; learnings := [];
         processedMetadata :=
           {| wordCount := 0; processingTimestamp := now;
              contentType := kind |} |}.

(** The loop shared by the three keyword fall-backs: the trimmed
    sentences that hold a keyword, until [limit] of them were pushed. *)
Fixpoint scanSentences (keywords : list string) (limit : nat)
  (sentences found : list string) : list string :=
  match sentences with
  | [] => found
  | sentence :: r =>
      let lowerSentence := JS.toLowerCase sentence in
      if existsb (fun keyword => JS.includes lowerSentence keyword) keywords
      then
        let found' := (found ++ [JS.trim sentence])%list in
        if (limit <=? List.length found')%nat then found'
        else scanSentences keywords limit r found'
      else scanSentences keywords limit r found
  end.

(** [content.split(/[.!?]+/).filter((s) => s.trim().length > 10)] *)
Definition sentencesOf (content : string) : list string :=
  filter (fun s => (10 <? String.length (JS.trim s))%nat)
    (splitRuns isSentenceEnd content "" false).

Definition fallbackAchievementExtraction (content : string) : list string :=
  scanSentences
    ["completed"; "finished"; "implemented"; "created"; "developed";
     "built"; "delivered"; "achieved"; "accomplished"; "solved"]
    5 (sentencesOf content) [].

Definition fallbackInsightExtraction (content : string) : list string :=
  scanSentences
    ["discovered"; "found"; "realized"; "learned"; "understood"; "insight";
     "finding"; "conclusion"; "observation"]
    3 (sentencesOf content) [].

Definition fallbackLearningExtraction (content : string) : list string :=
  scanSentences
    ["learned"; "studied"; "mastered"; "acquired"; "gained"; "skill";
     "knowledge"; "concept"; "technique"; "methodology"]
    3 (sentencesOf content) [].

Definition fallbackProcessing (content : string) (kind : ContentType)
  : M ProcessedContent :=
  let achievements := fallbackAchievementExtraction content in
  let insights := fallbackInsightExtraction content in
  let learnings := fallbackLearningExtraction content in
  now <- Date_now ;;
  ret {| achievements := achievements; insights := insights;
         learnings := learnings;
         processedMetadata :=
           {| wordCount := countWords content; processingTimestamp := now;
              contentType := kind |} |}.

(** The shape shared by [extractAchievements], [extractInsights] and
    [extractLearnings]. *)
Definition extractWith (prompt : Prompt) (fallback : string -> list string)
  (content : string) : M (list string) :=
  if isBlank content then ret []
  else
    tryCatch
      (reply <- generateContent prompt ;;
       let text := JS.trim reply in
       parsed <- parseJSON text ;;
       lift (filterParsed parsed))
      (fun _ => ret (fallback content)).

Definition extractAchievements (content : string) : M (list string) :=
  extractWith (NotionProcessingPrompt content)
    fallbackAchievementExtraction content.

Definition extractInsights (content : string) : M (list string) :=
  extractWith (InsightPrompt content) fallbackInsightExtraction content.

Definition extractLearnings (content : string) : M (list string) :=
  extractWith (LearningPrompt content) fallbackLearningExtraction content.

Definition processTextContent (content : string) : M ProcessedContent :=
  if isBlank content then createEmptyResult textContentType
  else
    let cleanedContent := cleanTextContent content in
    tryCatch
      (achievements <- extractAchievements cleanedContent ;;
       insights <- extractInsights cleanedContent ;;
       learnings <- extractLearnings cleanedContent ;;
       now <- Date_now ;;
       ret {| achievements := achievements; insights := insights;
              learnings := learnings;
              processedMetadata :=
                {| wordCount := countWords cleanedContent;
                   processingTimestamp := now;
                   contentType := textContentType |} |})
      (fun _ => fallbackProcessing cleanedContent textContentType).

Definition convertToAchievements (processed : ProcessedContent)
  : list string :=
  let fromInsights :=
    map (fun insight =>
           "Researched and documented " ++ JS.toLowerCase insight)
        (insights processed) in
  let fromLearnings :=
    map (fun learning =>
           "Learned and applied " ++ JS.toLowerCase learning)
        (learnings processed) in
  JS.uniqueFirst []
    (achievements processed ++ fromInsights ++ fromLearnings)%list.

(** [arr.sort((a, b) => b.length - a.length)]: a stable sort, the longer
    string first.  [insertByLength] puts [x], which came before the rest,
    ahead of the first string that is not longer. *)
Fixpoint insertByLength (x : string) (sorted : list string) : list string :=
  match sorted with
  | [] => [x]
  | y :: r =>
      if (String.length x <? String.length y)%nat
      then y :: insertByLength x r
      else x :: y :: r
  end.

Fixpoint sortByLength (l : list string) : list string :=
  match l with
  | [] => []
  | x :: r => insertByLength x (sortByLength r)
  end.

Definition deduplicateAndPrioritize (items : list string) : list string :=
  let unique :=
    filter (fun item => (10 <? String.length (JS.trim item))%nat)
      (JS.uniqueFirst [] items) in
  firstn 10 (sortByLength unique).

(** *** The agent, [class WeeklyUpdateAIAgent] *)

Definition newWeeklyUpdateAIAgent (apiKey : option string) : Result unit :=
  if isFalsy apiKey then Threw ApiKeyNotConfigured
  else
    match newCategorizer apiKey with
    | Threw e => Threw e
    | Returned _ =>
        match newSummarizer apiKey with
        | Threw e => Threw e
        | Returned _ => newNotionProcessor apiKey
        end
    end.

Definition isEmpty {A} (l : list A) : bool :=
  match l with
  | [] => true
  | _ => false
  end.

Definition processAllSources (input : AIAgentInput)
  : M (list CategorizedActivity) :=
  let data := githubData input in
  commitActivities <-
    (if negb (isEmpty (commits data))
     then classifyActivities (map message (commits data)) commit
     else ret []) ;;
  prActivities <-
    (if negb (isEmpty (pullRequests data))
     then classifyActivities (map describePullRequest (pullRequests data)) pr
     else ret []) ;;
  notionActivities <-
    (if negb (isFalsy (notionContent input)) then
       processed <- processTextContent (orEmpty (notionContent input)) ;;
       classifyActivities (convertToAchievements processed) notion
     else ret []) ;;
  contextActivities <-
    (if negb (isFalsy (additionalContext input)) then
       processed <- processTextContent (orEmpty (additionalContext input)) ;;
       classifyActivities (convertToAchievements processed) manual
     else ret []) ;;
  ret (commitActivities ++ prActivities ++ notionActivities ++
       contextActivities)%list.

Definition activitiesNote (n : nat) : string :=
  "Analyzed " ++ JS.numberToString (Z.of_nat n) ++
  " activities across multiple sources including GitHub commits, pull requests, and documentation.".

Definition createComprehensiveSummary (input : AIAgentInput)
  (activities : list CategorizedActivity) : M WeeklySummary :=
  let dateRangeText :=
    "from " ++ toLocaleDateString (startDate (dateRange input)) ++
    " to " ++ toLocaleDateString (endDate (dateRange input)) in
  summary <-
    createWeeklySummary (githubData input) (notionContent input)
      (additionalContext input) (Some dateRangeText) ;;
  let allActivityTexts := map originalText activities in
  highlights <- extractHighlights allActivityTexts ;;
  let summary :=
    if negb (isEmpty highlights) &&
       match Highlights summary with
       | None => true
       | Some present => isEmpty present
       end
    then {| Features := Features summary; Fixes := Fixes summary;
            Refactors := Refactors summary; Highlights := Some highlights;
            Notes := Notes summary |}
    else summary in
  let summary :=
    if (10 <? List.length activities)%nat
    then {| Features := Features summary; Fixes := Fixes summary;
            Refactors := Refactors summary;
            Highlights := Highlights summary;
            Notes :=
              Some (match Notes summary with
                    | Some notes => notes
                    | None => []
                    end ++ [activitiesNote (List.length activities)])%list |}
    else summary in
  ret summary.

Definition sameSource (a b : Source) : bool :=
  match a, b with
  | commit, commit | pr, pr | notion, notion | manual, manual => true
  | _, _ => false
  end.

Definition sameImpact (a b : Impact) : bool :=
  match a, b with
  | low, low | medium, medium | high, high => true
  | _, _ => false
  end.

(** The weights 0.6, 0.8, 0.7 and 0.5, in tenths. *)
Definition weightTenths (s : Source) : Z :=
  match s with
  | commit => 6
  | pr => 8
  | notion => 7
  | manual => 5
  end.

(** The score is computed in tenths, which are exact; the rounding error
    of the binary floating-point sum is not modelled. *)
Definition calculateConfidenceScore (activities : list CategorizedActivity)
  : Z :=
  if isEmpty activities then 0
  else
    let count := Z.of_nat (List.length activities) in
    let sources :=
      filter (fun s => existsb (fun a => sameSource (source a) s) activities)
        [commit; pr; notion; manual] in
    let highImpactCount :=
      Z.of_nat
        (List.length (filter (fun a => sameImpact (impact a) high) activities)) in
    let tenths :=
      10 * Z.min (count * 10) 60 +
      10 * (Z.of_nat (List.length sources) * 10) +
      10 * (highImpactCount * 5) +
      fold_left (fun acc a => acc + weightTenths (source a)) activities 0 in
    Z.min ((tenths + 5) / 10) 100.

Definition analyzeActivity (input : AIAgentInput) : M AIAgentOutput :=
  tryCatch
    (processedActivities <- processAllSources input ;;
     weeklySummary <- createComprehensiveSummary input processedActivities ;;
     now <- Date_now ;;
     ret {| weeklySummary := weeklySummary;
            categorizedActivities := processedActivities;
            metadata :=
              {| totalActivities := List.length processedActivities;
                 analysisTimestamp := now;
                 confidenceScore :=
                   calculateConfidenceScore processedActivities |} |})
    (fun error => throw (AnalysisFailed error)).

(** [`${prefix}${Date.now()}-${index}`] *)
Definition stampedId (prefix : string) (now : Z) (index : nat) : string :=
  prefix ++ JS.numberToString now ++ "-" ++
  JS.numberToString (Z.of_nat index).

(** [items.map((achievement, index) => ({ id: ..., text: achievement,
    selected: true, source: "github" }))] from [index] on. *)
Fixpoint toAchievements (prefix : string) (items : list JSValue)
  (index : nat) : M (list Achievement) :=
  match items with
  | [] => ret []
  | v :: r =>
      now <- Date_now ;;
      rest <- toAchievements prefix r (S index) ;;
      ret ({| id := stampedId prefix now index; text := v;
              selected := true; achievementSource := "github" |} :: rest)
  end.

(** [(JSON.parse(cleanedText) as string[]).map(...)]: only an array has
    [map]. *)
Definition mapParsed (prefix : string) (parsed : JSValue)
  : M (list Achievement) :=
  match parsed with
  | JArray items => toAchievements prefix items 0
  | _ => throw TypeError
  end.

Definition basicAchievement (now : Z) (index : nat) (sentence : string)
  : Achievement :=
  {| id := stampedId "basic-" now index; text := JString sentence;
     selected := true; achievementSource := "github" |}.

Definition countText (n : nat) : string := JS.numberToString (Z.of_nat n).

Definition createBasicFallbackAchievements (data : GitHubData)
  (additionalContext : option string) : M (list Achievement) :=
  let achievements := [] in
  achievements <-
    (if negb (isEmpty (commits data)) then
       now <- Date_now ;;
       ret (achievements ++
            [basicAchievement now (List.length achievements)
               ("Completed " ++ countText (List.length (commits data)) ++
                " code commits with various improvements and updates.")])%list
     else ret achievements) ;;
  achievements <-
    (if negb (isEmpty (pullRequests data)) then
       now <- Date_now ;;
       ret (achievements ++
            [basicAchievement now (List.length achievements)
               ("Submitted " ++ countText (List.length (pullRequests data)) ++
                " pull request(s) for code review and integration.")])%list
     else ret achievements) ;;
  achievements <-
    (if negb (isFalsy additionalContext) then
       now <- Date_now ;;
       ret (achievements ++
            [basicAchievement now (List.length achievements)
               "Documented research findings and additional project context for team reference."])%list
     else ret achievements) ;;
  (if isEmpty achievements then
     now <- Date_now ;;
     ret (achievements ++
          [basicAchievement now (List.length achievements)
             "Maintained ongoing development work and project documentation."])%list
   else ret achievements).

Definition optimizedSingleCallAnalysis (data : GitHubData)
  (additionalContext : option string) (pdfFiles : list File)
  : M (list Achievement) :=
  tryCatch
    (let commitLines := map message (commits data) in
     let pullRequestLines := map describePullRequest (pullRequests data) in
     let comprehensivePrompt :=
       ComprehensivePrompt commitLines pullRequestLines
         (if isFalsy additionalContext then None else additionalContext)
         (map name pdfFiles) in
     result <- execute (generateContent comprehensivePrompt) ;;
     let cleanedText := stripCodeFence (JS.trim result) in
     parsed <- parseJSON cleanedText ;;
     mapParsed "ai-optimized-" parsed)
    (fun _ => createBasicFallbackAchievements data additionalContext).

Definition quickAnalyze (data : GitHubData)
  (additionalContext : option string) (pdfFiles : list File)
  : M (list Achievement) :=
  tryCatch
    (stats <- getUsageStats ;;
     result <- optimizedSingleCallAnalysis data additionalContext pdfFiles ;;
     ret result)
    (fun error => throw error).

(** *** [lib/ai.ts] *)

Definition lastResortAchievement (now : Z) (index : nat) (sentence : string)
  : Achievement :=
  {| id := stampedId "basic-" now index; text := JString sentence;
     selected := true; achievementSource := "github" |}.

Definition fallbackAnalysis (data : GitHubData)
  (additionalContext : option string) : M (list Achievement) :=
  tryCatch
    (let commitLines :=
       map (fun c => "- " ++ message c) (commits data) in
     let pullRequestLines :=
       map (fun p => "- " ++ describePullRequest p) (pullRequests data) in
     let prompt :=
       BasicPrompt commitLines pullRequestLines
         (if isFalsy additionalContext then None else additionalContext) in
     reply <- generateContent prompt ;;
     let cleanedText := stripCodeFence (JS.trim reply) in
     parsed <- parseJSON (JS.trim cleanedText) ;;
     mapParsed "ai-fallback-" parsed)
    (fun _ =>
       let achievements := [] in
       achievements <-
         (if negb (isEmpty (commits data)) then
            now <- Date_now ;;
            ret (achievements ++
                 [lastResortAchievement now 0
                    ("Completed " ++ countText (List.length (commits data)) ++
                     " code commits with various improvements and fixes.")])%list
          else ret achievements) ;;
       achievements <-
         (if negb (isEmpty (pullRequests data)) then
            now <- Date_now ;;
            ret (achievements ++
                 [lastResortAchievement now 1
                    ("Submitted " ++
                     countText (List.length (pullRequests data)) ++
                     " pull request(s) for code review and integration.")])%list
          else ret achievements) ;;
       (if negb (isFalsy additionalContext) then
          now <- Date_now ;;
          ret (achievements ++
               [lastResortAchievement now 2
                  "Documented research findings and additional project context."])%list
        else ret achievements)).

Definition analyzeGitHubActivity (data : GitHubData)
  (additionalContext : option string) (pdfFiles : list File)
  : M (list Achievement) :=
  tryCatch
    (quickAnalyze data additionalContext pdfFiles)
    (fun _ => fallbackAnalysis data additionalContext).

(** *** More of [ai-agent/summarizer.ts] *)

(** [if (summary) summaries.push(summary)]: [null] and the empty string
    are falsy. *)
Definition pushIfTruthy (summaries : list string) (summary : option string)
  : list string :=
  match summary with
  | Some s => if String.eqb s "" then summaries else (summaries ++ [s])%list
  | None => summaries
  end.

(** The loop [for (const [category, activities] of Object.entries(grouped))]
    of [summarizeCommits] and [summarizePullRequests], [summaries] being
    what was pushed so far. *)
Fixpoint summarizeGroups
  (groups : list (ActivityCategory * list CategorizedActivity))
  (summaries : list string) : M (list string) :=
  match groups with
  | [] => ret summaries
  | (category, activities) :: r =>
      if negb (isEmpty activities) then
        summary <-
          summarizeActivityGroup (map originalText activities) category ;;
        summarizeGroups r (pushIfTruthy summaries summary)
      else summarizeGroups r summaries
  end.

Definition summarizeCommits (commits : list GitHubCommit) : M (list string) :=
  if isEmpty commits then ret []
  else
    let commitMessages := map message commits in
    categorizedActivities <- classifyActivities commitMessages commit ;;
    grouped <- lift (groupByCategory categorizedActivities) ;;
    summarizeGroups (entries grouped) [].

Definition summarizePullRequests (pullRequests : list GitHubPR)
  : M (list string) :=
  if isEmpty pullRequests then ret []
  else
    let prDescriptions := map describePullRequest pullRequests in
    categorizedActivities <- classifyActivities prDescriptions pr ;;
    grouped <- lift (groupByCategory categorizedActivities) ;;
    summarizeGroups (entries grouped) [].

(** The loop of [combineRelatedActivities]. *)
Fixpoint combineGroups
  (groups : list (ActivityCategory * list CategorizedActivity))
  (combined : list string) : M (list string) :=
  match groups with
  | [] => ret combined
  | (category, categoryActivities) :: r =>
      match categoryActivities with
      | [] => combineGroups r combined
      | [only] => combineGroups r (combined ++ [description only])%list
      | _ =>
          summary <-
            summarizeActivityGroup (map originalText categoryActivities)
              category ;;
          combineGroups r (pushIfTruthy combined summary)
      end
  end.

Definition combineRelatedActivities (activities : list CategorizedActivity)
  : M (list string) :=
  grouped <- lift (groupByCategory activities) ;;
  combineGroups (entries grouped) [].

(** *** More of the agent: [getAnalysisStats] *)

(** A [Record<string, number>] of counters, its keys in the order they
    were first written.  The keys used are categories, sources and impact
    levels, none of which names a property every object inherits. *)
Definition Counts : Type := list (string * Z).

(** [counts[key] = (counts[key] || 0) + 1] *)
Fixpoint increment (key : string) (counts : Counts) : Counts :=
  match counts with
  | [] => [(key, 1)]
  | (k, n) :: r =>
      if String.eqb k key then (k, n + 1) :: r else (k, n) :: increment key r
  end.

(** [counts[key]]; [None] is [undefined]. *)
Fixpoint countOf (key : string) (counts : Counts) : option Z :=
  match counts with
  | [] => None
  | (k, n) :: r => if String.eqb k key then Some n else countOf key r
  end.

Definition sourceName (s : Source) : string :=
  match s with
  | commit => "commit"
  | pr => "pr"
  | notion => "notion"
  | manual => "manual"
  end.

Definition impactName (i : Impact) : string :=
  match i with
  | low => "low"
  | medium => "medium"
  | high => "high"
  end.

Record AnalysisStats : Type := {
  statsTotalActivities : nat;
  byCategory : Counts;
  bySource : Counts;
  byImpact : Counts
}.

Definition getAnalysisStats (output : AIAgentOutput) : AnalysisStats :=
  let activities := categorizedActivities output in
  {| statsTotalActivities := totalActivities (metadata output);
     byCategory :=
       fold_left (fun counts a => increment (category a) counts) activities [];
     bySource :=
       fold_left (fun counts a => increment (sourceName (source a)) counts)
         activities [];
     byImpact :=
       fold_left (fun counts a => increment (impactName (impact a)) counts)
         activities [] |}.

(** *** [app/api/analyze/route.ts] *)

(** [fetchGitHubData] of [lib/github], which is not among the sources:
    whatever it returns or throws for the request. *)
Variable fetchGitHubData :
  string -> string -> string -> string -> option (list string) ->
  Result GitHubData.

(** The fields read from the request body, once the body (JSON or form
    data) was read; [None] is a field that is missing. *)
Record AnalyzeRequest : Type := {
  accessToken : option string;
  repoUrl : option string;
  requestStartDate : option string;
  requestEndDate : option string;
  prUrls : option (list string);
  requestNotionContent : option string;
  pdfFiles : list File
}.

Inductive Response : Type :=
| Json (achievements : list Achievement)
| Json400 (error : string)
| Json500 (error : string) (details : exn).

Definition noDataText (startDate endDate : string) : string :=
  "No code changes, pull requests, or additional notes were found within the specified timeframe (" ++
  startDate ++ " to " ++ endDate ++
  "). Consider expanding your date range or checking if there was any repository activity during this period.".

Definition noDataAchievement (startDate endDate : string) : Achievement :=
  {| id := "no-data-found";
     text := JString (noDataText startDate endDate);
     selected := true;
     achievementSource := "system" |}.

(** [notionContent && notionContent.trim().length > 0] *)
Definition hasText (notionContent : option string) : bool :=
  match notionContent with
  | None => false
  | Some s =>
      negb (String.eqb s "") && (0 <? String.length (JS.trim s))%nat
  end.

Definition POST (request : AnalyzeRequest) : M Response :=
  tryCatch
    (if isFalsy (accessToken request) || isFalsy (repoUrl request) ||
        isFalsy (requestStartDate request) ||
        isFalsy (requestEndDate request)
     then ret (Json400 "Missing required parameters")
     else
       let startDate := orEmpty (requestStartDate request) in
       let endDate := orEmpty (requestEndDate request) in
       data <-
         lift (fetchGitHubData (orEmpty (accessToken request))
                 (orEmpty (repoUrl request)) startDate endDate
                 (prUrls request)) ;;
       let hasCommits := negb (isEmpty (commits data)) in
       let hasPRs := negb (isEmpty (pullRequests data)) in
       let hasNotionContent := hasText (requestNotionContent request) in
       if negb hasCommits && negb hasPRs && negb hasNotionContent
       then ret (Json [noDataAchievement startDate endDate])
       else
         achievements <-
           analyzeGitHubActivity data (requestNotionContent request)
             (pdfFiles request) ;;
         ret (Json achievements))
    (fun error => ret (Json500 "Failed to analyze GitHub data" error)).

End Pipeline.

(** ** [lib/serverLogManager.ts] *)

Module ServerLogManager.

Inductive Level : Type := info | success | warning | error.

Record ServerLogMessage : Type := {
  id : string;
  timestamp : Z;
  level : Level;
  message : string;
  source : option string
}.

(** [private maxLogs = 50] *)
Definition maxLogs : nat := 50.

(** [arr.slice(start)] for an integer [start]: a negative one counts from
    the end. *)
Definition sliceFrom {A} (start : Z) (arr : list A) : list A :=
  let len := Z.of_nat (List.length arr) in
  if start <? 0 then skipn (Z.to_nat (Z.max (len + start) 0)) arr
  else skipn (Z.to_nat (Z.min start len)) arr.

(** [addLog(level, message, source)] on the buffer [logs]: [now] is what
    [Date.now()] returns, [random] is
    [Math.random().toString(36).substr(2, 9)] and [stamp] is the time of
    [new Date()]. *)
Definition addLog (now : Z) (random : string) (stamp : Z) (lvl : Level)
  (msg : string) (src : option string) (logs : list ServerLogMessage)
  : list ServerLogMessage :=
  let log :=
    {| id := "server-log-" ++ JS.numberToString now ++ "-" ++ random;
       timestamp := stamp; level := lvl; message := msg; source := src |} in
  let logs := (logs ++ [log])%list in
  if (maxLogs <? List.length logs)%nat
  then sliceFrom (- Z.of_nat maxLogs) logs
  else logs.

(** [getLogs()] *)
Definition getLogs (logs : list ServerLogMessage) : list ServerLogMessage :=
  logs.

(** [clearLogs()] *)
Definition clearLogs (logs : list ServerLogMessage) : list ServerLogMessage :=
  [].

Definition sameLevel (a b : Level) : bool :=
  match a, b with
  | info, info | success, success | warning, warning | error, error => true
  | _, _ => false
  end.

Definition getLogsByLevel (lvl : Level) (logs : list ServerLogMessage)
  : list ServerLogMessage :=
  filter (fun log => sameLevel (level log) lvl) logs.

(** [log.source === source] *)
Definition getLogsBySource (src : string) (logs : list ServerLogMessage)
  : list ServerLogMessage :=
  filter (fun log =>
            match source log with
            | Some s => String.eqb s src
            | None => false
            end) logs.

(** [getRecentLogs(count)], that is [this.logs.slice(-count)]. *)
Definition getRecentLogs (count : Z) (logs : list ServerLogMessage)
  : list ServerLogMessage :=
  sliceFrom (- count) logs.

Record LevelCounts : Type := {
  infoCount : Z;
  successCount : Z;
  warningCount : Z;
  errorCount : Z
}.

(** [byLevel[log.level]++] *)
Definition countLevel (c : LevelCounts) (lvl : Level) : LevelCounts :=
  match lvl with
  | info =>
      {| infoCount := infoCount c + 1; successCount := successCount c;
         warningCount := warningCount c; errorCount := errorCount c |}
  | success =>
      {| infoCount := infoCount c; successCount := successCount c + 1;
         warningCount := warningCount c; errorCount := errorCount c |}
  | warning =>
      {| infoCount := infoCount c; successCount := successCount c;
         warningCount := warningCount c + 1; errorCount := errorCount c |}
  | error =>
      {| infoCount := infoCount c; successCount := successCount c;
         warningCount := warningCount c; errorCount := errorCount c + 1 |}
  end.

Record Stats : Type := {
  total : nat;
  byLevel : LevelCounts;
  bySource : Counts
}.

Definition getStats (logs : list ServerLogMessage) : Stats :=
  {| total := List.length logs;
     byLevel :=
       fold_left (fun c log => countLevel c (level log)) logs
         {| infoCount := 0; successCount := 0; warningCount := 0;
            errorCount := 0 |};
     bySource :=
       fold_left
         (fun counts log =>
            if isFalsy (source log) then counts
            else increment (orEmpty (source log)) counts)
         logs [] |}.

End ServerLogManager.

(** ** The helpers for GitHub addresses: [formatGitHubUrl] and
    [extractRepoFromUrl] *)

Definition formatGitHubUrl (url : string) : string :=
  if negb (JS.startsWith url "http") then "https://github.com/" ++ url
  else url.

Definition isSlash (c : ascii) : bool := Ascii.eqb c "/".

(** The longest prefix matched by [[^\/]*], and what follows it. *)
Fixpoint takeSegment (s : string) : string * string :=
  match s with
  | EmptyString => (EmptyString, EmptyString)
  | String c r =>
      if isSlash c then (EmptyString, s)
      else let (seg, rest) := takeSegment r in (String c seg, rest)
  end.

(** A match of [/github\.com\/([^\/]+)\/([^\/]+)/] that starts at the
    first character of [s].  A group takes every character up to the next
    slash: a shorter owner would not be followed by the slash. *)
Definition matchRepoHere (s : string) : option (string * string) :=
  match JS.afterPrefix "github.com/" s with
  | Some r =>
      match takeSegment r with
      | (EmptyString, _) => None
      | (owner, String "/" r') =>
          match takeSegment r' with
          | (EmptyString, _) => None
          | (repo, _) => Some (owner, repo)
          end
      | (_, _) => None
      end
  | None => None
  end.

(** [url.match(...)]: the first position with a match; the pair is
    [(owner, repo)] and [None] is [null]. *)
Fixpoint extractRepoFromUrl (url : string) : option (string * string) :=
  match matchRepoHere url with
  | Some found => Some found
  | None =>
      match url with
      | EmptyString => None
      | String _ r => extractRepoFromUrl r
      end
  end.

(** * Vocabulary of the properties *)

Fixpoint allDigits (s : string) : bool :=
  match s with
  | EmptyString => true
  | String c r => JS.isDigit c && allDigits r
  end.

(** The model that rejects every call, and the parser that rejects every
    text. *)
Definition alwaysRejects : nat -> Prompt -> ModelReply :=
  fun _ _ => ModelRejects.

Definition neverParses : string -> option JSValue := fun _ => None.

Definition endsSentence (d : string) : bool :=
  JS.endsWith d "." || JS.endsWith d "!" || JS.endsWith d "?".

(** [activity.category === key] *)
Definition inCategory (key : string) (a : CategorizedActivity) : bool :=
  String.eqb (category a) key.

(** The grouping written as eight filters of the input. *)
Definition groupedOf (activities : list CategorizedActivity) : Grouped :=
  {| gFeature := filter (inCategory "feature") activities;
     gFix := filter (inCategory "fix") activities;
     gRefactor := filter (inCategory "refactor") activities;
     gDocs := filter (inCategory "docs") activities;
     gTest := filter (inCategory "test") activities;
     gChore := filter (inCategory "chore") activities;
     gPerformance := filter (inCategory "performance") activities;
     gSecurity := filter (inCategory "security") activities |}.

Definition appendGrouped (g h : Grouped) : Grouped :=
  {| gFeature := gFeature g ++ gFeature h;
     gFix := gFix g ++ gFix h;
     gRefactor := gRefactor g ++ gRefactor h;
     gDocs := gDocs g ++ gDocs h;
     gTest := gTest g ++ gTest h;
     gChore := gChore g ++ gChore h;
     gPerformance := gPerformance g ++ gPerformance h;
     gSecurity := gSecurity g ++ gSecurity h |}.

(** The type [CategorizedActivity] promises a category of the taxonomy. *)
Definition wellTyped (a : CategorizedActivity) : Prop :=
  In (category a) validCategories.

(** [longerFirst a b]: [a] may stand before [b] in the ranking. *)
Definition longerFirst (a b : string) : Prop :=
  (String.length b <= String.length a)%nat.

(** The world after one reading of the clock. *)
Definition ticked (w : World) : World := snd (Date_now w).

(** The recorded calls that are inside the window at [now]. *)
Definition pruned (now : Z) (rl : RateLimiter) : list Z :=
  filter (inWindow now (timeWindow rl)) (requests rl).

(** The limiter as [waitForAvailability] sees it after pruning. *)
Definition prunedLimiter (now : Z) (rl : RateLimiter) : RateLimiter :=
  {| requests := pruned now rl;
     maxRequests := maxRequests rl;
     timeWindow := timeWindow rl |}.

(** What holds of the limiter between calls made one after another: its
    configuration, no recorded call in the future, and a count inside the
    window that does not exceed the maximum. *)
Definition limiterInv (maxR tw : Z) (w : World) : Prop :=
  maxRequests (limiter w) = maxR /\
  timeWindow (limiter w) = tw /\
  Forall (fun t => t <= clock w) (requests (limiter w)) /\
  Z.of_nat (List.length (pruned (clock w) (limiter w))) <= maxR.

Definition noStaleRequest (w : World) : Prop :=
  Forall (fun t => clock w - t < timeWindow (limiter w))
         (requests (limiter w)).

(** [returns m P]: from every world, [m] returns (it does not throw) a
    value that satisfies [P]. *)
Definition returns {A} (m : M A) (P : A -> Prop) : Prop :=
  forall w, exists a w', m w = (Returned a, w') /\ P a.

Definition anything {A} : A -> Prop := fun _ => True.

Definition sampleActivity (c d : string) : CategorizedActivity :=
  {| category := c; description := d; impact := low; source := commit;
     originalText := d |}.

Definition emptyRepository :
  string -> string -> string -> string -> option (list string) ->
  Result GitHubData :=
  fun _ _ _ _ _ => Returned {| commits := []; pullRequests := [] |}.

Definition quietRequest : AnalyzeRequest :=
  {| accessToken := Some "token"%string;
     repoUrl := Some "owner/repo"%string;
     requestStartDate := Some "2024-01-01"%string;
     requestEndDate := Some "2024-01-07"%string;
     prUrls := None;
     requestNotionContent := Some "   "%string;
     pdfFiles := [] |}.

(** The milliseconds that pass before the next reading of the clock. *)
Definition nextTick (ts : list N) : Z :=
  match ts with
  | [] => 0
  | d :: _ => Z.of_N d
  end.

(** How long [waitForAvailability] sleeps when called in [w]. *)
Definition sleepTime (w : World) : Z :=
  let now := clock (ticked w) in
  if maxRequests (limiter w) <=?
     Z.of_nat (List.length (pruned now (limiter w)))
  then timerDelay (waitTime (prunedLimiter now (limiter w)) now)
  else 0.

(** No call is recorded at a time the clock has not reached. *)
Definition noFutureRequest (w : World) : Prop :=
  Forall (fun t => t <= clock w) (requests (limiter w)).

(** [keywords.some((keyword) => s.toLowerCase().includes(keyword))] *)
Definition mentionsAny (keywords : list string) (s : string) : bool :=
  existsb (fun keyword => JS.includes (JS.toLowerCase s) keyword) keywords.

Definition achievementKeywords : list string :=
  ["completed"; "finished"; "implemented"; "created"; "developed"; "built";
   "delivered"; "achieved"; "accomplished"; "solved"].

Definition insightKeywords : list string :=
  ["discovered"; "found"; "realized"; "learned"; "understood"; "insight";
   "finding"; "conclusion"; "observation"].

Definition learningKeywords : list string :=
  ["learned"; "studied"; "mastered"; "acquired"; "gained"; "skill";
   "knowledge"; "concept"; "technique"; "methodology"].

(** A string with something other than white space in it. *)
Definition nonBlank (s : string) : Prop := JS.trim s <> "".

Definition emptySummary : WeeklySummary :=
  {| Features := []; Fixes := []; Refactors := [];
     Highlights := Some []; Notes := Some [] |}.

(** What [classifyActivities] makes of [texts] read from [src]: one
    activity for each text, in order, marked with the source and given a
    category of the taxonomy. *)
Definition classifiedAs (texts : list string) (src : Source)
  (out : list CategorizedActivity) : Prop :=
  map originalText out = texts /\
  Forall (fun a => source a = src /\ wellTyped a) out.

(** The sum of all the counters. *)
Definition sumCounts (counts : Counts) : Z :=
  fold_right (fun entry acc => snd entry + acc) 0 counts.

(** The number of elements of [l] filed under [key] by [f], as a counter
    shows it: a key that was never counted is [undefined]. *)
Definition tally {A} (f : A -> string) (key : string) (l : list A)
  : option Z :=
  let n := List.length (filter (fun a => String.eqb (f a) key) l) in
  if (n =? 0)%nat then None else Some (Z.of_nat n).

(** The last [n] elements of [l], all of [l] when it has fewer. *)
Definition lastN {A} (n : nat) (l : list A) : list A :=
  skipn (List.length l - n) l.

(** One call of [addLog]: the arguments, the two readings of the clock
    and the random suffix of the identifier. *)
Record LogCall : Type := {
  callNow : Z;
  callRandom : string;
  callStamp : Z;
  callLevel : ServerLogManager.Level;
  callMessage : string;
  callSource : option string
}.

Definition logOf (c : LogCall) : ServerLogManager.ServerLogMessage :=
  {| ServerLogManager.id :=
       "server-log-" ++ JS.numberToString (callNow c) ++ "-" ++ callRandom c;
     ServerLogManager.timestamp := callStamp c;
     ServerLogManager.level := callLevel c;
     ServerLogManager.message := callMessage c;
     ServerLogManager.source := callSource c |}.

(** The buffer after the calls [calls] were made on [logs], one after
    another. *)
Definition addLogs (calls : list LogCall)
  (logs : list ServerLogManager.ServerLogMessage)
  : list ServerLogManager.ServerLogMessage :=
  fold_left
    (fun logs c =>
       ServerLogManager.addLog (callNow c) (callRandom c) (callStamp c)
         (callLevel c) (callMessage c) (callSource c) logs)
    calls logs.

(** No slash in the string. *)
Fixpoint slashFree (s : string) : bool :=
  match s with
  | EmptyString => true
  | String c r => negb (isSlash c) && slashFree r
  end.

(** * Properties *)

Local Open Scope list_scope.

(** ** Strings *)

Lemma upperChar_not_lower (c : ascii) : JS.isLower (JS.upperChar c) = false.
Proof.
  destruct c as [[] [] [] [] [] [] [] []]; reflexivity.
Qed.

Lemma endsWith_append_self (d p : string) :
  JS.endsWith (d ++ p)%string p = true.
Proof.
  induction d as [|c d IH]; simpl.
  - destruct p; simpl; [reflexivity|].
    rewrite Ascii.eqb_refl, String.eqb_refl. reflexivity.
  - rewrite IH. apply orb_true_r.
Qed.

Lemma ensurePunctuation_ends (d : string) :
  endsSentence (ensurePunctuation d) = true.
Proof.
  unfold ensurePunctuation, endsSentence.
  destruct (JS.endsWith d ".") eqn:E1; simpl; [rewrite E1; reflexivity|].
  destruct (JS.endsWith d "!") eqn:E2; simpl;
    [rewrite E1, E2; reflexivity|].
  destruct (JS.endsWith d "?") eqn:E3; simpl.
  - rewrite E1, E2, E3. reflexivity.
  - rewrite (endsWith_append_self d "."). reflexivity.
Qed.

Lemma ensurePunctuation_capitalized (t : string) :
  exists c r,
    ensurePunctuation (JS.capitalizeFirst t) = String c r /\
    JS.isLower c = false.
Proof.
  destruct t as [|c t]; simpl.
  - exists "."%char, EmptyString. split; reflexivity.
  - unfold ensurePunctuation.
    destruct (negb _ && negb _ && negb _); simpl.
    + eexists _, _. split; [reflexivity | apply upperChar_not_lower].
    + eexists _, _. split; [reflexivity | apply upperChar_not_lower].
Qed.

(** ** C10: the description of the empty activity *)

(** C10. For the empty activity string, [createBusinessDescription] (for
    every category) and [cleanActivityDescription] return exactly ".":
    capitalizing the empty string leaves it empty and the punctuation step
    appends the period. *)
Theorem empty_activity_description (category : ActivityCategory) :
  createBusinessDescription "" category = "." /\
  cleanActivityDescription "" = "." /\
  JS.capitalizeFirst "" = "" /\
  ensurePunctuation "" = ".".
Proof.
  repeat split; reflexivity.
Qed.

(** ** C5 and C4: grouping and the three summary buckets *)

Lemma pushActivity_wellTyped (g : Grouped) (a : CategorizedActivity) :
  wellTyped a ->
  pushActivity g a = Returned (appendGrouped g (groupedOf [a])).
Proof.
  unfold wellTyped. destruct a as [cat d i s o]. simpl. intros H.
  unfold pushActivity, appendGrouped, groupedOf, inCategory.
  repeat (destruct H as [H | H]; [subst cat; simpl;
    rewrite ?app_nil_r; reflexivity|]).
  contradiction.
Qed.

Lemma appendGrouped_assoc (g : Grouped) (a : CategorizedActivity)
  (r : list CategorizedActivity) :
  appendGrouped (appendGrouped g (groupedOf [a])) (groupedOf r) =
  appendGrouped g (groupedOf (a :: r)).
Proof.
  unfold appendGrouped, groupedOf. simpl.
  repeat match goal with
         | |- context [inCategory ?k a] => destruct (inCategory k a)
         end;
    rewrite <- ?app_assoc; reflexivity.
Qed.

Lemma groupInto_wellTyped (activities : list CategorizedActivity) :
  forall g,
    Forall wellTyped activities ->
    groupInto g activities = Returned (appendGrouped g (groupedOf activities)).
Proof.
  induction activities as [|a r IH]; intros g H; simpl.
  - unfold appendGrouped, groupedOf. simpl. rewrite !app_nil_r.
    destruct g; reflexivity.
  - inversion H as [|? ? Ha Hr]; subst.
    rewrite (pushActivity_wellTyped g a Ha), (IH _ Hr).
    rewrite appendGrouped_assoc. reflexivity.
Qed.

Lemma groupByCategory_wellTyped (activities : list CategorizedActivity) :
  Forall wellTyped activities ->
  groupByCategory activities = Returned (groupedOf activities).
Proof.
  intros H. unfold groupByCategory.
  rewrite (groupInto_wellTyped activities emptyGrouped H). reflexivity.
Qed.

Lemma filter_split_Permutation {A} (f : A -> bool) (l : list A) :
  Permutation (filter f l ++ filter (fun a => negb (f a)) l) l.
Proof.
  induction l as [|a l IH]; simpl; [constructor|].
  destruct (f a); simpl.
  - constructor. exact IH.
  - symmetry. apply Permutation_cons_app. symmetry. exact IH.
Qed.

(** Filtering by each key of a duplicate-free list that covers the
    categories present splits the activities without loss. *)
Lemma filters_cover (keys : list string) :
  NoDup keys ->
  forall activities : list CategorizedActivity,
    Forall (fun a => In (category a) keys) activities ->
    Permutation
      (List.concat (map (fun k => filter (inCategory k) activities) keys))
      activities.
Proof.
  induction 1 as [|k keys Hk Hnd IH]; intros activities Hall; simpl.
  - destruct activities as [|a r]; [constructor|].
    inversion Hall as [|? ? Ha _]; contradiction.
  - set (others := filter (fun a => negb (inCategory k a)) activities).
    assert (Hsame :
      map (fun k' => filter (inCategory k') activities) keys =
      map (fun k' => filter (inCategory k') others) keys).
    { apply map_ext_in. intros k' Hk'. unfold others.
      clear - Hk Hk'. induction activities as [|a r IHr]; simpl; auto.
      destruct (inCategory k a) eqn:E2; destruct (inCategory k' a) eqn:E1;
        simpl; rewrite ?E1; try exact IHr.
      - exfalso. apply Hk. unfold inCategory in E1, E2.
        apply String.eqb_eq in E1, E2. congruence.
      - f_equal. exact IHr. }
    rewrite Hsame.
    transitivity (filter (inCategory k) activities ++ others).
    + apply Permutation_app_head. apply IH.
      unfold others. rewrite Forall_forall in *. intros a Ha.
      apply filter_In in Ha. destruct Ha as [Ha Hneq].
      destruct (Hall a Ha) as [E|Hin]; [|exact Hin].
      unfold inCategory in Hneq. subst k.
      rewrite String.eqb_refl in Hneq. discriminate.
    + apply filter_split_Permutation.
Qed.

Lemma validCategories_NoDup : NoDup validCategories.
Proof.
  unfold validCategories.
  repeat (constructor; [simpl; intuition discriminate|]).
  constructor.
Qed.

(** C5. For every sequence of categorized activities, [groupByCategory]
    returns a grouping whose flattening is a permutation of the input (so
    nothing is dropped or duplicated), and the bucket of every category is
    the input filtered by that category, which keeps the original order. *)
Theorem groupByCategory_partitions (activities : list CategorizedActivity) :
  Forall wellTyped activities ->
  exists grouped,
    groupByCategory activities = Returned grouped /\
    Permutation (flatten grouped) activities /\
    List.length (flatten grouped) = List.length activities /\
    Forall (fun key =>
              bucket key grouped = Some (filter (inCategory key) activities))
           validCategories.
Proof.
  intros H. exists (groupedOf activities).
  assert (P : Permutation (flatten (groupedOf activities)) activities).
  { change (flatten (groupedOf activities)) with
      (List.concat
         (map (fun k => filter (inCategory k) activities) validCategories)).
    apply filters_cover; [apply validCategories_NoDup | exact H]. }
  split; [apply groupByCategory_wellTyped; exact H|].
  split; [exact P|].
  split; [apply Permutation_length; exact P|].
  repeat constructor.
Qed.

Lemma groupByCategory_partitions_witness :
  exists grouped,
    groupByCategory
      [sampleActivity "fix" "Null pointer in parser.";
       sampleActivity "feature" "Add CSV export.";
       sampleActivity "fix" "Typo."] = Returned grouped /\
    gFix grouped =
      [sampleActivity "fix" "Null pointer in parser.";
       sampleActivity "fix" "Typo."].
Proof.
  destruct (groupByCategory_partitions
              [sampleActivity "fix" "Null pointer in parser.";
               sampleActivity "feature" "Add CSV export.";
               sampleActivity "fix" "Typo."]) as [g [Hg _]].
  - repeat constructor; unfold wellTyped; simpl; tauto.
  - exists g. split; [exact Hg|].
    vm_compute in Hg. inversion Hg. reflexivity.
Defined.

(** C4. For every grouping, the descriptions under feature, performance
    and security make up [Features], those under fix make up [Fixes], and
    those under refactor, docs, test and chore make up [Refactors]; the
    three buckets together hold one entry for every grouped activity. *)
Theorem mapToWeeklySummaryCategories_buckets (grouped : Grouped) :
  let mapped := mapToWeeklySummaryCategories grouped in
  bFeatures mapped =
    map description
      (gFeature grouped ++ gPerformance grouped ++ gSecurity grouped) /\
  bFixes mapped = map description (gFix grouped) /\
  bRefactors mapped =
    map description
      (gRefactor grouped ++ gDocs grouped ++ gTest grouped ++ gChore grouped) /\
  Permutation (bFeatures mapped ++ bFixes mapped ++ bRefactors mapped)
    (map description (flatten grouped)) /\
  (List.length (bFeatures mapped) + List.length (bFixes mapped) +
   List.length (bRefactors mapped) = List.length (flatten grouped))%nat.
Proof.
  destruct grouped as [f x r d t c p s].
  assert (P :
    Permutation
      ((map description f ++ map description p ++ map description s) ++
       map description x ++
       (map description r ++ map description d ++ map description t ++
        map description c))
      (map description (f ++ x ++ r ++ d ++ t ++ c ++ p ++ s ++ []))).
  { rewrite app_nil_r, !map_app, <- !app_assoc.
    apply Permutation_app_head.
    rewrite (app_assoc (map description p)).
    etransitivity; [apply Permutation_app_comm|].
    rewrite <- !app_assoc. reflexivity. }
  cbv zeta. unfold mapToWeeklySummaryCategories, flatten. simpl.
  rewrite !map_app.
  split; [reflexivity|]. split; [reflexivity|]. split; [reflexivity|].
  split.
  - rewrite !map_app in P. exact P.
  - rewrite !length_app, !length_map. simpl. lia.
Qed.

(** ** C8: de-duplication and ranking *)

Lemma existsb_eqb_In (x : string) (seen : list string) :
  existsb (String.eqb x) seen = true <-> In x seen.
Proof.
  rewrite existsb_exists. split.
  - intros [y [Hy E]]. apply String.eqb_eq in E. subst. exact Hy.
  - intros H. exists x. split; [exact H | apply String.eqb_refl].
Qed.

Lemma uniqueFirst_In (l : list string) :
  forall seen x,
    In x (JS.uniqueFirst seen l) <-> In x l /\ ~ In x seen.
Proof.
  induction l as [|y l IH]; intros seen x; simpl; [tauto|].
  destruct (existsb (String.eqb y) seen) eqn:E.
  - apply existsb_eqb_In in E. rewrite IH. split.
    + intros [H1 H2]. tauto.
    + intros [[H1 | H1] H2]; [subst; contradiction | tauto].
  - assert (Hy : ~ In y seen).
    { intros H. apply existsb_eqb_In in H. congruence. }
    simpl. rewrite IH. simpl. split.
    + intros [H | [H1 H2]]; [subst; tauto | tauto].
    + intros [[H1 | H1] H2]; [tauto|].
      destruct (string_dec y x) as [->|N]; [tauto|]. right. tauto.
Qed.

Lemma uniqueFirst_NoDup (l : list string) :
  forall seen, NoDup (JS.uniqueFirst seen l).
Proof.
  induction l as [|y l IH]; intros seen; simpl; [constructor|].
  destruct (existsb (String.eqb y) seen); [apply IH|].
  constructor; [|apply IH].
  rewrite uniqueFirst_In. simpl. tauto.
Qed.

Lemma insertByLength_Permutation (x : string) (l : list string) :
  Permutation (insertByLength x l) (x :: l).
Proof.
  induction l as [|y l IH]; simpl; [reflexivity|].
  destruct (String.length x <? String.length y)%nat; [|reflexivity].
  rewrite IH. apply perm_swap.
Qed.

Lemma sortByLength_Permutation (l : list string) :
  Permutation (sortByLength l) l.
Proof.
  induction l as [|x l IH]; simpl; [constructor|].
  rewrite insertByLength_Permutation. constructor. exact IH.
Qed.

Lemma insertByLength_Sorted (x : string) (l : list string) :
  Sorted longerFirst l -> Sorted longerFirst (insertByLength x l).
Proof.
  induction l as [|y l IH]; intros H; simpl.
  - repeat constructor.
  - destruct (Nat.ltb_spec (String.length x) (String.length y)) as [L|L].
    + inversion H as [|? ? Hs Hh]; subst.
      constructor; [apply IH; exact Hs|].
      destruct l as [|z l]; simpl.
      * constructor. unfold longerFirst. lia.
      * destruct (String.length x <? String.length z)%nat; constructor.
        -- inversion Hh; assumption.
        -- unfold longerFirst. lia.
    + constructor; [exact H|]. constructor. exact L.
Qed.

Lemma sortByLength_StronglySorted (l : list string) :
  StronglySorted longerFirst (sortByLength l).
Proof.
  apply Sorted_StronglySorted.
  - intros a b c. unfold longerFirst. lia.
  - induction l as [|x l IH]; simpl; [constructor|].
    apply insertByLength_Sorted. exact IH.
Qed.

Lemma StronglySorted_app_split {A} (R : A -> A -> Prop) (l1 l2 : list A) :
  StronglySorted R (l1 ++ l2) ->
  StronglySorted R l1 /\
  forall a b, In a l1 -> In b l2 -> R a b.
Proof.
  induction l1 as [|x l1 IH]; simpl; intros H.
  - split; [constructor | contradiction].
  - inversion H as [|? ? Hs Hf]; subst.
    destruct (IH Hs) as [S1 S2]. rewrite Forall_forall in Hf. split.
    + constructor; [exact S1|]. apply Forall_forall. intros y Hy.
      apply Hf. apply in_or_app. tauto.
    + intros a b [->|Ha] Hb; [|auto].
      apply Hf. apply in_or_app. tauto.
Qed.

(** C8, as the code has it. [deduplicateAndPrioritize] drops repeated
    strings, keeps exactly the strings whose length after trimming is
    greater than 10, ranks the survivors by length with the longer first,
    and returns at most 10 of them: a survivor is left out only when ten
    strings at least as long are returned. *)
Theorem deduplicateAndPrioritize_ranked (items : list string) :
  let ranked := deduplicateAndPrioritize items in
  NoDup ranked /\
  Forall (fun x => In x items /\ (10 < String.length (JS.trim x))%nat) ranked /\
  StronglySorted longerFirst ranked /\
  (List.length ranked <= 10)%nat /\
  Forall (fun x =>
            (10 < String.length (JS.trim x))%nat ->
            In x ranked \/
            (List.length ranked = 10%nat /\
             Forall (fun y => longerFirst y x) ranked))
         items.
Proof.
  cbv zeta. unfold deduplicateAndPrioritize.
  set (keep := fun item => (10 <? String.length (JS.trim item))%nat).
  set (unique := filter keep (JS.uniqueFirst [] items)).
  assert (Hsplit : firstn 10 (sortByLength unique) ++
                   skipn 10 (sortByLength unique) = sortByLength unique)
    by apply firstn_skipn.
  assert (Hsorted := sortByLength_StronglySorted unique).
  rewrite <- Hsplit in Hsorted.
  apply StronglySorted_app_split in Hsorted. destruct Hsorted as [S1 S2].
  assert (Hnd : NoDup (sortByLength unique)).
  { apply (Permutation_NoDup (l := unique)).
    - symmetry. apply sortByLength_Permutation.
    - apply NoDup_filter. apply uniqueFirst_NoDup. }
  assert (Hin : forall x, In x (sortByLength unique) <->
                          In x items /\ keep x = true).
  { intros x. split.
    - intros H. apply (Permutation_in _ (sortByLength_Permutation unique)) in H.
      apply filter_In in H. destruct H as [H K].
      apply uniqueFirst_In in H. tauto.
    - intros [H K].
      apply (Permutation_in _ (Permutation_sym (sortByLength_Permutation unique))).
      apply filter_In. split; [|exact K].
      apply uniqueFirst_In. simpl. tauto. }
  split; [|split; [|split; [|split]]].
  - rewrite <- Hsplit in Hnd. apply NoDup_app_remove_r in Hnd. exact Hnd.
  - apply Forall_forall. intros x Hx.
    assert (Hx' : In x (sortByLength unique)).
    { rewrite <- Hsplit. apply in_or_app. tauto. }
    apply Hin in Hx'. destruct Hx' as [H K]. split; [exact H|].
    unfold keep in K. apply Nat.ltb_lt in K. exact K.
  - exact S1.
  - apply firstn_le_length.
  - apply Forall_forall. intros x Hx Hlen.
    assert (Hx' : In x (sortByLength unique)).
    { apply Hin. split; [exact Hx|]. unfold keep. apply Nat.ltb_lt. exact Hlen. }
    rewrite <- Hsplit in Hx'. apply in_app_or in Hx'.
    destruct Hx' as [Hx' | Hx']; [left; exact Hx'|]. right. split.
    + rewrite length_firstn. 
      assert (L : (10 < List.length (sortByLength unique))%nat).
      { destruct (Nat.le_gt_cases (List.length (sortByLength unique)) 10)
          as [Hle|Hgt]; [|exact Hgt].
        rewrite (skipn_all2 _ Hle) in Hx'. contradiction. }
      lia.
    + apply Forall_forall. intros y Hy. apply S2; assumption.
Qed.

(** C8 as the specification words it fails: a string of exactly 10 characters has
    length at least 10 and is the only item, yet it is not kept. *)
Lemma deduplicateAndPrioritize_drops_length_10 :
  deduplicateAndPrioritize ["abcdefghij"] = [] /\
  ~ ((10 <= String.length "abcdefghij")%nat ->
     In "abcdefghij" (deduplicateAndPrioritize ["abcdefghij"])).
Proof.
  split; [reflexivity|]. intros H. apply H. simpl. lia.
Qed.

(** ** C1: classification stays inside the taxonomy *)

Lemma fallbackClassification_valid (activity : string) :
  In (fallbackClassification activity) validCategories.
Proof.
  unfold fallbackClassification.
  repeat match goal with
         | |- context [if ?b then _ else _] => destruct b
         end; simpl; tauto.
Qed.

(** C1. Whatever the model does, [classifyActivity] returns (it never
    throws) and the category it returns is one of the eight of the
    taxonomy: the normalized reply when that is a member, and the keyword
    fall-back when the call fails or the reply is anything else. *)
Theorem classifyActivity_in_taxonomy
  (generate : nat -> Prompt -> ModelReply) (activity : string) (w : World) :
  exists c w',
    classifyActivity generate activity w = (Returned c, w') /\
    In c validCategories /\
    c = match generate (modelCalls w) (ClassificationPrompt activity) with
        | ModelRejects => fallbackClassification activity
        | ModelText reply =>
            let classification := JS.toLowerCase (JS.trim reply) in
            if isActivityCategory classification then classification
            else fallbackClassification activity
        end.
Proof.
  unfold classifyActivity, tryCatch, bind, generateContent, isActivityCategory.
  destruct (generate (modelCalls w) (ClassificationPrompt activity))
    as [|reply]; cbv zeta.
  - eexists _, _. split; [reflexivity|].
    split; [apply fallbackClassification_valid | reflexivity].
  - destruct (existsb (String.eqb (JS.toLowerCase (JS.trim reply)))
                validCategories) eqn:E.
    + eexists _, _. split; [reflexivity|]. split; [|reflexivity].
      apply existsb_eqb_In. exact E.
    + eexists _, _. split; [reflexivity|].
      split; [apply fallbackClassification_valid | reflexivity].
Qed.

(** ** C6: groups of one and of none *)

Lemma stripLabel_conventional :
  Forall (fun word =>
            forall rest,
              JS.stripLabel conventionalPrefixes (word ++ ":" ++ rest)%string
              = JS.trimStart rest)
         conventionalPrefixes.
Proof.
  repeat constructor.
Qed.


Lemma dropDigits_digits (ds rest : string) :
  allDigits ds = true ->
  JS.dropDigits (ds ++ String ":" rest)%string = String ":" rest.
Proof.
  induction ds as [|c ds IH]; simpl; [reflexivity|].
  intros H. apply andb_prop in H. destruct H as [Hc Hds].
  rewrite Hc. apply IH. exact Hds.
Qed.

(** A leading pull-request number goes the same way as a leading label. *)
Lemma stripPullRequestNumber_prefix (d : ascii) (ds rest : string) :
  JS.isDigit d = true ->
  allDigits ds = true ->
  JS.stripPullRequestNumber
    ("PR #" ++ String d ds ++ String ":" rest)%string = JS.trimStart rest.
Proof.
  intros Hd Hds. unfold JS.stripPullRequestNumber. simpl.
  rewrite Hd, (dropDigits_digits ds rest Hds). reflexivity.
Qed.

(** The scenario of the specification, on the fall-back path alone. *)
Example cleaned_commit :
  cleanActivityDescription "feat: add CSV export" = "Add CSV export."%string.
Proof. reflexivity. Qed.

Example cleaned_pull_request :
  cleanActivityDescription "PR #42: fix login bug" = "Fix login bug."%string.
Proof. reflexivity. Qed.

Example summary_without_model :
  fst (fallbackStructuredSummary alwaysRejects neverParses
         ["fix: null pointer in parser"%string; "feat: add CSV export"%string]
         (freshWorld 0 [] 10 1)) =
  Returned {| Features := ["Add CSV export."%string];
              Fixes := ["Null pointer in parser."%string];
              Refactors := [];
              Highlights := Some [];
              Notes := Some [] |}.
Proof. reflexivity. Qed.

(** ** C3: a request with nothing to analyse *)

Lemma hasText_blank (notionContent : option string) :
  match notionContent with
  | None => True
  | Some s => JS.trim s = ""%string
  end ->
  hasText notionContent = false.
Proof.
  destruct notionContent as [s|]; simpl; [|reflexivity].
  intros E. rewrite E. simpl. apply andb_false_r.
Qed.

(** C3. When the required parameters are present, the GitHub client
    returns no commit and no pull request, and the supplementary text is
    absent or blank, [POST] answers with exactly one achievement, of id
    "no-data-found", whose text is the fixed sentence around the supplied
    start and end dates; the world is left as it was, so no model call was
    made. *)
Theorem POST_no_data
  (generate : nat -> Prompt -> ModelReply)
  (JSON_parse : string -> option JSValue)
  (fetchGitHubData :
     string -> string -> string -> string -> option (list string) ->
     Result GitHubData)
  (request : AnalyzeRequest) (data : GitHubData) (w : World) :
  isFalsy (accessToken request) = false ->
  isFalsy (repoUrl request) = false ->
  isFalsy (requestStartDate request) = false ->
  isFalsy (requestEndDate request) = false ->
  fetchGitHubData (orEmpty (accessToken request)) (orEmpty (repoUrl request))
    (orEmpty (requestStartDate request)) (orEmpty (requestEndDate request))
    (prUrls request) = Returned data ->
  commits data = [] ->
  pullRequests data = [] ->
  match requestNotionContent request with
  | None => True
  | Some s => JS.trim s = ""%string
  end ->
  POST generate JSON_parse fetchGitHubData request w =
    (Returned
       (Json
          [{| id := "no-data-found";
              text :=
                JString
                  ("No code changes, pull requests, or additional notes were found within the specified timeframe (" ++
                   orEmpty (requestStartDate request) ++ " to " ++
                   orEmpty (requestEndDate request) ++
                   "). Consider expanding your date range or checking if there was any repository activity during this period.")%string;
              selected := true;
              achievementSource := "system" |}]),
     w).
Proof.
  intros Ha Hr Hs He Hf Hc Hp Hn.
  unfold POST, tryCatch, bind, lift.
  rewrite Ha, Hr, Hs, He. simpl.
  rewrite Hf, Hc, Hp, (hasText_blank _ Hn). reflexivity.
Qed.

Lemma POST_no_data_witness :
  exists achievement,
    POST alwaysRejects neverParses emptyRepository
      quietRequest (freshWorld 0 [] 10 1) =
      (Returned (Json [achievement]), freshWorld 0 [] 10 1) /\
    id achievement = "no-data-found"%string.
Proof.
  eexists. split.
  - apply (POST_no_data alwaysRejects neverParses
             emptyRepository quietRequest
             {| commits := []; pullRequests := [] |} (freshWorld 0 [] 10 1));
      reflexivity.
  - reflexivity.
Defined.

(** ** The rate limiter *)

Lemma Date_now_ticked (w : World) :
  Date_now w = (Returned (clock (ticked w)), ticked w).
Proof.
  unfold ticked, Date_now. destruct (ticks w); reflexivity.
Qed.

Lemma ticked_clock (w : World) : clock w <= clock (ticked w).
Proof.
  unfold ticked, Date_now. destruct (ticks w) as [|d r]; simpl; lia.
Qed.

Lemma ticked_limiter (w : World) : limiter (ticked w) = limiter w.
Proof.
  unfold ticked, Date_now. destruct (ticks w); reflexivity.
Qed.

Lemma ticked_modelCalls (w : World) : modelCalls (ticked w) = modelCalls w.
Proof.
  unfold ticked, Date_now. destruct (ticks w); reflexivity.
Qed.

Lemma pruned_inWindow (now : Z) (rl : RateLimiter) :
  Forall (fun t => now - t < timeWindow rl) (pruned now rl).
Proof.
  apply Forall_forall. intros t H. apply filter_In in H.
  destruct H as [_ H]. unfold inWindow in H. apply Z.ltb_lt in H. exact H.
Qed.

(** [getUsageStats] never throws; it prunes at the time it reads, counts
    what is left, and subtracts without clamping. *)
Lemma getUsageStats_reads (w : World) :
  exists stats w',
    getUsageStats w = (Returned stats, w') /\
    clock w' = clock (ticked w) /\
    requests (limiter w') = pruned (clock w') (limiter w) /\
    maxRequests (limiter w') = maxRequests (limiter w) /\
    timeWindow (limiter w') = timeWindow (limiter w) /\
    modelCalls w' = modelCalls w /\
    current stats = Z.of_nat (List.length (pruned (clock w') (limiter w))) /\
    max stats = maxRequests (limiter w) /\
    remaining stats = maxRequests (limiter w) - current stats.
Proof.
  unfold getUsageStats, bind, pruneRequests, getLimiter, setRequests, ret,
    bind.
  rewrite Date_now_ticked. simpl.
  rewrite ticked_limiter, ticked_modelCalls.
  do 2 eexists. split; [reflexivity|]. simpl. repeat split.
Qed.

Lemma canMakeRequest_reads (w : World) :
  exists w',
    canMakeRequest w =
      (Returned
         (Z.of_nat (List.length (pruned (clock (ticked w)) (limiter w)))
          <? maxRequests (limiter w)), w') /\
    clock w' = clock (ticked w) /\
    requests (limiter w') = pruned (clock w') (limiter w) /\
    maxRequests (limiter w') = maxRequests (limiter w) /\
    timeWindow (limiter w') = timeWindow (limiter w) /\
    modelCalls w' = modelCalls w.
Proof.
  unfold canMakeRequest, bind, pruneRequests, getLimiter, setRequests, ret,
    bind.
  rewrite Date_now_ticked. simpl.
  rewrite ticked_limiter, ticked_modelCalls.
  eexists. split; [reflexivity|]. simpl. repeat split.
Qed.

(** [waitForAvailability] never throws and never turns a call away: it
    prunes at the time it reads, sleeps for the computed time when the
    pruned count has reached the maximum, and then appends the time it
    reads next. *)
Lemma waitForAvailability_records (w : World) :
  exists w',
    waitForAvailability w = (Returned tt, w') /\
    requests (limiter w') =
      pruned (clock (ticked w)) (limiter w) ++ [clock w'] /\
    maxRequests (limiter w') = maxRequests (limiter w) /\
    timeWindow (limiter w') = timeWindow (limiter w) /\
    modelCalls w' = modelCalls w /\
    clock (ticked w) +
    (if maxRequests (limiter w) <=?
        Z.of_nat (List.length (pruned (clock (ticked w)) (limiter w)))
     then timerDelay (waitTime (prunedLimiter (clock (ticked w)) (limiter w))
                        (clock (ticked w)))
     else 0) <= clock w'.
Proof.
  unfold waitForAvailability, bind, pruneRequests, getLimiter, setRequests,
    ret, bind.
  rewrite Date_now_ticked. cbn [fst snd limiter requests maxRequests timeWindow].
  rewrite ticked_limiter.
  fold (pruned (clock (ticked w)) (limiter w)).
  fold (prunedLimiter (clock (ticked w)) (limiter w)).
  destruct (maxRequests (limiter w) <=?
            Z.of_nat (List.length (pruned (clock (ticked w)) (limiter w)))).
  - unfold sleep, elapse. rewrite Date_now_ticked.
    match goal with
    | |- context [ticked ?W] =>
        pose proof (ticked_clock W) as Hc;
        pose proof (ticked_limiter W) as Hl;
        pose proof (ticked_modelCalls W) as Hm;
        set (w2 := ticked W) in *
    end.
    eexists. split; [reflexivity|].
    cbn [limiter requests maxRequests timeWindow modelCalls clock] in *.
    rewrite Hl, Hm, ticked_modelCalls. cbn. repeat split. exact Hc.
  - rewrite Date_now_ticked.
    match goal with
    | |- context [ticked ?W] =>
        pose proof (ticked_clock W) as Hc;
        pose proof (ticked_limiter W) as Hl;
        pose proof (ticked_modelCalls W) as Hm;
        set (w2 := ticked W) in *
    end.
    eexists. split; [reflexivity|].
    cbn [limiter requests maxRequests timeWindow modelCalls clock] in *.
    rewrite Hl, Hm, ticked_modelCalls. cbn. repeat split. lia.
Qed.

Lemma timerDelay_positive (ms : option Z) : 1 <= timerDelay ms.
Proof.
  unfold timerDelay. destruct ms as [d|]; [|lia].
  destruct (Z.ltb_spec d 1); simpl; [lia|].
  destruct (Z.ltb_spec 2147483647 d); lia.
Qed.

Lemma timerDelay_honoured (d : Z) :
  1 <= d <= 2147483647 -> timerDelay (Some d) = d.
Proof.
  intros H. unfold timerDelay.
  destruct (Z.ltb_spec d 1); [lia|].
  destruct (Z.ltb_spec 2147483647 d); [lia|]. reflexivity.
Qed.

Lemma Math_min_member (l : list Z) :
  l <> [] -> exists m, Math_min l = Some m /\ In m l.
Proof.
  induction l as [|x l IH]; intros H; [contradiction|]. simpl.
  destruct l as [|y l'].
  - exists x. simpl. split; [reflexivity | tauto].
  - destruct IH as [m [E Hm]]; [discriminate|].
    rewrite E. exists (Z.min x m). split; [reflexivity|].
    destruct (Z.min_spec x m) as [[_ ->]|[_ ->]]; [left | right]; auto.
Qed.

Lemma inWindow_later (tw now now' t : Z) :
  now <= now' -> inWindow now' tw t = true -> inWindow now tw t = true.
Proof.
  unfold inWindow. intros H E. apply Z.ltb_lt in E. apply Z.ltb_lt. lia.
Qed.

Lemma count_inWindow_later (tw now now' : Z) (l : list Z) :
  now <= now' ->
  (List.length (filter (inWindow now' tw) l) <=
   List.length (filter (inWindow now tw) l))%nat.
Proof.
  intros H. induction l as [|t l IH]; simpl; [lia|].
  destruct (inWindow now' tw t) eqn:E.
  - rewrite (inWindow_later tw now now' t H E). simpl. lia.
  - destruct (inWindow now tw t); simpl; lia.
Qed.

Lemma filter_length_le {A} (f : A -> bool) (l : list A) :
  (List.length (filter f l) <= List.length l)%nat.
Proof.
  induction l as [|x l IH]; simpl; [lia|]. destruct (f x); simpl; lia.
Qed.

Lemma filter_length_lt {A} (f : A -> bool) (l : list A) (x : A) :
  In x l -> f x = false -> (List.length (filter f l) < List.length l)%nat.
Proof.
  induction l as [|y l IH]; simpl; [contradiction|].
  intros [->|H] E.
  - rewrite E. pose proof (filter_length_le f l). lia.
  - specialize (IH H E). destruct (f y); simpl; lia.
Qed.

Lemma limiterInv_fresh (maxR minutes : Z) (w : World) :
  0 <= maxR ->
  limiter w = newRateLimiter maxR minutes ->
  limiterInv maxR (minutes * 60 * 1000) w.
Proof.
  intros H E. unfold limiterInv, pruned. rewrite E. simpl.
  repeat split; [constructor | lia].
Qed.

Lemma limiterInv_later (maxR tw : Z) (w w' : World) :
  limiterInv maxR tw w ->
  limiter w' = limiter w ->
  clock w <= clock w' ->
  limiterInv maxR tw w'.
Proof.
  intros [Hm [Ht [Hf Hc]]] El Hl. unfold limiterInv, pruned in *.
  rewrite El. repeat split; auto.
  - eapply Forall_impl; [|exact Hf]. simpl. intros; lia.
  - pose proof (count_inWindow_later (timeWindow (limiter w)) _ _
                  (requests (limiter w)) Hl). lia.
Qed.

Lemma limiterInv_pruned (maxR tw : Z) (w w' : World) :
  limiterInv maxR tw w ->
  clock w <= clock w' ->
  requests (limiter w') = pruned (clock w') (limiter w) ->
  maxRequests (limiter w') = maxRequests (limiter w) ->
  timeWindow (limiter w') = timeWindow (limiter w) ->
  limiterInv maxR tw w'.
Proof.
  intros [Hm [Ht [Hf Hc]]] Hl Er Em Et. unfold limiterInv, pruned in *.
  rewrite Er, Em, Et. repeat split; auto.
  - rewrite Forall_forall in *. intros t H. apply filter_In in H.
    destruct H as [H _]. specialize (Hf t H). lia.
  - pose proof (filter_length_le
                  (inWindow (clock w') (timeWindow (limiter w)))
                  (filter (inWindow (clock w') (timeWindow (limiter w)))
                     (requests (limiter w)))).
    pose proof (count_inWindow_later (timeWindow (limiter w)) _ _
                  (requests (limiter w)) Hl). lia.
Qed.

Lemma waitForAvailability_keeps (maxR tw : Z) (w : World) :
  1 <= maxR ->
  tw + 1000 <= 2147483647 ->
  limiterInv maxR tw w ->
  exists w',
    waitForAvailability w = (Returned tt, w') /\ limiterInv maxR tw w'.
Proof.
  intros Hmax Htw Hinv.
  destruct (waitForAvailability_records w)
    as [w' [E [Er [Em [Et [_ Hclock]]]]]].
  exists w'. split; [exact E|].
  destruct Hinv as [Hm [Ht [Hf Hc]]].
  pose proof (ticked_clock w) as Hnow.
  set (now := clock (ticked w)) in *.
  set (kept := pruned now (limiter w)) in *.
  assert (Hkept : (List.length kept <= List.length (pruned (clock w) (limiter w)))%nat)
    by (apply count_inWindow_later; exact Hnow).
  assert (Hin : forall t, In t kept -> t <= clock w /\ now - t < tw).
  { intros t H. unfold kept, pruned in H. apply filter_In in H.
    destruct H as [H1 H2]. rewrite Forall_forall in Hf. split; [auto|].
    unfold inWindow in H2. apply Z.ltb_lt in H2. lia. }
  assert (Hnow' : now <= clock w').
  { destruct (maxRequests (limiter w) <=? Z.of_nat (List.length kept));
      [|lia].
    pose proof (timerDelay_positive
                  (waitTime (prunedLimiter now (limiter w)) now)). lia. }
  unfold limiterInv, pruned. rewrite Er, Em, Et.
  repeat split; auto.
  - apply Forall_app. split.
    + apply Forall_forall. intros t H. destruct (Hin t H). lia.
    + repeat constructor. lia.
  - rewrite filter_app, length_app.
    assert (Hone : (List.length
                      (filter (inWindow (clock w') (timeWindow (limiter w)))
                         [clock w']) <= 1)%nat)
      by apply (filter_length_le _ [clock w']).
    destruct (Z.leb_spec (maxRequests (limiter w))
                (Z.of_nat (List.length kept))) as [Hfull|Hroom].
    + assert (Hne : kept <> []).
      { intros N. rewrite N in Hfull. simpl in Hfull. lia. }
      destruct (Math_min_member kept Hne) as [m [Emin Hmem]].
      destruct (Hin m Hmem) as [Hm1 Hm2].
      unfold waitTime, prunedLimiter in Hclock.
      cbn [requests timeWindow] in Hclock. fold kept in Hclock.
      rewrite Emin, timerDelay_honoured in Hclock by lia.
      assert (Hout : inWindow (clock w') (timeWindow (limiter w)) m = false).
      { unfold inWindow. apply Z.ltb_ge. lia. }
      pose proof (filter_length_lt _ kept m Hmem Hout). lia.
    + pose proof (filter_length_le
                    (inWindow (clock w') (timeWindow (limiter w))) kept). lia.
Qed.

Lemma perform_keeps (maxR tw : Z) (c : Call) (w : World) :
  1 <= maxR ->
  tw + 1000 <= 2147483647 ->
  limiterInv maxR tw w ->
  exists w', perform c w = (Returned tt, w') /\ limiterInv maxR tw w'.
Proof.
  intros Hmax Htw Hinv. destruct c as [| |busy fails|]; simpl.
  - destruct (canMakeRequest_reads w) as [w' [E [Ec [Er [Em [Et _]]]]]].
    unfold bind. rewrite E. eexists. split; [reflexivity|].
    apply (limiterInv_pruned maxR tw w w'); auto.
    rewrite Ec. apply ticked_clock.
  - apply waitForAvailability_keeps; assumption.
  - destruct (waitForAvailability_keeps maxR tw w Hmax Htw Hinv)
      as [w' [E Hinv']].
    unfold tryCatch, execute, workload, bind, elapse. rewrite E.
    destruct fails; simpl; eexists; (split; [reflexivity|]);
      apply (limiterInv_later maxR tw w'); auto; simpl; lia.
  - destruct (getUsageStats_reads w)
      as [stats [w' [E [Ec [Er [Em [Et _]]]]]]].
    unfold bind. rewrite E. eexists. split; [reflexivity|].
    apply (limiterInv_pruned maxR tw w w'); auto.
    rewrite Ec. apply ticked_clock.
Qed.

Lemma performAll_keeps (maxR tw : Z) (calls : list Call) :
  1 <= maxR ->
  tw + 1000 <= 2147483647 ->
  forall w,
    limiterInv maxR tw w ->
    exists w',
      performAll calls w = (Returned tt, w') /\ limiterInv maxR tw w'.
Proof.
  intros Hmax Htw. induction calls as [|c r IH]; intros w Hinv; simpl.
  - exists w. split; [reflexivity | exact Hinv].
  - destruct (perform_keeps maxR tw c w Hmax Htw Hinv) as [w1 [E1 H1]].
    destruct (IH w1 H1) as [w2 [E2 H2]].
    exists w2. unfold bind. rewrite E1. split; [exact E2 | exact H2].
Qed.

(** ** C7: the usage statistics *)




(** ** C9: the window of recorded calls *)



(** ** C2: no failure leaves the analysis *)

Lemma returns_ret {A} (a : A) (P : A -> Prop) : P a -> returns (ret a) P.
Proof.
  intros H w. exists a, w. split; [reflexivity | exact H].
Qed.

Lemma returns_bind {A B} (m : M A) (k : A -> M B)
  (P : A -> Prop) (Q : B -> Prop) :
  returns m P -> (forall a, P a -> returns (k a) Q) -> returns (bind m k) Q.
Proof.
  intros Hm Hk w. destruct (Hm w) as [a [w1 [E Pa]]].
  destruct (Hk a Pa w1) as [b [w2 [E2 Qb]]].
  exists b, w2. unfold bind. rewrite E. split; [exact E2 | exact Qb].
Qed.

Lemma returns_bind_any {A B} (m : M A) (k : A -> M B) (Q : B -> Prop) :
  returns m anything -> (forall a, returns (k a) Q) -> returns (bind m k) Q.
Proof.
  intros Hm Hk. apply (returns_bind m k anything Q Hm). intros a _. apply Hk.
Qed.

Lemma returns_weaken {A} (m : M A) (P Q : A -> Prop) :
  returns m P -> (forall a, P a -> Q a) -> returns m Q.
Proof.
  intros Hm H w. destruct (Hm w) as [a [w1 [E Pa]]].
  exists a, w1. split; [exact E | apply H; exact Pa].
Qed.

(** A [try] whose body cannot throw. *)
Lemma returns_tryCatch_body {A} (body : M A) (handler : exn -> M A)
  (P : A -> Prop) :
  returns body P -> returns (tryCatch body handler) P.
Proof.
  intros Hb w. destruct (Hb w) as [a [w1 [E Pa]]].
  exists a, w1. unfold tryCatch. rewrite E. split; [reflexivity | exact Pa].
Qed.

(** A [try] whose handler cannot throw absorbs whatever the body does. *)
Lemma returns_tryCatch_handler {A} (body : M A) (handler : exn -> M A) :
  (forall e, returns (handler e) anything) ->
  returns (tryCatch body handler) anything.
Proof.
  intros Hh w. unfold tryCatch.
  destruct (body w) as [[a|e] w1].
  - exists a, w1. split; [reflexivity | exact I].
  - apply Hh.
Qed.

Lemma returns_forEachM {A B} (f : A -> M B) (P : B -> Prop) (xs : list A) :
  (forall x, returns (f x) P) -> returns (forEachM f xs) (Forall P).
Proof.
  intros Hf. induction xs as [|x r IH]; simpl.
  - apply returns_ret. constructor.
  - apply (returns_bind _ _ P); [apply Hf|]. intros y Py.
    apply (returns_bind _ _ (Forall P)); [exact IH|]. intros ys Pys.
    apply returns_ret. constructor; assumption.
Qed.

Lemma returns_Date_now : returns Date_now anything.
Proof.
  intros w. rewrite Date_now_ticked. do 2 eexists.
  split; [reflexivity | exact I].
Qed.

Lemma returns_getUsageStats : returns getUsageStats anything.
Proof.
  intros w. destruct (getUsageStats_reads w) as [stats [w' [E _]]].
  exists stats, w'. split; [exact E | exact I].
Qed.

Create HintDb total discriminated.
#[local] Hint Resolve returns_Date_now returns_getUsageStats : total.

(** Peels binds, branches and handlers off a goal [returns m anything]. *)
Ltac total :=
  repeat first
    [ apply returns_ret; exact I
    | solve [auto with total]
    | apply returns_bind_any; [|intro]
    | apply returns_tryCatch_handler; intro
    | match goal with
      | |- returns (if ?b then _ else _) _ => destruct b
      | |- returns (match ?x with _ => _ end) _ => destruct x
      end ].

Section NeverThrows.

Variable generate : nat -> Prompt -> ModelReply.
Variable JSON_parse : string -> option JSValue.
Variable toLocaleDateString : string -> string.

Lemma classifyActivity_returns (activity : string) :
  returns (classifyActivity generate activity)
    (fun c => In c validCategories).
Proof.
  intros w.
  unfold classifyActivity, tryCatch, bind, generateContent.
  destruct (generate (modelCalls w) (ClassificationPrompt activity))
    as [|reply]; cbv zeta.
  - do 2 eexists. split; [reflexivity|]. apply fallbackClassification_valid.
  - destruct (existsb (String.eqb (JS.toLowerCase (JS.trim reply)))
                validCategories) eqn:E.
    + do 2 eexists. split; [reflexivity|]. apply existsb_eqb_In. exact E.
    + do 2 eexists. split; [reflexivity|].
      apply fallbackClassification_valid.
Qed.

Lemma classifyActivities_returns (activities : list string) (src : Source) :
  returns (classifyActivities generate activities src) (Forall wellTyped).
Proof.
  unfold classifyActivities. apply returns_forEachM. intros activity.
  apply returns_tryCatch_body.
  apply (returns_bind _ _ (fun c => In c validCategories));
    [apply classifyActivity_returns|].
  intros c Hc. apply returns_ret. exact Hc.
Qed.

Lemma classifyActivities_total (activities : list string) (src : Source) :
  returns (classifyActivities generate activities src) anything.
Proof.
  apply (returns_weaken _ _ _ (classifyActivities_returns activities src)).
  intros; exact I.
Qed.

Lemma extractHighlights_total (allActivities : list string) :
  returns (extractHighlights generate JSON_parse allActivities) anything.
Proof.
  unfold extractHighlights. total.
Qed.

Hint Resolve classifyActivities_total extractHighlights_total : total.

Lemma fallbackStructuredSummary_total (activities : list string) :
  returns (fallbackStructuredSummary generate JSON_parse activities)
    anything.
Proof.
  unfold fallbackStructuredSummary.
  apply (returns_bind _ _ (Forall wellTyped));
    [apply classifyActivities_returns|].
  intros categorized Hc.
  rewrite (groupByCategory_wellTyped categorized Hc).
  change (lift (Returned (groupedOf categorized)))
    with (ret (groupedOf categorized)).
  total.
Qed.

Hint Resolve fallbackStructuredSummary_total : total.

Lemma generateStructuredSummary_total (activities : list string)
  (dateRangeText : string) :
  returns
    (generateStructuredSummary generate JSON_parse activities dateRangeText)
    anything.
Proof.
  unfold generateStructuredSummary. total.
Qed.

Lemma extractActivitiesFromContent_total (content : string) :
  returns (extractActivitiesFromContent generate JSON_parse content)
    anything.
Proof.
  unfold extractActivitiesFromContent. total.
Qed.

Hint Resolve generateStructuredSummary_total
  extractActivitiesFromContent_total : total.

Lemma createWeeklySummary_total (data : GitHubData)
  (notionContent additionalContext dateRangeText : option string) :
  returns
    (createWeeklySummary generate JSON_parse data notionContent
       additionalContext dateRangeText)
    anything.
Proof.
  unfold createWeeklySummary. total.
Qed.

Lemma extractWith_total (prompt : Prompt)
  (fallback : string -> list string) (content : string) :
  returns (extractWith generate JSON_parse prompt fallback content)
    anything.
Proof.
  unfold extractWith. total.
Qed.

Hint Resolve createWeeklySummary_total extractWith_total : total.

Lemma processTextContent_total (content : string) :
  returns (processTextContent generate JSON_parse content) anything.
Proof.
  unfold processTextContent, createEmptyResult, fallbackProcessing,
    extractAchievements, extractInsights, extractLearnings.
  total.
Qed.

Hint Resolve processTextContent_total : total.

Lemma processAllSources_total (input : AIAgentInput) :
  returns (processAllSources generate JSON_parse input) anything.
Proof.
  unfold processAllSources. total.
Qed.

Lemma createComprehensiveSummary_total (input : AIAgentInput)
  (activities : list CategorizedActivity) :
  returns
    (createComprehensiveSummary generate JSON_parse toLocaleDateString
       input activities)
    anything.
Proof.
  unfold createComprehensiveSummary. total.
Qed.

Hint Resolve processAllSources_total createComprehensiveSummary_total
  : total.

Lemma analyzeActivity_total (input : AIAgentInput) :
  returns (analyzeActivity generate JSON_parse toLocaleDateString input)
    anything.
Proof.
  unfold analyzeActivity. apply returns_tryCatch_body. total.
Qed.

Lemma createBasicFallbackAchievements_total (data : GitHubData)
  (additionalContext : option string) :
  returns (createBasicFallbackAchievements data additionalContext) anything.
Proof.
  unfold createBasicFallbackAchievements. total.
Qed.

Hint Resolve createBasicFallbackAchievements_total : total.

Lemma optimizedSingleCallAnalysis_total (data : GitHubData)
  (additionalContext : option string) (pdfFiles : list File) :
  returns
    (optimizedSingleCallAnalysis generate JSON_parse data additionalContext
       pdfFiles)
    anything.
Proof.
  unfold optimizedSingleCallAnalysis. total.
Qed.

Hint Resolve optimizedSingleCallAnalysis_total : total.

Lemma quickAnalyze_total (data : GitHubData)
  (additionalContext : option string) (pdfFiles : list File) :
  returns (quickAnalyze generate JSON_parse data additionalContext pdfFiles)
    anything.
Proof.
  unfold quickAnalyze. apply returns_tryCatch_body. total.
Qed.

Lemma fallbackAnalysis_total (data : GitHubData)
  (additionalContext : option string) :
  returns (fallbackAnalysis generate JSON_parse data additionalContext)
    anything.
Proof.
  unfold fallbackAnalysis. total.
Qed.

Hint Resolve quickAnalyze_total fallbackAnalysis_total : total.

Lemma analyzeGitHubActivity_total (data : GitHubData)
  (additionalContext : option string) (pdfFiles : list File) :
  returns
    (analyzeGitHubActivity generate JSON_parse data additionalContext
       pdfFiles)
    anything.
Proof.
  unfold analyzeGitHubActivity. total.
Qed.

End NeverThrows.

(** C2. Construction throws only for a missing API key, and then exactly
    the configuration error.  On a constructed agent, whatever the model
    replies or rejects and whatever [JSON.parse] makes of the replies,
    [analyzeActivity], [quickAnalyze] and [analyzeGitHubActivity] return a
    result from every world: each failing stage is caught where it occurs,
    so the re-throwing handlers of [analyzeActivity] and [quickAnalyze]
    are never entered. *)
Theorem analysis_never_throws
  (generate : nat -> Prompt -> ModelReply)
  (JSON_parse : string -> option JSValue)
  (toLocaleDateString : string -> string)
  (apiKey : option string) (input : AIAgentInput)
  (data : GitHubData) (additionalContext : option string)
  (pdfFiles : list File) (w : World) :
  newWeeklyUpdateAIAgent apiKey =
    (if isFalsy apiKey then Threw ApiKeyNotConfigured else Returned tt) /\
  (exists output w',
     analyzeActivity generate JSON_parse toLocaleDateString input w =
       (Returned output, w')) /\
  (exists achievements w',
     quickAnalyze generate JSON_parse data additionalContext pdfFiles w =
       (Returned achievements, w')) /\
  (exists achievements w',
     analyzeGitHubActivity generate JSON_parse data additionalContext
       pdfFiles w = (Returned achievements, w')).
Proof.
  split; [|split; [|split]].
  - unfold newWeeklyUpdateAIAgent, newSummarizer, newCategorizer,
      newNotionProcessor.
    destruct (isFalsy apiKey); reflexivity.
  - destruct (analyzeActivity_total generate JSON_parse toLocaleDateString
                input w) as [a [w' [E _]]].
    exists a, w'. exact E.
  - destruct (quickAnalyze_total generate JSON_parse data additionalContext
                pdfFiles w) as [a [w' [E _]]].
    exists a, w'. exact E.
  - destruct (analyzeGitHubActivity_total generate JSON_parse data
                additionalContext pdfFiles w) as [a [w' [E _]]].
    exists a, w'. exact E.
Qed.


(** * More properties of the sources *)

(** ** The rate limiter *)

Lemma ticked_clock_tick (w : World) :
  clock (ticked w) = clock w + nextTick (ticks w).
Proof.
  unfold ticked, Date_now. destruct (ticks w); simpl; lia.
Qed.

Lemma ticked_ticks (w : World) : ticks (ticked w) = tl (ticks w).
Proof.
  unfold ticked, Date_now.
  destruct (ticks w) eqn:E; simpl; rewrite ?E; reflexivity.
Qed.

Lemma ticked_idle (w : World) : ticks w = [] -> ticked w = w.
Proof.
  unfold ticked, Date_now. intros E. rewrite E. reflexivity.
Qed.

(** The time at which [waitForAvailability] records its call. *)
Lemma waitForAvailability_clock (w : World) :
  exists w',
    waitForAvailability w = (Returned tt, w') /\
    clock w' = clock (ticked w) + sleepTime w + nextTick (ticks (ticked w)) /\
    ticks w' = tl (ticks (ticked w)) /\
    requests (limiter w') =
      pruned (clock (ticked w)) (limiter w) ++ [clock w'] /\
    maxRequests (limiter w') = maxRequests (limiter w) /\
    timeWindow (limiter w') = timeWindow (limiter w) /\
    modelCalls w' = modelCalls w.
Proof.
  unfold waitForAvailability, bind, pruneRequests, getLimiter, setRequests,
    ret, bind, sleepTime.
  rewrite Date_now_ticked.
  cbn [fst snd limiter requests maxRequests timeWindow].
  rewrite ticked_limiter.
  fold (pruned (clock (ticked w)) (limiter w)).
  fold (prunedLimiter (clock (ticked w)) (limiter w)).
  destruct (maxRequests (limiter w) <=?
            Z.of_nat (List.length (pruned (clock (ticked w)) (limiter w)))).
  - unfold sleep, elapse. rewrite Date_now_ticked.
    match goal with
    | |- context [ticked ?W] =>
        pose proof (ticked_clock_tick W) as Hc;
        pose proof (ticked_limiter W) as Hl;
        pose proof (ticked_modelCalls W) as Hm;
        pose proof (ticked_ticks W) as Ht;
        set (w2 := ticked W) in *
    end.
    eexists. split; [reflexivity|].
    cbn [limiter requests maxRequests timeWindow modelCalls clock ticks] in *.
    rewrite Hl, Hm, Ht, Hc, ticked_modelCalls. cbn. repeat split.
  - rewrite Date_now_ticked.
    match goal with
    | |- context [ticked ?W] =>
        pose proof (ticked_clock_tick W) as Hc;
        pose proof (ticked_limiter W) as Hl;
        pose proof (ticked_modelCalls W) as Hm;
        pose proof (ticked_ticks W) as Ht;
        set (w2 := ticked W) in *
    end.
    eexists. split; [reflexivity|].
    cbn [limiter requests maxRequests timeWindow modelCalls clock ticks] in *.
    rewrite Hl, Hm, Ht, Hc, ticked_modelCalls. cbn. repeat split. lia.
Qed.

Lemma noFutureRequest_later (w w' : World) :
  noFutureRequest w ->
  limiter w' = limiter w ->
  clock w <= clock w' ->
  noFutureRequest w'.
Proof.
  unfold noFutureRequest. intros H El Hc. rewrite El.
  eapply Forall_impl; [|exact H]. simpl. intros; lia.
Qed.

Lemma noFutureRequest_pruned (w w' : World) :
  noFutureRequest w ->
  clock w <= clock w' ->
  requests (limiter w') = pruned (clock w') (limiter w) ->
  noFutureRequest w'.
Proof.
  unfold noFutureRequest, pruned. intros H Hc Er. rewrite Er.
  rewrite Forall_forall in *. intros t Ht. apply filter_In in Ht.
  destruct Ht as [Ht _]. specialize (H t Ht). lia.
Qed.

Lemma sleepTime_nonnegative (w : World) : 0 <= sleepTime w.
Proof.
  unfold sleepTime.
  destruct (maxRequests (limiter w) <=? _); [|lia].
  pose proof (timerDelay_positive
                (waitTime (prunedLimiter (clock (ticked w)) (limiter w))
                   (clock (ticked w)))). lia.
Qed.

Lemma waitForAvailability_noFuture (w : World) :
  noFutureRequest w ->
  exists w',
    waitForAvailability w = (Returned tt, w') /\
    noFutureRequest w' /\
    maxRequests (limiter w') = maxRequests (limiter w) /\
    timeWindow (limiter w') = timeWindow (limiter w).
Proof.
  intros H.
  destruct (waitForAvailability_clock w)
    as [w' [E [Ec [_ [Er [Em [Et _]]]]]]].
  exists w'. split; [exact E|]. split; [|split; assumption].
  pose proof (ticked_clock w) as H1.
  pose proof (sleepTime_nonnegative w) as H2.
  assert (H3 : 0 <= nextTick (ticks (ticked w)))
    by (destruct (ticks (ticked w)); simpl; lia).
  unfold noFutureRequest. rewrite Er. apply Forall_app. split.
  - unfold noFutureRequest, pruned in *. rewrite Forall_forall in *.
    intros t Ht. apply filter_In in Ht. destruct Ht as [Ht _].
    specialize (H t Ht). lia.
  - repeat constructor. lia.
Qed.

Lemma perform_noFuture (c : Call) (w : World) :
  noFutureRequest w ->
  exists w',
    perform c w = (Returned tt, w') /\
    noFutureRequest w' /\
    maxRequests (limiter w') = maxRequests (limiter w) /\
    timeWindow (limiter w') = timeWindow (limiter w).
Proof.
  intros H. destruct c as [| |busy fails|]; simpl.
  - destruct (canMakeRequest_reads w) as [w' [E [Ec [Er [Em [Et _]]]]]].
    unfold bind. rewrite E. eexists. split; [reflexivity|].
    split; [|split; assumption].
    apply (noFutureRequest_pruned w w'); auto.
    rewrite Ec. apply ticked_clock.
  - apply waitForAvailability_noFuture. exact H.
  - destruct (waitForAvailability_noFuture w H) as [w' [E [H' [Em Et]]]].
    unfold tryCatch, execute, workload, bind, elapse. rewrite E.
    destruct fails; simpl; eexists; (split; [reflexivity|]);
      (split; [|split; assumption]);
      apply (noFutureRequest_later w'); auto; simpl; lia.
  - destruct (getUsageStats_reads w)
      as [stats [w' [E [Ec [Er [Em [Et _]]]]]]].
    unfold bind. rewrite E. eexists. split; [reflexivity|].
    split; [|split; assumption].
    apply (noFutureRequest_pruned w w'); auto.
    rewrite Ec. apply ticked_clock.
Qed.

Lemma performAll_noFuture (calls : list Call) :
  forall w,
    noFutureRequest w ->
    exists w',
      performAll calls w = (Returned tt, w') /\
      noFutureRequest w' /\
      maxRequests (limiter w') = maxRequests (limiter w) /\
      timeWindow (limiter w') = timeWindow (limiter w).
Proof.
  induction calls as [|c r IH]; intros w H; simpl.
  - exists w. repeat split; auto.
  - destruct (perform_noFuture c w H) as [w1 [E1 [H1 [Em1 Et1]]]].
    destruct (IH w1 H1) as [w2 [E2 [H2 [Em2 Et2]]]].
    exists w2. unfold bind. rewrite E1. repeat split; auto; congruence.
Qed.



(** X2. After any calls on a freshly built limiter, whatever its
    configuration, [waitForAvailability] records its call at the time it
    first read, plus the time it slept, plus the time that passed until
    its second reading; and it sleeps no longer than the window plus one
    second (or one millisecond, when that is more). *)
Theorem waitForAvailability_sleep_bounded
  (maxR minutes : Z) (calls : list Call) (w0 : World) :
  limiter w0 = newRateLimiter maxR minutes ->
  exists w w',
    performAll calls w0 = (Returned tt, w) /\
    waitForAvailability w = (Returned tt, w') /\
    clock w' = clock (ticked w) + sleepTime w + nextTick (ticks (ticked w)) /\
    0 <= sleepTime w <= Z.max 1 (minutes * 60 * 1000 + 1000).
Proof.
  intros Hfresh.
  assert (H0 : noFutureRequest w0).
  { unfold noFutureRequest. rewrite Hfresh. constructor. }
  destruct (performAll_noFuture calls w0 H0) as [w [E [Hw [Em Et]]]].
  destruct (waitForAvailability_clock w) as [w' [E' [Ec _]]].
  exists w, w'. split; [exact E|]. split; [exact E'|]. split; [exact Ec|].
  split; [apply sleepTime_nonnegative|].
  rewrite Hfresh in Et. simpl in Et.
  unfold sleepTime. destruct (maxRequests (limiter w) <=? _); [|lia].
  unfold waitTime, prunedLimiter. cbn [requests timeWindow].
  destruct (Math_min (pruned (clock (ticked w)) (limiter w))) as [m|] eqn:Em';
    [|simpl; lia].
  assert (Hm : In m (pruned (clock (ticked w)) (limiter w))).
  { destruct (pruned (clock (ticked w)) (limiter w)) as [|x l] eqn:Ep;
      [discriminate|].
    destruct (Math_min_member (x :: l)) as [m' [E1 H1]]; [discriminate|].
    rewrite Em' in E1. inversion E1. subst. exact H1. }
  unfold pruned in Hm. apply filter_In in Hm. destruct Hm as [Hm _].
  unfold noFutureRequest in Hw. rewrite Forall_forall in Hw.
  specialize (Hw m Hm). pose proof (ticked_clock w). rewrite Et.
  unfold timerDelay.
  destruct ((_ <? 1) || (2147483647 <? _)); lia.
Qed.

Lemma waitForAvailability_sleep_bounded_witness :
  exists w w',
    performAll [CallWaitForAvailability] (freshWorld 0 [] 1 1) =
      (Returned tt, w) /\
    waitForAvailability w = (Returned tt, w') /\
    sleepTime w <= 61000.
Proof.
  destruct (waitForAvailability_sleep_bounded 1 1 [CallWaitForAvailability]
              (freshWorld 0 [] 1 1))
    as [w [w' [E [E' [_ [_ H]]]]]]; [reflexivity|].
  exists w, w'. split; [exact E|]. split; [exact E' | exact H].
Defined.

(** X3. When [canMakeRequest] has answered [true], the
    [waitForAvailability] that follows does not sleep, however much later
    it is called: it records its call at its second reading of the
    clock. *)
Theorem canMakeRequest_then_no_sleep (w w1 : World) :
  canMakeRequest w = (Returned true, w1) ->
  exists w2,
    waitForAvailability w1 = (Returned tt, w2) /\
    sleepTime w1 = 0 /\
    clock w2 = clock (ticked w1) + nextTick (ticks (ticked w1)).
Proof.
  intros H.
  destruct (canMakeRequest_reads w) as [w' [E [Ec1 [Er [Em [Et _]]]]]].
  rewrite H in E. inversion E as [[Hb Hw]]. subst w'.
  symmetry in Hb. apply Z.ltb_lt in Hb. rewrite <- Ec1 in Hb.
  destruct (waitForAvailability_clock w1) as [w2 [E2 [Ec _]]].
  assert (Hs : sleepTime w1 = 0).
  { unfold sleepTime, pruned at 1.
    pose proof (filter_length_le
                  (inWindow (clock (ticked w1)) (timeWindow (limiter w1)))
                  (requests (limiter w1))) as Hle.
    assert (Hlen : List.length (requests (limiter w1)) =
                   List.length (pruned (clock w1) (limiter w)))
      by (rewrite Er; reflexivity).
    rewrite Em.
    destruct (Z.leb_spec (maxRequests (limiter w))
                (Z.of_nat
                   (List.length
                      (filter
                         (inWindow (clock (ticked w1))
                            (timeWindow (limiter w1)))
                         (requests (limiter w1))))));
      [lia | reflexivity]. }
  exists w2. split; [exact E2|]. split; [exact Hs|]. rewrite Ec, Hs. lia.
Qed.

Lemma canMakeRequest_then_no_sleep_witness :
  exists w1 w2,
    canMakeRequest (freshWorld 0 [7%N; 9%N] 1 1) = (Returned true, w1) /\
    waitForAvailability w1 = (Returned tt, w2) /\
    clock w2 = 16.
Proof.
  eexists.
  destruct (canMakeRequest_then_no_sleep (freshWorld 0 [7%N; 9%N] 1 1) _
              eq_refl) as [w2 [E [_ Ec]]].
  exists w2. split; [reflexivity|]. split; [exact E | exact Ec].
Defined.

(** X4. [execute] records the request before it runs the function it is
    given, and what the function does is what [execute] does: when the
    function throws, the exception leaves [execute] and the request stays
    recorded. *)
Theorem execute_records_before_running
  (T : Type) (fn : M T) (e : exn) (w : World) :
  exists w1,
    waitForAvailability w = (Returned tt, w1) /\
    In (clock w1) (requests (limiter w1)) /\
    execute fn w = fn w1 /\
    execute (@throw T e) w = (Threw e, w1).
Proof.
  destruct (waitForAvailability_records w) as [w1 [E [Er _]]].
  exists w1. split; [exact E|]. split.
  - rewrite Er. apply in_or_app. right. simpl. tauto.
  - unfold execute, bind. rewrite E. split; reflexivity.
Qed.

Lemma inWindow_repeat (now tw : Z) (k : nat) :
  0 < tw -> filter (inWindow now tw) (repeat now k) = repeat now k.
Proof.
  intros H. induction k as [|k IH]; simpl; [reflexivity|].
  unfold inWindow at 1. rewrite Z.sub_diag.
  destruct (Z.ltb_spec 0 tw); [|lia]. rewrite IH. reflexivity.
Qed.

Lemma Math_min_repeat (now : Z) (k : nat) :
  Math_min (repeat now (S k)) = Some now.
Proof.
  induction k as [|k IH]; [reflexivity|].
  change (repeat now (S (S k))) with (now :: repeat now (S k)).
  cbn [Math_min]. rewrite IH. rewrite Z.min_id. reflexivity.
Qed.

(** The calls of a burst: each finds room and records at once. *)
Lemma burst_steps (n : nat) :
  forall (k : nat) (w : World),
    ticks w = [] ->
    requests (limiter w) = repeat (clock w) k ->
    0 < timeWindow (limiter w) ->
    Z.of_nat (k + n) <= maxRequests (limiter w) ->
    exists w',
      performAll (repeat CallWaitForAvailability n) w = (Returned tt, w') /\
      ticks w' = [] /\
      clock w' = clock w /\
      requests (limiter w') = repeat (clock w) (k + n) /\
      maxRequests (limiter w') = maxRequests (limiter w) /\
      timeWindow (limiter w') = timeWindow (limiter w).
Proof.
  induction n as [|n IH]; intros k w Ht Er Htw Hk; simpl.
  - exists w. rewrite Nat.add_0_r. repeat split; auto.
  - destruct (waitForAvailability_clock w)
      as [w1 [E1 [Ec [Et1 [Er1 [Em1 [Ew1 _]]]]]]].
    rewrite (ticked_idle w Ht) in *. rewrite Ht in *. simpl in Ec, Et1.
    assert (Hp : pruned (clock w) (limiter w) = repeat (clock w) k).
    { unfold pruned. rewrite Er. apply inWindow_repeat. exact Htw. }
    assert (Hs : sleepTime w = 0).
    { unfold sleepTime. rewrite (ticked_idle w Ht), Hp, repeat_length.
      destruct (Z.leb_spec (maxRequests (limiter w)) (Z.of_nat k));
        [lia | reflexivity]. }
    rewrite Hs in Ec. assert (Ec' : clock w1 = clock w) by lia.
    rewrite Hp, Ec' in Er1.
    assert (Er1' : requests (limiter w1) = repeat (clock w1) (S k)).
    { rewrite Er1, Ec'. rewrite <- repeat_cons. reflexivity. }
    destruct (IH (S k) w1 Et1 Er1') as [w' [E' [Ht' [Ec2 [Er2 [Em2 Ew2]]]]]].
    + rewrite Ew1. exact Htw.
    + rewrite Em1. rewrite Nat.add_succ_l, <- Nat.add_succ_r. exact Hk.
    + exists w'. unfold bind. rewrite E1. split; [exact E'|].
      rewrite Nat.add_succ_l, <- Nat.add_succ_r in Er2.
      repeat split; try congruence.
Qed.



(** ** The categorizer *)

Lemma bind_returned {A B} (m : M A) (k : A -> M B) (w w' : World) (a : A) :
  m w = (Returned a, w') -> bind m k w = k a w'.
Proof.
  intros E. unfold bind. rewrite E. reflexivity.
Qed.

Lemma bind_threw {A B} (m : M A) (k : A -> M B) (w w' : World) (e : exn) :
  m w = (Threw e, w') -> bind m k w = (Threw e, w').
Proof.
  intros E. unfold bind. rewrite E. reflexivity.
Qed.

Lemma tryCatch_returned {A} (body : M A) (handler : exn -> M A)
  (w w' : World) (a : A) :
  body w = (Returned a, w') -> tryCatch body handler w = (Returned a, w').
Proof.
  intros E. unfold tryCatch. rewrite E. reflexivity.
Qed.

Lemma tryCatch_threw {A} (body : M A) (handler : exn -> M A)
  (w w' : World) (e : exn) :
  body w = (Threw e, w') -> tryCatch body handler w = handler e w'.
Proof.
  intros E. unfold tryCatch. rewrite E. reflexivity.
Qed.

(** One classification: a category of the taxonomy, at the price of
    exactly one model call, and nothing else of the world changes. *)
Lemma classifyActivity_step
  (generate : nat -> Prompt -> ModelReply) (activity : string) (w : World) :
  exists c,
    classifyActivity generate activity w =
      (Returned c,
       {| clock := clock w; ticks := ticks w;
          modelCalls := S (modelCalls w); limiter := limiter w |}) /\
    In c validCategories.
Proof.
  unfold classifyActivity, tryCatch, bind, generateContent.
  destruct (generate (modelCalls w) (ClassificationPrompt activity))
    as [|reply]; cbv zeta.
  - eexists. split; [reflexivity|]. apply fallbackClassification_valid.
  - destruct (existsb (String.eqb (JS.toLowerCase (JS.trim reply)))
                validCategories) eqn:E.
    + eexists. split; [reflexivity|]. apply existsb_eqb_In. exact E.
    + eexists. split; [reflexivity|]. apply fallbackClassification_valid.
Qed.

(** X6. [classifyActivities] never throws and is one-to-one: it returns
    one categorized activity for each text, in the order of the texts,
    tagged with the given source, with a category of the taxonomy and the
    impact and description computed from the text and that category.  It
    issues exactly one model call for each text and leaves the clock and
    the rate limiter alone. *)
Theorem classifyActivities_one_to_one
  (generate : nat -> Prompt -> ModelReply)
  (activities : list string) (src : Source) (w : World) :
  exists categorized w',
    classifyActivities generate activities src w = (Returned categorized, w') /\
    map originalText categorized = activities /\
    Forall (fun a =>
              source a = src /\
              In (category a) validCategories /\
              impact a = assessImpact (originalText a) (category a) /\
              description a =
                createBusinessDescription (originalText a) (category a))
           categorized /\
    modelCalls w' = (modelCalls w + List.length activities)%nat /\
    clock w' = clock w /\
    limiter w' = limiter w.
Proof.
  unfold classifyActivities. revert w.
  induction activities as [|activity r IH]; intros w; simpl.
  - exists [], w. repeat split; auto.
  - destruct (classifyActivity_step generate activity w) as [c [E Hc]].
    destruct (IH {| clock := clock w; ticks := ticks w;
                    modelCalls := S (modelCalls w); limiter := limiter w |})
      as [rest [w' [Er [Hmap [Hall [Hcalls [Hclock Hlim]]]]]]].
    erewrite bind_returned;
      [|apply tryCatch_returned; erewrite bind_returned;
        [reflexivity | exact E]].
    erewrite bind_returned; [|exact Er].
    eexists _, w'. split; [reflexivity|]. simpl in *.
    split; [f_equal; exact Hmap|].
    split; [constructor; [simpl; auto | exact Hall]|].
    repeat split; auto. lia.
Qed.

(** X7. Whatever the activity, [createBusinessDescription] returns a text
    that is not empty, ends with a full stop, an exclamation mark or a
    question mark, and does not start with a small letter; the category it
    is given has no influence on it. *)
Theorem createBusinessDescription_shape
  (activity : string) (category category' : ActivityCategory) :
  endsSentence (createBusinessDescription activity category) = true /\
  (exists c r,
     createBusinessDescription activity category = String c r /\
     JS.isLower c = false) /\
  createBusinessDescription activity category =
    createBusinessDescription activity category'.
Proof.
  split; [apply ensurePunctuation_ends|].
  split; [apply ensurePunctuation_capitalized | reflexivity].
Qed.

(** X8. [assessImpact] rates every activity of the security and of the
    performance category high, and never rates one of the feature or of
    the fix category low; an activity it rates low belongs to none of
    these four categories. *)
Theorem assessImpact_by_category
  (activity : string) (category : ActivityCategory) :
  assessImpact activity "security" = high /\
  assessImpact activity "performance" = high /\
  assessImpact activity "feature" <> low /\
  assessImpact activity "fix" <> low /\
  (assessImpact activity category = low ->
   ~ In category ["security"; "performance"; "feature"; "fix"]%string).
Proof.
  unfold assessImpact. cbv zeta.
  repeat split.
  - simpl. rewrite !orb_true_r. reflexivity.
  - simpl. rewrite !orb_true_r. reflexivity.
  - simpl. rewrite !orb_true_r, !orb_false_r.
    destruct (_ || _); discriminate.
  - simpl. rewrite !orb_true_r, !orb_false_r.
    destruct (_ || _); discriminate.
  - intros H [E|[E|[E|[E|[]]]]]; subst category; simpl in H;
      rewrite ?orb_true_r, ?orb_false_r in H;
      repeat match type of H with
             | (if ?b then _ else _) = _ => destruct b
             end; discriminate.
Qed.

Lemma lowerChar_upperChar (c : ascii) :
  JS.lowerChar (JS.upperChar c) = JS.lowerChar c.
Proof.
  destruct c as [[] [] [] [] [] [] [] []]; reflexivity.
Qed.

Lemma lowerChar_idempotent (c : ascii) :
  JS.lowerChar (JS.lowerChar c) = JS.lowerChar c.
Proof.
  destruct c as [[] [] [] [] [] [] [] []]; reflexivity.
Qed.

Lemma toLowerCase_toUpperCase (s : string) :
  JS.toLowerCase (JS.toUpperCase s) = JS.toLowerCase s.
Proof.
  induction s as [|c s IH]; simpl; [reflexivity|].
  rewrite lowerChar_upperChar, IH. reflexivity.
Qed.

Lemma toLowerCase_idempotent (s : string) :
  JS.toLowerCase (JS.toLowerCase s) = JS.toLowerCase s.
Proof.
  induction s as [|c s IH]; simpl; [reflexivity|].
  rewrite lowerChar_idempotent, IH. reflexivity.
Qed.


Lemma pushActivity_illTyped (g : Grouped) (a : CategorizedActivity) :
  ~ wellTyped a -> pushActivity g a = Threw TypeError.
Proof.
  unfold wellTyped, pushActivity. intros H. cbv zeta.
  repeat match goal with
         | |- context [String.eqb (category a) ?k] =>
             destruct (String.eqb_spec (category a) k) as [E|_];
             [exfalso; apply H; rewrite E; simpl; tauto|]
         end.
  reflexivity.
Qed.

Lemma wellTyped_decidable (a : CategorizedActivity) :
  wellTyped a \/ ~ wellTyped a.
Proof.
  unfold wellTyped.
  destruct (in_dec string_dec (category a) validCategories); tauto.
Qed.

Lemma groupInto_illTyped (activities : list CategorizedActivity) :
  Exists (fun a => ~ wellTyped a) activities ->
  forall g, groupInto g activities = Threw TypeError.
Proof.
  induction activities as [|a r IH]; intros H g.
  - inversion H.
  - simpl. destruct (wellTyped_decidable a) as [Ha|Ha].
    + rewrite (pushActivity_wellTyped g a Ha). apply IH.
      inversion H; [contradiction | assumption].
    + rewrite (pushActivity_illTyped g a Ha). reflexivity.
Qed.

(** X10. [groupByCategory] throws exactly when some activity carries a
    category outside the taxonomy, and what it throws then is the
    [TypeError] of pushing to a bucket that does not exist; otherwise it
    returns the grouping. *)
Theorem groupByCategory_throws (activities : list CategorizedActivity) :
  (groupByCategory activities = Threw TypeError <->
   Exists (fun a => ~ wellTyped a) activities) /\
  (groupByCategory activities = Returned (groupedOf activities) <->
   Forall wellTyped activities) /\
  (forall e, groupByCategory activities = Threw e -> e = TypeError).
Proof.
  assert (Hcases : Forall wellTyped activities \/
                   Exists (fun a => ~ wellTyped a) activities).
  { induction activities as [|a r IH]; [left; constructor|].
    destruct (wellTyped_decidable a) as [Ha|Ha];
      [|right; constructor; exact Ha].
    destruct IH as [IH|IH]; [left; constructor; assumption|].
    right. apply Exists_cons_tl. exact IH. }
  destruct Hcases as [Hall|Hex].
  - pose proof (groupByCategory_wellTyped activities Hall) as E.
    rewrite E. split; [|split].
    + split; [discriminate|]. intros Hex. exfalso.
      apply Exists_exists in Hex. destruct Hex as [a [Ha Hn]].
      rewrite Forall_forall in Hall. exact (Hn (Hall a Ha)).
    + tauto.
    + discriminate.
  - pose proof (groupInto_illTyped activities Hex emptyGrouped) as E.
    unfold groupByCategory. rewrite E. split; [|split].
    + tauto.
    + split; [discriminate|]. intros Hall. exfalso.
      apply Exists_exists in Hex. destruct Hex as [a [Ha Hn]].
      rewrite Forall_forall in Hall. exact (Hn (Hall a Ha)).
    + intros e He. inversion He. reflexivity.
Qed.

(** ** The summarizer *)

Lemma scanHighlights_firstn (activities : list string) :
  forall highlights,
    (List.length highlights < 3)%nat ->
    scanHighlights activities highlights =
    highlights ++
    firstn (3 - List.length highlights)
      (map cleanActivityDescription
         (filter (mentionsAny highImpactKeywords) activities)).
Proof.
  induction activities as [|a r IH]; intros hs Hlen.
  - simpl. rewrite firstn_nil, app_nil_r. reflexivity.
  - cbn [scanHighlights filter]. cbv zeta.
    change (existsb (fun keyword => JS.includes (JS.toLowerCase a) keyword)
              highImpactKeywords)
      with (mentionsAny highImpactKeywords a).
    destruct (mentionsAny highImpactKeywords a); [|apply IH; exact Hlen].
    cbn [map]. rewrite length_app. cbn [List.length].
    destruct (Nat.leb_spec 3 (List.length hs + 1)) as [Hfull|Hroom].
    + replace (3 - List.length hs)%nat with 1%nat by lia.
      cbn [firstn]. reflexivity.
    + rewrite IH by (rewrite length_app; simpl; lia).
      rewrite length_app. cbn [List.length]. rewrite <- app_assoc.
      replace (3 - List.length hs)%nat
        with (S (3 - (List.length hs + 1)))%nat by lia.
      reflexivity.
Qed.

(** X11. [fallbackHighlightExtraction] returns the cleaned texts of the
    first three activities that mention a high-impact keyword, in the
    order of the activities: never more than three, and nothing exactly
    when no activity mentions one. *)
Theorem fallbackHighlightExtraction_first_three (activities : list string) :
  fallbackHighlightExtraction activities =
    firstn 3
      (map cleanActivityDescription
         (filter (mentionsAny highImpactKeywords) activities)) /\
  (List.length (fallbackHighlightExtraction activities) <= 3)%nat /\
  (fallbackHighlightExtraction activities = [] <->
   Forall (fun a => mentionsAny highImpactKeywords a = false) activities).
Proof.
  assert (E : fallbackHighlightExtraction activities =
              firstn 3
                (map cleanActivityDescription
                   (filter (mentionsAny highImpactKeywords) activities))).
  { unfold fallbackHighlightExtraction.
    rewrite scanHighlights_firstn by (simpl; lia). reflexivity. }
  split; [exact E|]. split; [rewrite E; apply firstn_le_length|].
  rewrite E. split.
  - intros H. apply Forall_forall. intros a Ha.
    destruct (mentionsAny highImpactKeywords a) eqn:Em; [|reflexivity].
    assert (Hin : In a (filter (mentionsAny highImpactKeywords) activities))
      by (apply filter_In; split; assumption).
    destruct (filter (mentionsAny highImpactKeywords) activities);
      [contradiction | discriminate].
  - intros H.
    assert (Hf : filter (mentionsAny highImpactKeywords) activities = []).
    { clear E. induction activities as [|a r IH]; [reflexivity|].
      inversion H as [|? ? Ha Hr]; subst. cbn [filter]. rewrite Ha.
      apply IH. exact Hr. }
    rewrite Hf. reflexivity.
Qed.

Lemma filterNonBlank_result (items : list JSValue) :
  match filterNonBlank items with
  | Returned l => Forall nonBlank l
  | Threw e => e = TypeError
  end.
Proof.
  induction items as [|v r IH]; simpl; [constructor|].
  destruct v as [|b|n|s|l|f]; simpl;
    try reflexivity;
    try (destruct (filterNonBlank r); [exact IH | exact IH]).
  - destruct b; [reflexivity|].
    destruct (filterNonBlank r); exact IH.
  - destruct n; try reflexivity. destruct (filterNonBlank r); exact IH.
  - destruct (String.eqb_spec (JS.trim s) "") as [E|E]; simpl;
      destruct (filterNonBlank r); try exact IH.
    constructor; [exact E | exact IH].
Qed.

Lemma cleanField_result (summary : JSValue) (name : string) :
  match cleanField summary name with
  | Returned l => Forall nonBlank l
  | Threw e => e = TypeError
  end.
Proof.
  unfold cleanField, getField.
  destruct summary as [|b|n|s|l|f]; try reflexivity; try constructor.
  destruct (lookupField name f) as [[|b|n|s|l|f']|]; try constructor.
  apply filterNonBlank_result.
Qed.

(** X12. [validateAndCleanSummary] throws on [null], and when it throws
    what it throws is a [TypeError].  When it returns, every string of the
    five lists of the summary has something other than white space in it,
    and both optional lists are present. *)
Theorem validateAndCleanSummary_result (summary : JSValue) :
  validateAndCleanSummary JNull = Threw TypeError /\
  match validateAndCleanSummary summary with
  | Returned cleaned =>
      Forall nonBlank (Features cleaned) /\
      Forall nonBlank (Fixes cleaned) /\
      Forall nonBlank (Refactors cleaned) /\
      (exists highlights,
         Highlights cleaned = Some highlights /\ Forall nonBlank highlights) /\
      (exists notes, Notes cleaned = Some notes /\ Forall nonBlank notes)
  | Threw e => e = TypeError
  end.
Proof.
  split; [reflexivity|]. unfold validateAndCleanSummary.
  pose proof (cleanField_result summary "Features") as H1.
  pose proof (cleanField_result summary "Fixes") as H2.
  pose proof (cleanField_result summary "Refactors") as H3.
  pose proof (cleanField_result summary "Highlights") as H4.
  pose proof (cleanField_result summary "Notes") as H5.
  destruct (cleanField summary "Features"); [|exact H1].
  destruct (cleanField summary "Fixes"); [|exact H2].
  destruct (cleanField summary "Refactors"); [|exact H3].
  destruct (cleanField summary "Highlights"); [|exact H4].
  destruct (cleanField summary "Notes"); [|exact H5].
  simpl. repeat split; auto; eexists; split; eauto.
Qed.

Lemma summarizeActivityGroup_total
  (generate : nat -> Prompt -> ModelReply)
  (activities : list string) (category : string) :
  returns (summarizeActivityGroup generate activities category) anything.
Proof.
  unfold summarizeActivityGroup.
  destruct activities as [|first [|second rest]]; total.
Qed.

Lemma pushIfTruthy_grows (summaries : list string) (summary : option string) :
  (List.length (pushIfTruthy summaries summary) <= S (List.length summaries))%nat /\
  (Forall (fun s => s <> ""%string) summaries ->
   Forall (fun s => s <> ""%string) (pushIfTruthy summaries summary)).
Proof.
  unfold pushIfTruthy. destruct summary as [s|]; [|split; [lia | tauto]].
  destruct (String.eqb_spec s ""); [split; [lia | tauto]|].
  rewrite length_app. simpl. split; [lia|].
  intros H. apply Forall_app. split; [exact H|]. repeat constructor.
  assumption.
Qed.

Lemma summarizeGroups_returns
  (generate : nat -> Prompt -> ModelReply)
  (groups : list (ActivityCategory * list CategorizedActivity)) :
  forall summaries,
    Forall (fun s => s <> ""%string) summaries ->
    returns (summarizeGroups generate groups summaries)
      (fun out =>
         (List.length out <= List.length summaries + List.length groups)%nat /\
         Forall (fun s => s <> ""%string) out).
Proof.
  induction groups as [|[category activities] r IH]; intros summaries H;
    simpl.
  - apply returns_ret. split; [lia | exact H].
  - destruct (negb (isEmpty activities)).
    + apply returns_bind_any; [apply summarizeActivityGroup_total|].
      intros summary.
      destruct (pushIfTruthy_grows summaries summary) as [Hlen Hall].
      apply (returns_weaken _ _ _ (IH _ (Hall H))).
      intros out [H1 H2]. split; [lia | exact H2].
    + apply (returns_weaken _ _ _ (IH _ H)).
      intros out [H1 H2]. split; [lia | exact H2].
Qed.

Lemma summarizeClassified_returns
  (generate : nat -> Prompt -> ModelReply)
  (texts : list string) (src : Source) :
  returns
    (categorizedActivities <- classifyActivities generate texts src ;;
     grouped <- lift (groupByCategory categorizedActivities) ;;
     summarizeGroups generate (entries grouped) [])
    (fun out =>
       (List.length out <= 8)%nat /\ Forall (fun s => s <> ""%string) out).
Proof.
  apply (returns_bind _ _ (Forall wellTyped));
    [apply classifyActivities_returns|].
  intros categorized Hc.
  rewrite (groupByCategory_wellTyped categorized Hc).
  change (lift (Returned (groupedOf categorized)))
    with (ret (groupedOf categorized)).
  apply (returns_bind _ _ anything); [apply returns_ret; exact I|].
  intros grouped _.
  apply (returns_weaken _ _ _
           (summarizeGroups_returns generate (entries grouped) []
              (Forall_nil _))).
  intros out [H1 H2]. split; [exact H1 | exact H2].
Qed.

(** X13. [summarizeCommits] and [summarizePullRequests] never throw; they
    return at most eight summaries, one for a category at most, and none
    of them is the empty string.  Given nothing they return nothing and
    leave the world as it was, so that no model call is made. *)
Theorem summarize_at_most_eight
  (generate : nat -> Prompt -> ModelReply)
  (commits : list GitHubCommit) (pullRequests : list GitHubPR) (w : World) :
  (exists summaries w',
     summarizeCommits generate commits w = (Returned summaries, w') /\
     (List.length summaries <= 8)%nat /\
     Forall (fun s => s <> ""%string) summaries) /\
  (exists summaries w',
     summarizePullRequests generate pullRequests w = (Returned summaries, w') /\
     (List.length summaries <= 8)%nat /\
     Forall (fun s => s <> ""%string) summaries) /\
  summarizeCommits generate [] w = (Returned [], w) /\
  summarizePullRequests generate [] w = (Returned [], w).
Proof.
  split; [|split; [|split; reflexivity]].
  - unfold summarizeCommits. destruct (isEmpty commits).
    + exists [], w. repeat split; [simpl; lia | constructor].
    + destruct (summarizeClassified_returns generate (map message commits)
                  commit w) as [out [w' [E H]]].
      exists out, w'. split; [exact E | exact H].
  - unfold summarizePullRequests. destruct (isEmpty pullRequests).
    + exists [], w. repeat split; [simpl; lia | constructor].
    + destruct (summarizeClassified_returns generate
                  (map describePullRequest pullRequests) pr w)
        as [out [w' [E H]]].
      exists out, w'. split; [exact E | exact H].
Qed.

Lemma combineGroups_singles
  (generate : nat -> Prompt -> ModelReply)
  (groups : list (ActivityCategory * list CategorizedActivity)) :
  Forall (fun g => (List.length (snd g) <= 1)%nat) groups ->
  forall combined w,
    combineGroups generate groups combined w =
    (Returned (combined ++ map description (List.concat (map snd groups))), w).
Proof.
  induction 1 as [|[category activities] r Hle Hr IH]; intros combined w;
    simpl.
  - rewrite app_nil_r. reflexivity.
  - destruct activities as [|only [|second rest]]; simpl in *.
    + apply IH.
    + rewrite IH, <- app_assoc. reflexivity.
    + lia.
Qed.

Lemma combineGroups_returns
  (generate : nat -> Prompt -> ModelReply)
  (groups : list (ActivityCategory * list CategorizedActivity)) :
  forall combined,
    returns (combineGroups generate groups combined)
      (fun out =>
         (List.length out <= List.length combined + List.length groups)%nat).
Proof.
  induction groups as [|[category activities] r IH]; intros combined; simpl.
  - apply returns_ret. lia.
  - destruct activities as [|only [|second rest]].
    + apply (returns_weaken _ _ _ (IH _)). intros out H. lia.
    + apply (returns_weaken _ _ _ (IH _)). intros out H.
      rewrite length_app in H. simpl in H. lia.
    + apply returns_bind_any; [apply summarizeActivityGroup_total|].
      intros summary.
      destruct (pushIfTruthy_grows combined summary) as [Hlen _].
      apply (returns_weaken _ _ _ (IH _)). intros out H. lia.
Qed.

Lemma one_per_category (activities : list CategorizedActivity) (key : string) :
  NoDup (map category activities) ->
  (List.length (filter (inCategory key) activities) <= 1)%nat.
Proof.
  induction activities as [|a r IH]; simpl; intros H; [lia|].
  inversion H as [|? ? Hn Hr]; subst. specialize (IH Hr).
  unfold inCategory at 1.
  destruct (String.eqb_spec (category a) key) as [E|E]; [|exact IH].
  simpl.
  destruct (filter (inCategory key) r) as [|b l] eqn:Ef; [simpl; lia|].
  exfalso. apply Hn.
  assert (Hb : In b (filter (inCategory key) r)) by (rewrite Ef; left; auto).
  apply filter_In in Hb. destruct Hb as [Hb Hk].
  unfold inCategory in Hk. apply String.eqb_eq in Hk.
  rewrite E, <- Hk. apply in_map. exact Hb.
Qed.

(** X14. For activities whose categories are of the taxonomy,
    [combineRelatedActivities] never throws and returns at most eight
    texts.  When no two activities share a category it makes no model
    call, leaves the world as it was, and returns the descriptions of the
    activities in the order of the taxonomy. *)
Theorem combineRelatedActivities_combined
  (generate : nat -> Prompt -> ModelReply)
  (activities : list CategorizedActivity) (w : World) :
  Forall wellTyped activities ->
  exists combined w',
    combineRelatedActivities generate activities w = (Returned combined, w') /\
    (List.length combined <= 8)%nat /\
    (NoDup (map category activities) ->
     w' = w /\
     combined = map description (flatten (groupedOf activities))).
Proof.
  intros H. unfold combineRelatedActivities.
  rewrite (groupByCategory_wellTyped activities H).
  erewrite bind_returned; [|reflexivity].
  destruct (combineGroups_returns generate (entries (groupedOf activities))
              [] w) as [out [w' [E Hlen]]].
  exists out, w'. split; [exact E|]. split; [simpl in Hlen; exact Hlen|].
  intros Hnd.
  rewrite (combineGroups_singles generate) in E.
  - inversion E. split; reflexivity.
  - unfold entries, groupedOf. cbn [gFeature gFix gRefactor gDocs gTest
      gChore gPerformance gSecurity].
    repeat (apply Forall_cons;
            [cbn [snd]; apply one_per_category; exact Hnd|]).
    constructor.
Qed.

Lemma combineRelatedActivities_combined_witness :
  exists w',
    combineRelatedActivities alwaysRejects
      [sampleActivity "fix" "Null pointer in parser.";
       sampleActivity "feature" "Add CSV export."]
      (freshWorld 0 [] 10 1) =
    (Returned ["Add CSV export."; "Null pointer in parser."]%string, w').
Proof.
  destruct (combineRelatedActivities_combined alwaysRejects
              [sampleActivity "fix" "Null pointer in parser.";
               sampleActivity "feature" "Add CSV export."]
              (freshWorld 0 [] 10 1)) as [out [w' [E [_ H]]]].
  - repeat constructor; unfold wellTyped; simpl; tauto.
  - exists w'. rewrite E. destruct H as [_ H].
    + repeat constructor; simpl; intuition discriminate.
    + rewrite H. reflexivity.
Defined.

(** One extraction: one model call, and none for blank content. *)
Lemma extractWith_step
  (generate : nat -> Prompt -> ModelReply)
  (JSON_parse : string -> option JSValue)
  (prompt : Prompt) (fallback : string -> list string) (content : string)
  (w : World) :
  exists found w',
    extractWith generate JSON_parse prompt fallback content w =
      (Returned found, w') /\
    clock w' = clock w /\
    ticks w' = ticks w /\
    limiter w' = limiter w /\
    modelCalls w' =
      (modelCalls w + if isBlank content then 0 else 1)%nat.
Proof.
  unfold extractWith. destruct (isBlank content).
  - exists [], w. repeat split; auto.
  - unfold tryCatch, bind, generateContent, parseJSON, lift, ret, throw.
    destruct (generate (modelCalls w) prompt) as [|reply]; simpl.
    + do 2 eexists. split; [reflexivity|]. simpl. repeat split; lia.
    + destruct (JSON_parse (JS.trim reply)) as [v|]; simpl.
      * destruct (filterParsed v); do 2 eexists;
          (split; [reflexivity|]); simpl; repeat split; lia.
      * do 2 eexists. split; [reflexivity|]. simpl. repeat split; lia.
Qed.

(** X15. [extractHighlights] never throws and leaves the clock and the
    rate limiter alone.  For no activity it returns nothing without a
    model call; otherwise it issues exactly one model call, and returns
    the non-blank strings of the parsed reply when the reply parses to an
    array of strings, and the keyword fall-back in every other case. *)
Theorem extractHighlights_one_call
  (generate : nat -> Prompt -> ModelReply)
  (JSON_parse : string -> option JSValue)
  (allActivities : list string) (w : World) :
  exists highlights w',
    extractHighlights generate JSON_parse allActivities w =
      (Returned highlights, w') /\
    clock w' = clock w /\
    limiter w' = limiter w /\
    modelCalls w' =
      (modelCalls w + if isEmpty allActivities then 0 else 1)%nat /\
    highlights =
      match allActivities with
      | [] => []
      | _ =>
          match generate (modelCalls w) (HighlightsPrompt allActivities) with
          | ModelRejects => fallbackHighlightExtraction allActivities
          | ModelText reply =>
              match JSON_parse (JS.trim reply) with
              | None => fallbackHighlightExtraction allActivities
              | Some parsed =>
                  match filterParsed parsed with
                  | Returned kept => kept
                  | Threw _ => fallbackHighlightExtraction allActivities
                  end
              end
          end
      end.
Proof.
  unfold extractHighlights. destruct allActivities as [|a r].
  - exists [], w. repeat split; auto.
  - unfold tryCatch, bind, generateContent, parseJSON, lift, ret, throw.
    destruct (generate (modelCalls w) (HighlightsPrompt (a :: r)))
      as [|reply]; simpl.
    + do 2 eexists. split; [reflexivity|]. simpl. repeat split; lia.
    + destruct (JSON_parse (JS.trim reply)) as [v|]; simpl.
      * destruct (filterParsed v); do 2 eexists;
          (split; [reflexivity|]); simpl; repeat split; lia.
      * do 2 eexists. split; [reflexivity|]. simpl. repeat split; lia.
Qed.

(** X16. With no commit, no pull request and no supplementary text other
    than white space, [createWeeklySummary] returns the summary with five
    empty lists and leaves the world as it was: no model call is made. *)
Theorem createWeeklySummary_nothing
  (generate : nat -> Prompt -> ModelReply)
  (JSON_parse : string -> option JSValue)
  (data : GitHubData)
  (notionContent additionalContext dateRangeText : option string)
  (w : World) :
  commits data = [] ->
  pullRequests data = [] ->
  isBlank (orEmpty (orElse notionContent additionalContext)) = true ->
  createWeeklySummary generate JSON_parse data notionContent
    additionalContext dateRangeText w = (Returned emptySummary, w).
Proof.
  intros Hc Hp Hb. unfold createWeeklySummary. cbv zeta.
  rewrite Hc, Hp. simpl.
  destruct (negb (isFalsy (orElse notionContent additionalContext))).
  - unfold extractActivitiesFromContent. rewrite Hb. reflexivity.
  - reflexivity.
Qed.

Lemma createWeeklySummary_nothing_witness :
  createWeeklySummary alwaysRejects neverParses
    {| commits := []; pullRequests := [] |}
    (Some "  "%string) None None (freshWorld 0 [] 10 1) =
  (Returned emptySummary, freshWorld 0 [] 10 1).
Proof.
  apply createWeeklySummary_nothing; reflexivity.
Defined.

(** X17. [fallbackContentExtraction] returns at most five chunks, each
    cleaned: it ends with a full stop, an exclamation mark or a question
    mark. *)
Theorem fallbackContentExtraction_chunks (content : string) :
  (List.length (fallbackContentExtraction content) <= 5)%nat /\
  Forall (fun chunk => endsSentence chunk = true)
         (fallbackContentExtraction content).
Proof.
  unfold fallbackContentExtraction. cbv zeta. split.
  - rewrite length_map. apply firstn_le_length.
  - apply Forall_forall. intros chunk H. apply in_map_iff in H.
    destruct H as [c [E _]]. subst chunk. apply ensurePunctuation_ends.
Qed.

(** ** The content processor *)

Lemma scanSentences_firstn (keywords : list string) (limit : nat)
  (sentences : list string) :
  forall found,
    (List.length found < limit)%nat ->
    scanSentences keywords limit sentences found =
    found ++
    firstn (limit - List.length found)
      (map JS.trim (filter (mentionsAny keywords) sentences)).
Proof.
  induction sentences as [|s r IH]; intros found Hlen.
  - simpl. rewrite firstn_nil, app_nil_r. reflexivity.
  - cbn [scanSentences filter]. cbv zeta.
    change (existsb (fun keyword => JS.includes (JS.toLowerCase s) keyword)
              keywords)
      with (mentionsAny keywords s).
    destruct (mentionsAny keywords s); [|apply IH; exact Hlen].
    cbn [map]. rewrite length_app. cbn [List.length].
    destruct (Nat.leb_spec limit (List.length found + 1)) as [Hfull|Hroom].
    + replace (limit - List.length found)%nat with 1%nat by lia.
      cbn [firstn]. reflexivity.
    + rewrite IH by (rewrite length_app; simpl; lia).
      rewrite length_app. cbn [List.length]. rewrite <- app_assoc.
      replace (limit - List.length found)%nat
        with (S (limit - (List.length found + 1)))%nat by lia.
      reflexivity.
Qed.

Lemma In_firstn_In {A} (n : nat) (l : list A) (x : A) :
  In x (firstn n l) -> In x l.
Proof.
  intros H. rewrite <- (firstn_skipn n l). apply in_or_app. left. exact H.
Qed.

Lemma trimmed_sentences_long (keywords : list string) (n : nat)
  (content : string) :
  Forall (fun s => (10 < String.length s)%nat)
    (firstn n
       (map JS.trim (filter (mentionsAny keywords) (sentencesOf content)))).
Proof.
  apply Forall_forall. intros s H. apply In_firstn_In in H.
  apply in_map_iff in H. destruct H as [x [E H]]. subst s.
  apply filter_In in H. destruct H as [H _].
  unfold sentencesOf in H. apply filter_In in H. destruct H as [_ H].
  apply Nat.ltb_lt in H. exact H.
Qed.

(** X18. The three keyword fall-backs return the trimmed sentences of the
    content that mention one of their keywords, in the order of the
    content: the first five for achievements and the first three for
    insights and for learnings.  Every sentence returned is more than ten
    characters long. *)
Theorem keyword_fallbacks_first_sentences (content : string) :
  fallbackAchievementExtraction content =
    firstn 5
      (map JS.trim
         (filter (mentionsAny achievementKeywords) (sentencesOf content))) /\
  fallbackInsightExtraction content =
    firstn 3
      (map JS.trim
         (filter (mentionsAny insightKeywords) (sentencesOf content))) /\
  fallbackLearningExtraction content =
    firstn 3
      (map JS.trim
         (filter (mentionsAny learningKeywords) (sentencesOf content))) /\
  (List.length (fallbackAchievementExtraction content) <= 5)%nat /\
  (List.length (fallbackInsightExtraction content) <= 3)%nat /\
  (List.length (fallbackLearningExtraction content) <= 3)%nat /\
  Forall (fun s => (10 < String.length s)%nat)
    (fallbackAchievementExtraction content ++
     fallbackInsightExtraction content ++
     fallbackLearningExtraction content).
Proof.
  unfold fallbackAchievementExtraction, fallbackInsightExtraction,
    fallbackLearningExtraction.
  rewrite !scanSentences_firstn by (simpl; lia). rewrite !app_nil_l.
  change (5 - List.length (@nil string))%nat with 5%nat.
  change (3 - List.length (@nil string))%nat with 3%nat.
  fold achievementKeywords insightKeywords learningKeywords.
  split; [reflexivity|]. split; [reflexivity|]. split; [reflexivity|].
  split; [apply firstn_le_length|]. split; [apply firstn_le_length|].
  split; [apply firstn_le_length|].
  repeat (apply Forall_app; split); apply trimmed_sentences_long.
Qed.

(** X19. [convertToAchievements] returns no string twice, and returns
    exactly the achievements of the processed content, its insights
    behind "Researched and documented " and its learnings behind
    "Learned and applied ", both in small letters. *)
Theorem convertToAchievements_distinct (processed : ProcessedContent) :
  NoDup (convertToAchievements processed) /\
  forall x,
    In x (convertToAchievements processed) <->
    In x (achievements processed) \/
    (exists insight,
       In insight (insights processed) /\
       x = ("Researched and documented " ++ JS.toLowerCase insight)%string) \/
    (exists learning,
       In learning (learnings processed) /\
       x = ("Learned and applied " ++ JS.toLowerCase learning)%string).
Proof.
  unfold convertToAchievements. cbv zeta.
  split; [apply uniqueFirst_NoDup|].
  intros x. rewrite uniqueFirst_In, !in_app_iff, !in_map_iff. simpl.
  split.
  - intros [[H|[[i [E H]]|[l [E H]]]] _]; [tauto | right; left | right; right];
      eexists; split; eauto.
  - intros [H|[[i [H E]]|[l [H E]]]]; (split; [|tauto]);
      [tauto | right; left | right; right]; eexists; split; eauto.
Qed.

(** X20. [processTextContent] never throws and leaves the rate limiter
    alone.  For content that is empty or all white space it makes no
    model call and returns no achievement, insight or learning, with a
    word count of 0; otherwise it makes exactly three model calls, one
    for each kind of extraction. *)
Theorem processTextContent_calls
  (generate : nat -> Prompt -> ModelReply)
  (JSON_parse : string -> option JSValue)
  (content : string) (w : World) :
  exists processed w',
    processTextContent generate JSON_parse content w =
      (Returned processed, w') /\
    limiter w' = limiter w /\
    modelCalls w' =
      (modelCalls w +
       if isBlank content || isBlank (cleanTextContent content)
       then 0 else 3)%nat /\
    (if isBlank content
     then achievements processed = [] /\
          insights processed = [] /\
          learnings processed = [] /\
          wordCount (processedMetadata processed) = 0%nat
     else wordCount (processedMetadata processed) =
          countWords (cleanTextContent content)).
Proof.
  unfold processTextContent. destruct (isBlank content).
  - unfold createEmptyResult.
    erewrite bind_returned; [|apply Date_now_ticked].
    do 2 eexists. split; [reflexivity|].
    rewrite ticked_limiter, ticked_modelCalls. simpl. repeat split; lia.
  - cbv zeta. unfold extractAchievements, extractInsights, extractLearnings.
    set (cleaned := cleanTextContent content).
    destruct (extractWith_step generate JSON_parse
                (NotionProcessingPrompt cleaned)
                fallbackAchievementExtraction cleaned w)
      as [a [w1 [E1 [_ [_ [L1 M1]]]]]].
    destruct (extractWith_step generate JSON_parse (InsightPrompt cleaned)
                fallbackInsightExtraction cleaned w1)
      as [i [w2 [E2 [_ [_ [L2 M2]]]]]].
    destruct (extractWith_step generate JSON_parse (LearningPrompt cleaned)
                fallbackLearningExtraction cleaned w2)
      as [l [w3 [E3 [_ [_ [L3 M3]]]]]].
    erewrite tryCatch_returned;
      [|erewrite bind_returned; [|exact E1];
        erewrite bind_returned; [|exact E2];
        erewrite bind_returned; [|exact E3];
        erewrite bind_returned; [|apply Date_now_ticked];
        reflexivity].
    do 2 eexists. split; [reflexivity|].
    rewrite ticked_limiter, ticked_modelCalls. simpl.
    split; [congruence|]. split; [|reflexivity].
    destruct (isBlank cleaned); lia.
Qed.

(** ** The one-call analysis *)

(** The achievements written without the model: between one and three,
    all selected, and the world changes only by the clock. *)
Lemma createBasicFallbackAchievements_step (data : GitHubData)
  (additionalContext : option string) (w : World) :
  exists l w',
    createBasicFallbackAchievements data additionalContext w =
      (Returned l, w') /\
    (1 <= List.length l <= 3)%nat /\
    Forall (fun a => selected a = true /\ achievementSource a = "github"%string)
      l /\
    modelCalls w' = modelCalls w /\
    limiter w' = limiter w.
Proof.
  unfold createBasicFallbackAchievements.
  destruct (negb (isEmpty (commits data))),
    (negb (isEmpty (pullRequests data))),
    (negb (isFalsy additionalContext));
    unfold bind, ret; rewrite ?Date_now_ticked; cbn [isEmpty app];
    rewrite ?Date_now_ticked;
    (do 2 eexists; split; [reflexivity|]);
    rewrite ?ticked_modelCalls, ?ticked_limiter; cbn [List.length];
    (split; [lia|]); (split; [|split; reflexivity]);
    repeat (apply Forall_cons; [split; reflexivity|]); apply Forall_nil.
Qed.

(** The array of the reply, element by element. *)
Lemma toAchievements_step (prefix : string) (items : list JSValue) :
  forall (index : nat) (w : World),
  exists l w',
    toAchievements prefix items index w = (Returned l, w') /\
    map text l = items /\
    Forall (fun a => selected a = true /\ achievementSource a = "github"%string)
      l /\
    modelCalls w' = modelCalls w /\
    limiter w' = limiter w.
Proof.
  induction items as [|v r IH]; intros index w.
  - do 2 eexists. split; [reflexivity|]. repeat split. constructor.
  - cbn [toAchievements].
    erewrite bind_returned; [|apply Date_now_ticked].
    destruct (IH (S index) (ticked w)) as [l [w' [E [Ht [Hs [Hm Hl]]]]]].
    erewrite bind_returned; [|exact E].
    do 2 eexists. split; [reflexivity|].
    cbn [map text]. rewrite Ht, Hm, Hl, ticked_modelCalls, ticked_limiter.
    repeat split. constructor; [split; reflexivity | exact Hs].
Qed.

Section OneCall.

Variable generate : nat -> Prompt -> ModelReply.
Variable JSON_parse : string -> option JSValue.

(** [optimizedSingleCallAnalysis] waits for the limiter, calls the model
    once, and returns the elements of the array in the reply, or else the
    achievements written without the model. *)
Lemma optimizedSingleCallAnalysis_step (data : GitHubData)
  (additionalContext : option string) (pdfFiles : list File) (w : World) :
  exists l w1 w',
    optimizedSingleCallAnalysis generate JSON_parse data additionalContext
      pdfFiles w = (Returned l, w') /\
    waitForAvailability w = (Returned tt, w1) /\
    limiter w' = limiter w1 /\
    modelCalls w' = S (modelCalls w) /\
    match
      generate (modelCalls w)
        (ComprehensivePrompt (map message (commits data))
           (map describePullRequest (pullRequests data))
           (if isFalsy additionalContext then None else additionalContext)
           (map name pdfFiles))
    with
    | ModelText reply =>
        match JSON_parse (stripCodeFence (JS.trim reply)) with
        | Some (JArray items) => map text l = items
        | _ => (1 <= List.length l <= 3)%nat
        end
    | ModelRejects => (1 <= List.length l <= 3)%nat
    end.
Proof.
  unfold optimizedSingleCallAnalysis. cbv zeta.
  set (prompt := ComprehensivePrompt _ _ _ _).
  destruct (waitForAvailability_records w) as [w1 [Ew [_ [_ [_ [Hm _]]]]]].
  set (w2 := {| clock := clock w1; ticks := ticks w1;
                modelCalls := S (modelCalls w1); limiter := limiter w1 |}).
  assert (Hfall :
            forall body,
              (exists e, body w = (Threw e, w2)) ->
              exists l w',
                tryCatch body
                  (fun _ =>
                     createBasicFallbackAchievements data additionalContext)
                  w = (Returned l, w') /\
                limiter w' = limiter w1 /\
                modelCalls w' = S (modelCalls w1) /\
                (1 <= List.length l <= 3)%nat).
  { intros body [e E].
    destruct (createBasicFallbackAchievements_step data additionalContext w2)
      as [l [w' [El [Hlen [_ [Hmc Hl]]]]]].
    exists l, w'. erewrite tryCatch_threw; [|exact E].
    split; [exact El|]. rewrite Hl, Hmc. simpl. repeat split; lia. }
  rewrite <- Hm.
  match goal with
  | |- context [tryCatch ?b _ w] => set (body := b)
  end.
  destruct (generate (modelCalls w1) prompt) as [|reply] eqn:G.
  - destruct (Hfall body) as [l [w' [El [Hl [Hmc Hlen]]]]].
    { eexists. subst body. erewrite bind_threw; [reflexivity|].
      unfold execute. erewrite bind_returned; [|exact Ew].
      unfold generateContent. rewrite G. reflexivity. }
    exists l, w1, w'. repeat split; try assumption; lia.
  - assert (Eg : execute (generateContent generate prompt) w =
                 (Returned reply, w2)).
    { unfold execute. erewrite bind_returned; [|exact Ew].
      unfold generateContent. rewrite G. reflexivity. }
    assert (Hother :
              forall e,
                body w = (Threw e, w2) ->
                exists l w0 w',
                  tryCatch body
                    (fun _ =>
                       createBasicFallbackAchievements data additionalContext)
                    w = (Returned l, w') /\
                  waitForAvailability w = (Returned tt, w0) /\
                  limiter w' = limiter w0 /\
                  modelCalls w' = S (modelCalls w1) /\
                  (1 <= List.length l <= 3)%nat).
    { intros e E. destruct (Hfall body) as [l [w' [El [Hl [Hmc Hlen]]]]];
        [eexists; exact E|].
      exists l, w1, w'. repeat split; try assumption; lia. }
    destruct (JSON_parse (stripCodeFence (JS.trim reply))) as [parsed|] eqn:P.
    + destruct parsed as [| b | n | s | items | fields];
        try (apply (Hother TypeError); subst body;
             erewrite bind_returned; [|exact Eg]; cbv beta;
             unfold parseJSON; rewrite P;
             erewrite bind_returned; [|reflexivity]; reflexivity).
      destruct (toAchievements_step "ai-optimized-" items 0 w2)
        as [out [w' [Eo [Ht [_ [Hmc Hl]]]]]].
      exists out, w1, w'.
      erewrite tryCatch_returned;
        [|subst body; erewrite bind_returned; [|exact Eg]; cbv beta;
          unfold parseJSON; rewrite P;
          erewrite bind_returned; [|reflexivity]; exact Eo].
      rewrite Hl, Hmc. simpl. repeat split; assumption.
    + apply (Hother SyntaxError). subst body.
      erewrite bind_returned; [|exact Eg]. cbv beta.
      unfold parseJSON. rewrite P. reflexivity.
Qed.

End OneCall.

(** X21. [quickAnalyze] never throws, calls the model exactly once and
    records exactly one call with the limiter, behind the recorded calls
    it keeps.  When the reply parses to an array, the achievements carry
    its elements, one each and in order; in every other case between one
    and three achievements are written without the model. *)
Theorem quickAnalyze_one_call
  (generate : nat -> Prompt -> ModelReply)
  (JSON_parse : string -> option JSValue)
  (data : GitHubData) (additionalContext : option string)
  (pdfFiles : list File) (w : World) :
  exists achievements w',
    quickAnalyze generate JSON_parse data additionalContext pdfFiles w =
      (Returned achievements, w') /\
    modelCalls w' = S (modelCalls w) /\
    (exists kept t,
       requests (limiter w') = kept ++ [t] /\
       incl kept (requests (limiter w))) /\
    match
      generate (modelCalls w)
        (ComprehensivePrompt (map message (commits data))
           (map describePullRequest (pullRequests data))
           (if isFalsy additionalContext then None else additionalContext)
           (map name pdfFiles))
    with
    | ModelText reply =>
        match JSON_parse (stripCodeFence (JS.trim reply)) with
        | Some (JArray items) => map text achievements = items
        | _ => (1 <= List.length achievements <= 3)%nat
        end
    | ModelRejects => (1 <= List.length achievements <= 3)%nat
    end.
Proof.
  unfold quickAnalyze.
  destruct (getUsageStats_reads w)
    as [stats [wA [Es [_ [Hreq [_ [_ [HmA _]]]]]]]].
  destruct (optimizedSingleCallAnalysis_step generate JSON_parse data
              additionalContext pdfFiles wA)
    as [l [wB [w' [Eo [Ew [Hl [Hm Hreply]]]]]]].
  destruct (waitForAvailability_records wA) as [wB' [Ew' [Hrec _]]].
  rewrite Ew in Ew'. injection Ew' as <-.
  exists l, w'.
  erewrite tryCatch_returned;
    [|erewrite bind_returned; [|exact Es];
      erewrite bind_returned; [|exact Eo]; reflexivity].
  split; [reflexivity|]. split; [lia|]. split.
  - do 2 eexists. rewrite Hl. split; [exact Hrec|].
    intros t Ht. unfold pruned in Ht. apply filter_In in Ht.
    destruct Ht as [Ht _]. rewrite Hreq in Ht. unfold pruned in Ht.
    apply filter_In in Ht. tauto.
  - rewrite <- HmA. exact Hreply.
Qed.

(** X22. [analyzeGitHubActivity] is [quickAnalyze]: since that never
    throws, the handler with the second, basic prompt is never run. *)
Theorem analyzeGitHubActivity_is_quickAnalyze
  (generate : nat -> Prompt -> ModelReply)
  (JSON_parse : string -> option JSValue)
  (data : GitHubData) (additionalContext : option string)
  (pdfFiles : list File) (w : World) :
  analyzeGitHubActivity generate JSON_parse data additionalContext pdfFiles w =
  quickAnalyze generate JSON_parse data additionalContext pdfFiles w.
Proof.
  unfold analyzeGitHubActivity.
  destruct (quickAnalyze_total generate JSON_parse data additionalContext
              pdfFiles w) as [l [w' [E _]]].
  erewrite tryCatch_returned; [|exact E]. symmetry. exact E.
Qed.

(** ** The agent: sources, score and counters *)

Lemma weights_at_least (activities : list CategorizedActivity) :
  forall acc,
    acc + 5 * Z.of_nat (List.length activities) <=
    fold_left (fun acc a => acc + weightTenths (source a)) activities acc.
Proof.
  induction activities as [|a r IH]; intros acc; cbn [fold_left List.length].
  - lia.
  - specialize (IH (acc + weightTenths (source a))).
    assert (5 <= weightTenths (source a))
      by (destruct (source a); simpl; lia).
    lia.
Qed.

Lemma sources_nonempty (a : CategorizedActivity)
  (r : list CategorizedActivity) :
  (1 <=
   List.length
     (filter (fun s => existsb (fun x => sameSource (source x) s) (a :: r))
        [commit; pr; notion; manual]))%nat.
Proof.
  assert (H : In (source a)
                (filter
                   (fun s => existsb (fun x => sameSource (source x) s)
                               (a :: r))
                   [commit; pr; notion; manual])).
  { apply filter_In. split.
    - destruct (source a); simpl; tauto.
    - cbn [existsb]. destruct (source a); reflexivity. }
  destruct (filter _ _); [destruct H | simpl; lia].
Qed.


Lemma returns_forEachM_each {A B} (f : A -> M B) (R : A -> B -> Prop)
  (xs : list A) :
  (forall x, returns (f x) (R x)) -> returns (forEachM f xs) (Forall2 R xs).
Proof.
  intros Hf. induction xs as [|x r IH]; simpl.
  - apply returns_ret. constructor.
  - apply (returns_bind _ _ (R x)); [apply Hf|]. intros y Ry.
    apply (returns_bind _ _ (Forall2 R r)); [exact IH|]. intros ys Rys.
    apply returns_ret. constructor; assumption.
Qed.

Lemma classifyActivities_classifiedAs
  (generate : nat -> Prompt -> ModelReply)
  (texts : list string) (src : Source) :
  returns (classifyActivities generate texts src) (classifiedAs texts src).
Proof.
  unfold classifyActivities.
  eapply returns_weaken.
  - apply (returns_forEachM_each _
             (fun activity a =>
                originalText a = activity /\ source a = src /\ wellTyped a)).
    intros activity. apply returns_tryCatch_body.
    apply (returns_bind _ _ (fun c => In c validCategories));
      [apply classifyActivity_returns|].
    intros c Hc. apply returns_ret. repeat split. exact Hc.
  - intros out H. unfold classifiedAs.
    induction H as [|x a xs out' [Ho [Hs Hw]] _ [IHm IHf]];
      [split; constructor|].
    split; [cbn [map]; congruence|]. constructor; [split; assumption|].
    exact IHf.
Qed.

Section Sources.

Variable generate : nat -> Prompt -> ModelReply.
Variable JSON_parse : string -> option JSValue.
Variable toLocaleDateString : string -> string.

Lemma classifiedAs_nothing {A} (f : A -> string) (l : list A) (src : Source) :
  negb (isEmpty l) = false -> classifiedAs (map f l) src [].
Proof.
  destruct l; [|discriminate]. intros _. split; constructor.
Qed.

Lemma processAllSources_classified (input : AIAgentInput) :
  returns (processAllSources generate JSON_parse input)
    (fun activities =>
       exists fromCommits fromPullRequests fromText,
         activities = fromCommits ++ fromPullRequests ++ fromText /\
         classifiedAs (map message (commits (githubData input))) commit
           fromCommits /\
         classifiedAs
           (map describePullRequest (pullRequests (githubData input))) pr
           fromPullRequests /\
         Forall (fun a => (source a = notion \/ source a = manual) /\
                          wellTyped a) fromText).
Proof.
  unfold processAllSources. cbv zeta.
  apply (returns_bind _ _
           (classifiedAs (map message (commits (githubData input))) commit)).
  { destruct (negb (isEmpty (commits (githubData input)))) eqn:E.
    - apply classifyActivities_classifiedAs.
    - apply returns_ret. apply classifiedAs_nothing. exact E. }
  intros fromCommits Hc.
  apply (returns_bind _ _
           (classifiedAs
              (map describePullRequest (pullRequests (githubData input)))
              pr)).
  { destruct (negb (isEmpty (pullRequests (githubData input)))) eqn:E.
    - apply classifyActivities_classifiedAs.
    - apply returns_ret. apply classifiedAs_nothing. exact E. }
  intros fromPullRequests Hp.
  apply (returns_bind _ _
           (Forall (fun a => source a = notion /\ wellTyped a))).
  { destruct (negb (isFalsy (notionContent input))).
    - apply returns_bind_any; [apply processTextContent_total|].
      intros processed. eapply returns_weaken;
        [apply classifyActivities_classifiedAs|].
      intros out [_ H]. exact H.
    - apply returns_ret. constructor. }
  intros fromNotion Hn.
  apply (returns_bind _ _
           (Forall (fun a => source a = manual /\ wellTyped a))).
  { destruct (negb (isFalsy (additionalContext input))).
    - apply returns_bind_any; [apply processTextContent_total|].
      intros processed. eapply returns_weaken;
        [apply classifyActivities_classifiedAs|].
      intros out [_ H]. exact H.
    - apply returns_ret. constructor. }
  intros fromContext Hx.
  apply returns_ret.
  exists fromCommits, fromPullRequests, (fromNotion ++ fromContext).
  repeat split; try apply Hc; try apply Hp.
  apply Forall_app. split.
  - eapply Forall_impl; [|exact Hn]. intros a [H1 H2]. tauto.
  - eapply Forall_impl; [|exact Hx]. intros a [H1 H2]. tauto.
Qed.

End Sources.


Lemma sumCounts_increment (key : string) (counts : Counts) :
  sumCounts (increment key counts) = sumCounts counts + 1.
Proof.
  induction counts as [|[k n] r IH]; cbn [increment].
  - reflexivity.
  - destruct (String.eqb k key); unfold sumCounts in *; cbn [fold_right snd];
      [|rewrite IH]; lia.
Qed.

Lemma sumCounts_fold {A} (f : A -> string) (l : list A) :
  forall counts,
    sumCounts (fold_left (fun counts a => increment (f a) counts) l counts) =
    sumCounts counts + Z.of_nat (List.length l).
Proof.
  induction l as [|a r IH]; intros counts; cbn [fold_left List.length].
  - lia.
  - rewrite IH, sumCounts_increment. lia.
Qed.

Lemma countOf_increment (key k : string) (counts : Counts) :
  countOf key (increment k counts) =
  if String.eqb k key
  then Some (match countOf key counts with
             | Some n => n + 1
             | None => 1
             end)
  else countOf key counts.
Proof.
  induction counts as [|[k0 n] r IH]; cbn [increment countOf].
  - reflexivity.
  - destruct (String.eqb k0 k) eqn:E0.
    + apply String.eqb_eq in E0. subst k0. cbn [countOf].
      destruct (String.eqb k key); reflexivity.
    + cbn [countOf]. rewrite IH.
      destruct (String.eqb k key) eqn:E1; [|reflexivity].
      apply String.eqb_eq in E1. subst key. rewrite E0. reflexivity.
Qed.

Lemma countOf_fold {A} (f : A -> string) (key : string) (l : list A) :
  forall counts,
    countOf key (fold_left (fun counts a => increment (f a) counts) l counts) =
    match countOf key counts with
    | Some n =>
        Some (n + Z.of_nat
                    (List.length (filter (fun a => String.eqb (f a) key) l)))
    | None => tally f key l
    end.
Proof.
  unfold tally.
  induction l as [|a r IH]; intros counts; cbn [fold_left filter].
  - destruct (countOf key counts); [f_equal; simpl; lia | reflexivity].
  - rewrite IH, countOf_increment.
    destruct (String.eqb (f a) key); [|reflexivity].
    cbn [List.length].
    destruct (countOf key counts); cbv zeta.
    + f_equal. lia.
    + cbn [Nat.eqb]. f_equal. lia.
Qed.

(** X25. The counters of [getAnalysisStats], for activities whose
    categories are of the taxonomy: each table adds up to the number of
    activities, and under a key stands the number of activities filed
    under it, or nothing when there is none. *)
Theorem getAnalysisStats_counts (output : AIAgentOutput) (key : string) :
  Forall wellTyped (categorizedActivities output) ->
  let stats := getAnalysisStats output in
  let activities := categorizedActivities output in
  sumCounts (byCategory stats) = Z.of_nat (List.length activities) /\
  sumCounts (bySource stats) = Z.of_nat (List.length activities) /\
  sumCounts (byImpact stats) = Z.of_nat (List.length activities) /\
  countOf key (byCategory stats) = tally category key activities /\
  countOf key (bySource stats) =
    tally (fun a => sourceName (source a)) key activities /\
  countOf key (byImpact stats) =
    tally (fun a => impactName (impact a)) key activities.
Proof.
  intros _. cbv zeta. unfold getAnalysisStats. cbn [byCategory bySource byImpact].
  rewrite (sumCounts_fold category),
    (sumCounts_fold (fun a => sourceName (source a))),
    (sumCounts_fold (fun a => impactName (impact a))).
  rewrite (countOf_fold category),
    (countOf_fold (fun a => sourceName (source a))),
    (countOf_fold (fun a => impactName (impact a))).
  repeat split.
Qed.

Lemma getAnalysisStats_counts_witness :
  countOf "fix"
    (byCategory
       (getAnalysisStats
          {| weeklySummary := emptySummary;
             categorizedActivities :=
               [sampleActivity "fix" "a"; sampleActivity "docs" "b";
                sampleActivity "fix" "c"];
             metadata := {| totalActivities := 3; analysisTimestamp := 0;
                            confidenceScore := 0 |} |})) = Some 2.
Proof.
  refine (proj1 (proj2 (proj2 (proj2
    (getAnalysisStats_counts
       {| weeklySummary := emptySummary;
          categorizedActivities :=
            [sampleActivity "fix" "a"; sampleActivity "docs" "b";
             sampleActivity "fix" "c"];
          metadata := {| totalActivities := 3; analysisTimestamp := 0;
                         confidenceScore := 0 |} |} "fix" _))))).
  repeat constructor; unfold wellTyped; simpl; tauto.
Defined.

(** ** The route *)


(** ** The log buffer *)

Lemma sliceFrom_last {A} (n : nat) (l : list A) :
  (1 <= n)%nat -> ServerLogManager.sliceFrom (- Z.of_nat n) l = lastN n l.
Proof.
  intros H. unfold ServerLogManager.sliceFrom, lastN. cbv zeta.
  replace (- Z.of_nat n <? 0) with true by (symmetry; apply Z.ltb_lt; lia).
  f_equal. lia.
Qed.

Lemma lastN_short {A} (n : nat) (l : list A) :
  (List.length l <= n)%nat -> lastN n l = l.
Proof.
  intros H. unfold lastN.
  replace (List.length l - n)%nat with 0%nat by lia. reflexivity.
Qed.

Lemma lastN_length {A} (n : nat) (l : list A) :
  List.length (lastN n l) = Nat.min n (List.length l).
Proof.
  unfold lastN. rewrite length_skipn. lia.
Qed.

Lemma lastN_app_lastN {A} (n : nat) (l r : list A) :
  lastN n (lastN n l ++ r) = lastN n (l ++ r).
Proof.
  unfold lastN. set (k := (List.length l - n)%nat).
  transitivity
    (skipn (List.length (l ++ r) - n) (firstn k l ++ (skipn k l ++ r)));
    [|rewrite app_assoc, firstn_skipn; reflexivity].
  rewrite (skipn_app (List.length (l ++ r) - n)).
  rewrite (skipn_all2 (n := List.length (l ++ r) - n) (firstn k l))
    by (rewrite length_firstn, length_app; lia).
  rewrite app_nil_l. f_equal.
  rewrite !length_app, length_skipn, length_firstn. lia.
Qed.

Lemma addLog_lastN (c : LogCall)
  (logs : list ServerLogManager.ServerLogMessage) :
  ServerLogManager.addLog (callNow c) (callRandom c) (callStamp c)
    (callLevel c) (callMessage c) (callSource c) logs =
  lastN 50 (logs ++ [logOf c]).
Proof.
  unfold ServerLogManager.addLog. cbv zeta. fold (logOf c).
  destruct (ServerLogManager.maxLogs <? List.length (logs ++ [logOf c]))%nat
    eqn:E.
  - apply sliceFrom_last. unfold ServerLogManager.maxLogs. lia.
  - apply Nat.ltb_ge in E. symmetry. apply lastN_short. exact E.
Qed.

Lemma addLogs_lastN (calls : list LogCall) :
  forall c logs,
    addLogs (c :: calls) logs = lastN 50 (logs ++ map logOf (c :: calls)).
Proof.
  induction calls as [|c' r IH]; intros c logs.
  - apply addLog_lastN.
  - change (addLogs (c :: c' :: r) logs)
      with (addLogs (c' :: r)
              (ServerLogManager.addLog (callNow c) (callRandom c)
                 (callStamp c) (callLevel c) (callMessage c) (callSource c)
                 logs)).
    rewrite IH, addLog_lastN, lastN_app_lastN, <- app_assoc. reflexivity.
Qed.

(** X27. The buffer of [addLog]: after any number of calls it holds the
    last 50 messages logged, oldest first, and so never more than 50;
    whatever the buffer held, one call leaves at most 50. *)
Theorem addLog_keeps_last_fifty (calls : list LogCall) :
  addLogs calls [] = lastN 50 (map logOf calls) /\
  (List.length (addLogs calls []) <= 50)%nat /\
  forall c logs,
    addLogs (c :: calls) logs = lastN 50 (logs ++ map logOf (c :: calls)) /\
    (List.length (addLogs (c :: calls) logs) <= 50)%nat.
Proof.
  assert (H : addLogs calls [] = lastN 50 (map logOf calls)).
  { destruct calls as [|c r]; [reflexivity|]. apply addLogs_lastN. }
  split; [exact H|]. split.
  - rewrite H, lastN_length. lia.
  - intros c logs. rewrite addLogs_lastN, lastN_length. split; [reflexivity|].
    lia.
Qed.

(** X28. [getRecentLogs(count)] returns the last [count] messages for a
    positive [count]; for 0 it returns the whole buffer, and for a
    negative [count] the buffer without its first [-count] messages. *)
Theorem getRecentLogs_slice (count : Z)
  (logs : list ServerLogManager.ServerLogMessage) :
  ServerLogManager.getRecentLogs count logs =
  if 0 <? count then lastN (Z.to_nat count) logs
  else skipn (Z.to_nat (- count)) logs.
Proof.
  unfold ServerLogManager.getRecentLogs.
  destruct (0 <? count) eqn:E.
  - apply Z.ltb_lt in E.
    rewrite <- (Z2Nat.id count) at 1 by lia.
    apply sliceFrom_last. lia.
  - apply Z.ltb_ge in E. unfold ServerLogManager.sliceFrom. cbv zeta.
    replace (- count <? 0) with false by (symmetry; apply Z.ltb_ge; lia).
    destruct (Z.min_spec (- count) (Z.of_nat (List.length logs)))
      as [[_ ->]|[Hle ->]]; [reflexivity|].
    rewrite Nat2Z.id, !skipn_all2; [reflexivity | lia | lia].
Qed.

Lemma countLevel_fold (logs : list ServerLogManager.ServerLogMessage) :
  forall c,
    let counted :=
      fold_left
        (fun c log =>
           ServerLogManager.countLevel c (ServerLogManager.level log))
        logs c in
    let filed lvl :=
      Z.of_nat (List.length (ServerLogManager.getLogsByLevel lvl logs)) in
    ServerLogManager.infoCount counted =
      ServerLogManager.infoCount c + filed ServerLogManager.info /\
    ServerLogManager.successCount counted =
      ServerLogManager.successCount c + filed ServerLogManager.success /\
    ServerLogManager.warningCount counted =
      ServerLogManager.warningCount c + filed ServerLogManager.warning /\
    ServerLogManager.errorCount counted =
      ServerLogManager.errorCount c + filed ServerLogManager.error.
Proof.
  induction logs as [|log r IH]; intros c; cbv zeta.
  - cbn. lia.
  - cbn [fold_left].
    destruct (IH (ServerLogManager.countLevel c (ServerLogManager.level log)))
      as [Hi [Hs [Hw He]]].
    rewrite Hi, Hs, Hw, He.
    unfold ServerLogManager.getLogsByLevel. cbn [filter].
    destruct (ServerLogManager.level log); cbn; lia.
Qed.

Lemma levels_partition (logs : list ServerLogManager.ServerLogMessage) :
  (List.length (ServerLogManager.getLogsByLevel ServerLogManager.info logs) +
   List.length (ServerLogManager.getLogsByLevel ServerLogManager.success logs) +
   List.length (ServerLogManager.getLogsByLevel ServerLogManager.warning logs) +
   List.length (ServerLogManager.getLogsByLevel ServerLogManager.error logs) =
   List.length logs)%nat.
Proof.
  unfold ServerLogManager.getLogsByLevel.
  induction logs as [|log r IH]; [reflexivity|].
  cbn [filter]. destruct (ServerLogManager.level log); cbn; lia.
Qed.

(** X29. The statistics of [getStats]: the count of a level is the number
    of messages [getLogsByLevel] returns for it, and the four counts add
    up to the total. *)
Theorem getStats_by_level (logs : list ServerLogManager.ServerLogMessage) :
  let stats := ServerLogManager.getStats logs in
  let filed lvl :=
    Z.of_nat (List.length (ServerLogManager.getLogsByLevel lvl logs)) in
  ServerLogManager.infoCount (ServerLogManager.byLevel stats) =
    filed ServerLogManager.info /\
  ServerLogManager.successCount (ServerLogManager.byLevel stats) =
    filed ServerLogManager.success /\
  ServerLogManager.warningCount (ServerLogManager.byLevel stats) =
    filed ServerLogManager.warning /\
  ServerLogManager.errorCount (ServerLogManager.byLevel stats) =
    filed ServerLogManager.error /\
  ServerLogManager.infoCount (ServerLogManager.byLevel stats) +
  ServerLogManager.successCount (ServerLogManager.byLevel stats) +
  ServerLogManager.warningCount (ServerLogManager.byLevel stats) +
  ServerLogManager.errorCount (ServerLogManager.byLevel stats) =
    Z.of_nat (ServerLogManager.total stats).
Proof.
  cbv zeta. unfold ServerLogManager.getStats.
  cbn [ServerLogManager.byLevel ServerLogManager.total].
  destruct (countLevel_fold logs
              {| ServerLogManager.infoCount := 0;
                 ServerLogManager.successCount := 0;
                 ServerLogManager.warningCount := 0;
                 ServerLogManager.errorCount := 0 |})
    as [Hi [Hs [Hw He]]].
  cbn [ServerLogManager.infoCount ServerLogManager.successCount
       ServerLogManager.warningCount ServerLogManager.errorCount] in *.
  rewrite Hi, Hs, Hw, He. pose proof (levels_partition logs).
  repeat split; lia.
Qed.

(** ** Addresses of repositories *)

Lemma takeSegment_slashFree (s : string) :
  slashFree s = true -> takeSegment s = (s, EmptyString).
Proof.
  induction s as [|c r IH]; cbn [slashFree takeSegment]; [reflexivity|].
  intros H. apply andb_prop in H. destruct H as [Hc Hr].
  destruct (isSlash c); [discriminate|]. rewrite (IH Hr). reflexivity.
Qed.

Lemma takeSegment_append (a r : string) :
  slashFree a = true ->
  takeSegment (a ++ String "/" r) = (a, String "/" r).
Proof.
  induction a as [|c a' IH]; cbn [slashFree String.append]; intros H.
  - reflexivity.
  - apply andb_prop in H. destruct H as [Hc Hr].
    cbn [takeSegment]. destruct (isSlash c); [discriminate|].
    rewrite (IH Hr). reflexivity.
Qed.

(** X30. A repository written "owner/repo" survives the two helpers:
    when owner and repo are not empty and hold no slash, and the text does
    not begin with "http", [extractRepoFromUrl] finds exactly that owner
    and that repo in what [formatGitHubUrl] makes of it. *)
Theorem extractRepoFromUrl_formatGitHubUrl (owner repo : string) :
  owner <> EmptyString ->
  repo <> EmptyString ->
  slashFree owner = true ->
  slashFree repo = true ->
  JS.startsWith (owner ++ "/" ++ repo) "http" = false ->
  formatGitHubUrl (owner ++ "/" ++ repo) =
    ("https://github.com/" ++ owner ++ "/" ++ repo)%string /\
  extractRepoFromUrl (formatGitHubUrl (owner ++ "/" ++ repo)) =
    Some (owner, repo).
Proof.
  intros Ho Hr So Sr Hh. unfold formatGitHubUrl. rewrite Hh. cbn [negb].
  split; [reflexivity|].
  cbn [String.append extractRepoFromUrl matchRepoHere JS.afterPrefix
       Ascii.eqb Bool.eqb].
  change (String "/" repo) with ("/" ++ repo)%string.
  cbn [String.append]. rewrite (takeSegment_append owner repo So).
  rewrite (takeSegment_slashFree repo Sr).
  destruct owner as [|c o]; [contradiction Ho; reflexivity|].
  destruct repo as [|d r]; [contradiction Hr; reflexivity|].
  reflexivity.
Qed.

Lemma extractRepoFromUrl_formatGitHubUrl_witness :
  extractRepoFromUrl (formatGitHubUrl "octocat/hello-world") =
    Some ("octocat"%string, "hello-world"%string).
Proof.
  refine (proj2 (extractRepoFromUrl_formatGitHubUrl "octocat" "hello-world"
                   _ _ _ _ _));
    [discriminate | discriminate | reflexivity | reflexivity | reflexivity].
Defined.
